(** * MedTrack: schedule projection, adherence aggregation and dose logging

    A shallow embedding of the computations of the medication tracker's
    pages (Dashboard, Calendar, Dose Logging, Add Medication, Analytics)
    together with the part of the JavaScript run time and of date-fns
    they rest on, followed by the properties of these computations. *)

From Stdlib Require Import ZArith QArith Qround Qabs List String Ascii Bool.
From Stdlib Require Import Lia Lqa Permutation Sorted SpecFloat.
Import ListNotations.
Local Open Scope Z_scope.

(* ================================================================== *)
(** * The JavaScript run time *)
(* ================================================================== *)

Module JS.

(** ** Integral Numbers and NaN

    Time components, time values and differences of time values are
    Numbers that are either NaN or an integer well inside the range where
    binary64 arithmetic on integers is exact. *)

Inductive num : Type :=
| NaN
| Num (z : Z).

Definition lt (a b : num) : bool :=
  match a, b with
  | Num x, Num y => x <? y
  | _, _ => false
  end.

Definition gt (a b : num) : bool := lt b a.

Definition le (a b : num) : bool :=
  match a, b with
  | Num x, Num y => x <=? y
  | _, _ => false
  end.

Definition ge (a b : num) : bool := le b a.

Definition strict_eq (a b : num) : bool :=
  match a, b with
  | Num x, Num y => x =? y
  | _, _ => false
  end.

Definition sub (a b : num) : num :=
  match a, b with
  | Num x, Num y => Num (x - y)
  | _, _ => NaN
  end.

(** ** Dates (ECMA-262, Date objects)

    A Date is its time value: milliseconds since the epoch, or NaN for an
    invalid date.

    The local time zone is its [LocalTZA(t, isUTC)]: the offset of local
    time from UTC in milliseconds, at the instant [t] when [isUTC] is
    true, and for the local time value [t] when [isUTC] is false (a
    local time that a transition skips or repeats is read with the offset
    the implementation picks for it).  A zone without transitions is
    written as its constant offset. *)

Definition Date : Type := num.

Definition msPerSecond : Z := 1000.
Definition msPerMinute : Z := 60000.
Definition msPerHour : Z := 3600000.
Definition msPerDay : Z := 86400000.
Definition maxTime : Z := 8640000000000000.

Definition Day (t : Z) : Z := t / msPerDay.
Definition TimeWithinDay (t : Z) : Z := t mod msPerDay.

Definition Zone : Type := Z -> bool -> Z.

(** The zone without transitions whose offset is [tza]. *)
Definition fixed (tza : Z) : Zone := fun _ _ => tza.

Definition LocalTime (zone : Zone) (t : Z) : Z := t + zone t true.
Definition UTC (zone : Zone) (t : Z) : Z := t - zone t false.

(** [MakeTime] and [MakeDate] on integral components.  The run time
    computes them in binary64, which is exact as long as the products
    and sums stay below 2^53 in absolute value; the properties below
    use them with hours and minutes of at most two digits. *)
Definition MakeTime (hour min sec ms : num) : num :=
  match hour, min, sec, ms with
  | Num h, Num m, Num s, Num milli =>
      Num (h * msPerHour + m * msPerMinute + s * msPerSecond + milli)
  | _, _, _, _ => NaN
  end.

Definition MakeDate (day time : num) : num :=
  match day, time with
  | Num d, Num t => Num (d * msPerDay + t)
  | _, _ => NaN
  end.

Definition TimeClip (time : num) : num :=
  match time with
  | Num t => if Z.abs t <=? maxTime then Num t else NaN
  | NaN => NaN
  end.

Definition toUTC (zone : Zone) (local : num) : num :=
  match local with
  | Num t => Num (UTC zone t)
  | NaN => NaN
  end.

(** [d.setHours(hour, min, sec, ms)]: the new time value of [d]. *)
Definition setHours (zone : Zone) (d : Date) (hour min sec ms : num) : Date :=
  match d with
  | NaN => NaN
  | Num t =>
      let t' := LocalTime zone t in
      TimeClip (toUTC zone (MakeDate (Num (Day t')) (MakeTime hour min sec ms)))
  end.

(** [d.setDate(d.getDate() + 1)]: MakeDay of the year and month of [d] and
    of its day of the month plus one is the day after [Day], so the local
    time value moves forward by one day and keeps its time within the
    day. *)
Definition setDate_getDate_plus_1 (zone : Zone) (d : Date) : Date :=
  match d with
  | NaN => NaN
  | Num t =>
      let t' := LocalTime zone t in
      TimeClip (toUTC zone (MakeDate (Num (Day t' + 1)) (Num (TimeWithinDay t'))))
  end.

(** ** Array.prototype.sort

    The sort is stable; a comparator result of NaN counts as +0.  For a
    consistent comparator every stable sort returns the same array, here
    the one of insertion from the right.  With an inconsistent
    comparator (here: when a date in the array is invalid) the order is
    implementation-defined and engines do not return the order of this
    definition; the properties below that speak of the order of a
    sorted array assume valid dates, and the others hold of every
    permutation. *)

Definition SortCompare {A : Type} (comparefn : A -> A -> num) (x y : A) : Z :=
  match comparefn x y with
  | NaN => 0
  | Num v => v
  end.

Fixpoint insert {A : Type} (comparefn : A -> A -> num) (x : A) (l : list A)
  : list A :=
  match l with
  | [] => [x]
  | y :: l' =>
      if SortCompare comparefn x y <=? 0 then x :: y :: l'
      else y :: insert comparefn x l'
  end.

Fixpoint sort {A : Type} (comparefn : A -> A -> num) (l : list A) : list A :=
  match l with
  | [] => []
  | x :: l' => insert comparefn x (sort comparefn l')
  end.

(** [a.slice(0, n)] *)
Definition slice0 {A : Type} (n : nat) (l : list A) : list A := firstn n l.

(** ** Strings

    A string is its sequence of code units (below 256 here). *)

Fixpoint split (sep : ascii) (s : string) : list string :=
  match s with
  | EmptyString => [EmptyString]
  | String c rest =>
      if Ascii.eqb c sep then EmptyString :: split sep rest
      else match split sep rest with
           | [] => [String c EmptyString]
           | field :: fields => String c field :: fields
           end
  end.

(** White space of StringToNumber: TAB, LF, VT, FF, CR, SP, NBSP. *)
Definition isWhiteSpace (c : ascii) : bool :=
  let n := nat_of_ascii c in
  ((9 <=? n) && (n <=? 13))%nat || (n =? 32)%nat || (n =? 160)%nat.

Fixpoint trimStart (s : string) : string :=
  match s with
  | EmptyString => EmptyString
  | String c rest => if isWhiteSpace c then trimStart rest else s
  end.

Fixpoint trimEnd (s : string) : string :=
  match s with
  | EmptyString => EmptyString
  | String c rest =>
      match trimEnd rest with
      | EmptyString => if isWhiteSpace c then EmptyString else String c EmptyString
      | rest' => String c rest'
      end
  end.

Definition trim (s : string) : string := trimEnd (trimStart s).

Definition digitValue (c : ascii) : option Z :=
  let n := nat_of_ascii c in
  if ((48 <=? n) && (n <=? 57))%nat then Some (Z.of_nat n - 48) else None.

(** The value of a run of decimal digits read after [acc]; None when a
    code unit is not a digit. *)
Fixpoint decimalDigits (acc : Z) (s : string) : option Z :=
  match s with
  | EmptyString => Some acc
  | String c rest =>
      match digitValue c with
      | Some d => decimalDigits (10 * acc + d) rest
      | None => None
      end
  end.

Definition unsignedInteger (s : string) : num :=
  match s with
  | EmptyString => NaN
  | _ => match decimalDigits 0 s with
         | Some v => Num v
         | None => NaN
         end
  end.

Definition negate (a : num) : num :=
  match a with
  | Num v => Num (- v)
  | NaN => NaN
  end.

(** [Number(s)] on a string (StringToNumber), on the strings of two
    kinds: after trimming white space, the empty string is 0 and an
    optionally signed run of decimal digits (below 2^53) is its value;
    and a string with a code unit that no numeric literal contains is
    NaN.  The other numeric literals (with a fraction, an exponent or a
    radix prefix, and Infinity) are numbers in JavaScript and are not
    covered: on them this definition is not [Number], and no property
    below is stated for them. *)
Definition Number (s : string) : num :=
  match trim s with
  | EmptyString => Num 0
  | String "+"%char rest => unsignedInteger rest
  | String "-"%char rest => negate (unsignedInteger rest)
  | t => unsignedInteger t
  end.

(** ** Ordinary objects used as dictionaries

    The own string-keyed properties in creation order.  Assigning to an
    existing key keeps its place; assigning a number to [__proto__]
    reaches the setter of Object.prototype, which ignores it.
    [Object.entries] lists the array-index keys first, ascending, then
    the other keys in creation order. *)

Definition object (V : Type) : Type := list (string * V).

Fixpoint defineOrUpdate {V : Type} (key : string) (v : V) (o : object V)
  : object V :=
  match o with
  | [] => [(key, v)]
  | (k, w) :: rest =>
      if String.eqb k key then (k, v) :: rest
      else (k, w) :: defineOrUpdate key v rest
  end.

Definition assign {V : Type} (key : string) (v : V) (o : object V) : object V :=
  if String.eqb key "__proto__" then o else defineOrUpdate key v o.

(** The array index a key denotes: a canonical numeric string for an
    integer from 0 to 2^32 - 2. *)
Definition arrayIndex (key : string) : option Z :=
  match key with
  | EmptyString => None
  | String "0"%char EmptyString => Some 0
  | String "0"%char _ => None
  | _ => match decimalDigits 0 key with
         | Some v => if v <=? 4294967294 then Some v else None
         | None => None
         end
  end.

Definition isArrayIndex (key : string) : bool :=
  match arrayIndex key with
  | Some _ => true
  | None => false
  end.

Definition indexOrder {V : Type} (p q : string * V) : num :=
  match arrayIndex (fst p), arrayIndex (fst q) with
  | Some i, Some j => Num (i - j)
  | _, _ => Num 0
  end.

Definition Object_entries {V : Type} (o : object V) : list (string * V) :=
  sort indexOrder (filter (fun p => isArrayIndex (fst p)) o)
  ++ filter (fun p => negb (isArrayIndex (fst p))) o.

(** ** Numbers that are not integral: binary64

    A finite double is the rational it denotes.  [round64] rounds a
    rational to the nearest double, ties to even, in the normal range
    (no overflow, no gradual underflow: the quotients and products of
    array lengths stay far from both). *)

(** Whether [2^e <= n/d], for positive [n] and [d]. *)
Definition atLeastPow2 (n d e : Z) : bool :=
  if 0 <=? e then d * 2 ^ e <=? n else d <=? n * 2 ^ (- e).

(** The [e] with [2^e <= n/d < 2^(e+1)]. *)
Definition binade (n d : Z) : Z :=
  let e0 := Z.log2 n - Z.log2 d in
  if atLeastPow2 n d e0 then e0 else e0 - 1.

(** The integer nearest to [n/d], ties to even. *)
Definition roundHalfEven (n d : Z) : Z :=
  let q := n / d in
  let r := n mod d in
  if 2 * r <? d then q
  else if d <? 2 * r then q + 1
  else if Z.even q then q else q + 1.

Definition round64_pos (n d : Z) : Q :=
  let s := 52 - binade n d in
  if 0 <=? s
  then Qmake (roundHalfEven (n * 2 ^ s) d) (Z.to_pos (2 ^ s))
  else inject_Z (roundHalfEven n (d * 2 ^ (- s)) * 2 ^ (- s)).

Definition round64 (q : Q) : Q :=
  match Qnum q with
  | Z0 => 0%Q
  | Zpos n => round64_pos (Zpos n) (Zpos (Qden q))
  | Zneg n => Qopp (round64_pos (Zpos n) (Zpos (Qden q)))
  end.

(** The Number operators [/] and [*] on finite doubles. *)
Definition divide (a b : Q) : Q := round64 (a / b)%Q.
Definition multiply (a b : Q) : Q := round64 (a * b)%Q.

(** [Math.round(x)]: the integer closest to [x], ties towards +infinity. *)
Definition Math_round (x : Q) : Z := Qfloor (x + (1 # 2))%Q.

(** ** More of Date and Array *)

(** [d.getDay()]: the day of the week of the local date, 0 for Sunday. *)
Definition getDay (zone : Zone) (d : Date) : num :=
  match d with
  | NaN => NaN
  | Num t => Num ((Day (LocalTime zone t) + 4) mod 7)
  end.

(** [d.setDate(d.getDate() + n)]: as for one day, the local time value
    moves by [n] days and keeps its time within the day. *)
Definition setDate_getDate_plus (zone : Zone) (n : num) (d : Date) : Date :=
  match d, n with
  | Num t, Num k =>
      let t' := LocalTime zone t in
      TimeClip (toUTC zone (MakeDate (Num (Day t' + k)) (Num (TimeWithinDay t'))))
  | _, _ => NaN
  end.

(** [a.includes(s)] on an array of strings. *)
Definition includes (a : list string) (s : string) : bool :=
  existsb (String.eqb s) a.

(** The array after [a.splice(index, 1)], for an index that is not
    negative. *)
Definition splice1 {A : Type} (index : nat) (a : list A) : list A :=
  firstn index a ++ skipn (S index) a.

End JS.

(** A zone without transitions is written as its offset: where a zone is
    expected, [tza : Z] stands for [JS.fixed tza]. *)
Coercion JS.fixed : Z >-> JS.Zone.

(* ================================================================== *)
(** * date-fns *)
(* ================================================================== *)

Module DateFns.

Definition isBefore (date dateToCompare : JS.Date) : bool :=
  JS.lt date dateToCompare.

Definition isAfter (date dateToCompare : JS.Date) : bool :=
  JS.gt date dateToCompare.

Definition startOfDay (zone : JS.Zone) (date : JS.Date) : JS.Date :=
  JS.setHours zone date (JS.Num 0) (JS.Num 0) (JS.Num 0) (JS.Num 0).

Definition isSameDay (zone : JS.Zone) (dateLeft dateRight : JS.Date) : bool :=
  JS.strict_eq (startOfDay zone dateLeft) (startOfDay zone dateRight).

Definition addDays (zone : JS.Zone) (date : JS.Date) (amount : Z) : JS.Date :=
  if amount =? 0 then date
  else JS.setDate_getDate_plus zone (JS.Num amount) date.

Definition addWeeks (zone : JS.Zone) (date : JS.Date) (amount : Z) : JS.Date :=
  addDays zone date (amount * 7).

Definition subWeeks (zone : JS.Zone) (date : JS.Date) (amount : Z) : JS.Date :=
  addWeeks zone date (- amount).

Definition startOfWeek (zone : JS.Zone) (weekStartsOn : Z) (date : JS.Date)
  : JS.Date :=
  match JS.getDay zone date with
  | JS.NaN => JS.NaN
  | JS.Num day =>
      let diff := (if day <? weekStartsOn then 7 else 0) + day - weekStartsOn in
      startOfDay zone (JS.setDate_getDate_plus zone (JS.Num (- diff)) date)
  end.

Definition endOfWeek (zone : JS.Zone) (weekStartsOn : Z) (date : JS.Date)
  : JS.Date :=
  match JS.getDay zone date with
  | JS.NaN => JS.NaN
  | JS.Num day =>
      let diff := (if day <? weekStartsOn then -7 else 0) + 6 - (day - weekStartsOn) in
      JS.setHours zone (JS.setDate_getDate_plus zone (JS.Num diff) date)
                  (JS.Num 23) (JS.Num 59) (JS.Num 59) (JS.Num 999)
  end.

(** The loop of [eachDayOfInterval]: from [currentDate], a day at a time,
    while the date is not after [endTime]. *)
Fixpoint eachDay (fuel : nat) (zone : JS.Zone) (currentDate : JS.Date)
  (endTime : JS.num) : list JS.Date :=
  match fuel with
  | O => []
  | S fuel' =>
      if JS.le currentDate endTime
      then currentDate
           :: eachDay fuel' zone
                (startOfDay zone
                   (JS.setDate_getDate_plus zone (JS.Num 1) currentDate))
                endTime
      else []
  end.

(** [eachDayOfInterval({start, end})] with [start <= end]; the loop runs
    once a day from the start of the first day, so at most twice more
    than there are whole days from [start] to [end].  Without
    [start <= end] the versions of the library part ways (a RangeError,
    or the interval reversed) and there is no result here. *)
Definition eachDayOfInterval (zone : JS.Zone) (start finish : JS.Date)
  : option (list JS.Date) :=
  match start, finish with
  | JS.Num s, JS.Num e =>
      if s <=? e
      then Some (eachDay (Z.to_nat ((e - s) / JS.msPerDay + 2)) zone
                         (startOfDay zone start) finish)
      else None
  | _, _ => None
  end.

(** [format(date, formatStr)] throws a RangeError when the date is
    invalid: no text then.  [text] is the text of a valid date. *)
Definition format (text : Z -> string -> string) (date : JS.Date)
  (formatStr : string) : option string :=
  match date with
  | JS.NaN => None
  | JS.Num t => Some (text t formatStr)
  end.

End DateFns.

(* ================================================================== *)
(** * The data model ([src/types/index.ts]) *)
(* ================================================================== *)

Inductive FrequencyType : Type :=
| once_daily
| twice_daily
| three_times_daily
| four_times_daily
| custom.

Module User.
Record t : Type := { id : string; email : string }.
End User.

(** Dates and timestamps are stored as timestamps with time zone; a
    field holds the time value [new Date(field)] has. *)

Module Medication.
Record t : Type := {
  id : string;
  name : string;
  dose : string;
  frequency : FrequencyType;
  times : list string;
  startDate : Z;
  endDate : option Z;
  category : option string;
  familyMember : option string;
  userId : string;
  createdAt : Z
}.
End Medication.

Module DoseLog.
Record t : Type := {
  id : string;
  medicationId : string;
  timestamp : Z;
  isOnTime : bool;
  userId : string
}.
End DoseLog.

(* ================================================================== *)
(** * The store and the page environment *)
(* ================================================================== *)

(** The tables of [supabase/migrations/20250509_init.sql] and the reply
    of an [insert(...).select()] request.  Whether the store accepts a
    request (policies, network) is its own affair: the caller of a page
    handler supplies the store's verdict and the id it generates. *)

Module Supabase.

Record dose_logs_insert : Type := {
  medication_id : string;
  timestamp : Z;
  is_on_time : bool;
  user_id : string
}.

Record dose_logs_row : Type := {
  id : string;
  row : dose_logs_insert
}.

Record medications_insert : Type := {
  m_name : string;
  m_dose : string;
  m_frequency : FrequencyType;
  m_times : list string;
  m_start_date : Z;
  m_end_date : option Z;
  m_category : option string;
  m_family_member : option string;
  m_user_id : string;
  m_created_at : Z
}.

Record database : Type := {
  dose_logs : list dose_logs_row;
  medications : list medications_insert
}.

(** The store's verdict on a request: accepted, with the generated id, or
    refused with an error message. *)
Inductive verdict : Type :=
| accept (generated_id : string)
| refuse (message : string).

Record reply (R : Type) : Type := {
  data : list R;
  error : option string
}.
Arguments data {R}.
Arguments error {R}.

(** The reply of a query that succeeds with the rows [l]. *)
Definition returned {R : Type} (l : list R) : reply R :=
  {| data := l; error := None |}.

Definition insert_dose_log (v : verdict) (r : dose_logs_insert) (db : database)
  : database * reply dose_logs_row :=
  match v with
  | accept i =>
      let stored := {| id := i; row := r |} in
      ({| dose_logs := dose_logs db ++ [stored]; medications := medications db |},
       {| data := [stored]; error := None |})
  | refuse msg => (db, {| data := []; error := Some msg |})
  end.

Definition insert_medication (v : verdict) (r : medications_insert) (db : database)
  : database * reply medications_insert :=
  match v with
  | accept _ =>
      ({| dose_logs := dose_logs db; medications := medications db ++ [r] |},
       {| data := [r]; error := None |})
  | refuse msg => (db, {| data := []; error := Some msg |})
  end.

End Supabase.

(** What a handler does to its surroundings: the store and the requests
    sent to it, the notices shown ([toast]), the console and the router. *)

Inductive request : Type :=
| insert_into_dose_logs (r : Supabase.dose_logs_insert)
| insert_into_medications (r : Supabase.medications_insert).

Inductive notice : Type :=
| toast_info (message : string)
| toast_error (message : string)
| toast_success (message : string).

Record World : Type := {
  db : Supabase.database;
  requests : list request;
  toasts : list notice;
  console : list string;
  navigated : list string
}.

Definition toast (n : notice) (w : World) : World :=
  {| db := db w; requests := requests w; toasts := toasts w ++ [n];
     console := console w; navigated := navigated w |}.

Definition console_error (label : string) (w : World) : World :=
  {| db := db w; requests := requests w; toasts := toasts w;
     console := console w ++ [label]; navigated := navigated w |}.

Definition navigate (path : string) (w : World) : World :=
  {| db := db w; requests := requests w; toasts := toasts w;
     console := console w; navigated := navigated w ++ [path] |}.

(** [await supabase.from('dose_logs').insert([r]).select()] *)
Definition insert_dose_log (v : Supabase.verdict) (r : Supabase.dose_logs_insert)
  (w : World) : World * Supabase.reply Supabase.dose_logs_row :=
  let (db', reply) := Supabase.insert_dose_log v r (db w) in
  ({| db := db'; requests := requests w ++ [insert_into_dose_logs r];
      toasts := toasts w; console := console w; navigated := navigated w |},
   reply).

(** [await supabase.from('medications').insert([r]).select()] *)
Definition insert_medication (v : Supabase.verdict)
  (r : Supabase.medications_insert) (w : World)
  : World * Supabase.reply Supabase.medications_insert :=
  let (db', reply) := Supabase.insert_medication v r (db w) in
  ({| db := db'; requests := requests w ++ [insert_into_medications r];
      toasts := toasts w; console := console w; navigated := navigated w |},
   reply).

(** [error.message || fallback] *)
Definition message_or (message fallback : string) : string :=
  match message with
  | EmptyString => fallback
  | _ => message
  end.

(** The page's view of a stored row (snake case to camel case). *)
Definition formatLog (r : Supabase.dose_logs_row) : DoseLog.t :=
  {| DoseLog.id := Supabase.id r;
     DoseLog.medicationId := Supabase.medication_id (Supabase.row r);
     DoseLog.timestamp := Supabase.timestamp (Supabase.row r);
     DoseLog.isOnTime := Supabase.is_on_time (Supabase.row r);
     DoseLog.userId := Supabase.user_id (Supabase.row r) |}.

(* ================================================================== *)
(** * The Dashboard page ([Dashboard.fetchData]) *)
(* ================================================================== *)

Module UpcomingDose.
Record t : Type := { medication : Medication.t; dueTime : JS.Date }.
End UpcomingDose.

Module MostMissed.
Record t : Type := { medication : string; count : Z }.
End MostMissed.

Module AdherenceStat.
Record t : Type := {
  adherenceRate : Q;
  totalDoses : Z;
  takenDoses : Z;
  missedDoses : Z;
  mostMissed : list MostMissed.t
}.
End AdherenceStat.

Module Dashboard.

Record State : Type := {
  medications : list Medication.t;
  upcomingDoses : list UpcomingDose.t;
  recentLogs : list DoseLog.t;
  adherenceStats : AdherenceStat.t;
  isLoading : bool
}.

(** The filter of the upcoming doses, at the instant [now]. *)
Definition upcomingFilter (now : Z) (med : Medication.t) : bool :=
  let startDate := JS.Num (Medication.startDate med) in
  let endDate := option_map JS.Num (Medication.endDate med) in
  (match endDate with
   | None => true
   | Some e => DateFns.isAfter e (JS.Num now)
   end)
  && negb (DateFns.isBefore (JS.Num now) startDate).

(** The body of the [map] over the times of a medication.  [reading] is
    what the clock shows when the callback runs [new Date()].  An element
    the destructuring does not find is undefined, NaN to [setHours]. *)
Definition projectDose (zone : JS.Zone) (now reading : Z) (med : Medication.t)
  (timeStr : string) : UpcomingDose.t :=
  let fields := map JS.Number (JS.split ":" timeStr) in
  let hours := nth 0 fields JS.NaN in
  let minutes := nth 1 fields JS.NaN in
  let dueTime :=
    JS.setHours zone (JS.Num reading) hours minutes (JS.Num 0) (JS.Num 0) in
  let dueTime :=
    if DateFns.isBefore dueTime (JS.Num now)
    then JS.setDate_getDate_plus_1 zone dueTime
    else dueTime in
  {| UpcomingDose.medication := med; UpcomingDose.dueTime := dueTime |}.

(** The pairs the [flatMap] visits, in the order it visits them. *)
Definition scheduledTimes (now : Z) (meds : list Medication.t)
  : list (Medication.t * string) :=
  flat_map (fun med => map (fun timeStr => (med, timeStr)) (Medication.times med))
           (filter (upcomingFilter now) meds).

(** The array before it is sorted.  [clock k] is the reading of the clock
    at the [k]-th run of the callback. *)
Definition projectedDoses (zone : JS.Zone) (now : Z) (clock : nat -> Z)
  (meds : list Medication.t) : list UpcomingDose.t :=
  let visits := scheduledTimes now meds in
  map (fun kv =>
         projectDose zone now (clock (fst kv)) (fst (snd kv)) (snd (snd kv)))
      (combine (seq 0 (List.length visits)) visits).

Definition byDueTime (a b : UpcomingDose.t) : JS.num :=
  JS.sub (UpcomingDose.dueTime a) (UpcomingDose.dueTime b).

Definition upcoming (zone : JS.Zone) (now : Z) (clock : nat -> Z)
  (meds : list Medication.t) : list UpcomingDose.t :=
  JS.slice0 3 (JS.sort byDueTime (projectedDoses zone now clock meds)).

(** The card of the upcoming doses as the page renders it: for each
    dose the name and the dose of the medication, the time and the day
    it is due; there is no card when [format] throws. *)
Definition upcomingDoseRow (text : Z -> string -> string)
  (item : UpcomingDose.t) : option (string * string * string * string) :=
  match DateFns.format text (UpcomingDose.dueTime item) "h:mm a",
        DateFns.format text (UpcomingDose.dueTime item) "MMM d" with
  | Some time, Some day =>
      Some (Medication.name (UpcomingDose.medication item),
            Medication.dose (UpcomingDose.medication item), time, day)
  | _, _ => None
  end.

Fixpoint upcomingDoseRows (text : Z -> string -> string)
  (items : list UpcomingDose.t)
  : option (list (string * string * string * string)) :=
  match items with
  | [] => Some []
  | item :: rest =>
      match upcomingDoseRow text item, upcomingDoseRows text rest with
      | Some row, Some rows => Some (row :: rows)
      | _, _ => None
      end
  end.

(** The adherence rate kept in the page state, and the percentage the
    page shows ([Math.round(adherenceStats.adherenceRate)]). *)
Definition adherenceRate (logs : list DoseLog.t) : Q :=
  let totalDoses := List.length logs in
  let takenOnTime := List.length (filter DoseLog.isOnTime logs) in
  if (0 <? totalDoses)%nat
  then JS.multiply
         (JS.divide (inject_Z (Z.of_nat takenOnTime))
                    (inject_Z (Z.of_nat totalDoses)))
         100
  else 0%Q.

Definition shownAdherence (logs : list DoseLog.t) : Z :=
  JS.Math_round (adherenceRate logs).

(** The missed doses of a medication, as both pages count them. *)
Definition missedCount (logs : list DoseLog.t) (med : Medication.t) : Z :=
  let medLogs :=
    filter (fun log => String.eqb (DoseLog.medicationId log) (Medication.id med))
           logs in
  Z.of_nat (List.length (filter (fun log => negb (DoseLog.isOnTime log)) medLogs)).

Definition missedByMed (meds : list Medication.t) (logs : list DoseLog.t)
  : JS.object Z :=
  fold_left
    (fun acc med =>
       let missed := missedCount logs med in
       if 0 <? missed then JS.assign (Medication.name med) missed acc else acc)
    meds [].

Definition byCountDescending (a b : MostMissed.t) : JS.num :=
  JS.Num (MostMissed.count b - MostMissed.count a).

Definition sortedMostMissed (meds : list Medication.t) (logs : list DoseLog.t)
  : list MostMissed.t :=
  JS.slice0 3
    (JS.sort byCountDescending
       (map (fun kv => {| MostMissed.medication := fst kv;
                          MostMissed.count := snd kv |})
            (JS.Object_entries (missedByMed meds logs)))).

(** [fetchData()], run at the instant [now] for the signed-in [user]
    against a store that answers the two queries with [meds] and [logs]
    (rows already in the page's camel case).  A query that fails throws
    into the [catch]: a notice, and the state as far as it was set. *)
Definition fetchData (zone : JS.Zone) (now : Z) (clock : nat -> Z)
  (user : option User.t)
  (meds : Supabase.reply Medication.t) (logs : Supabase.reply DoseLog.t)
  (st : State) (w : World) : State * World :=
  match user with
  | None => (st, w)
  | Some _ =>
      let caught (medications : list Medication.t)
                 (upcomingDoses : list UpcomingDose.t) :=
        ({| medications := medications; upcomingDoses := upcomingDoses;
            recentLogs := recentLogs st; adherenceStats := adherenceStats st;
            isLoading := false |},
         toast (toast_error "Failed to fetch dashboard data")
               (console_error "Error fetching dashboard data:" w)) in
      match Supabase.error meds with
      | Some _ => caught (medications st) (upcomingDoses st)
      | None =>
          let formattedMeds := Supabase.data meds in
          let upcoming := upcoming zone now clock formattedMeds in
          match Supabase.error logs with
          | Some _ => caught formattedMeds upcoming
          | None =>
              let formattedLogs := Supabase.data logs in
              let totalDoses := Z.of_nat (List.length formattedLogs) in
              let takenOnTime :=
                Z.of_nat (List.length (filter DoseLog.isOnTime formattedLogs)) in
              ({| medications := formattedMeds;
                  upcomingDoses := upcoming;
                  recentLogs := formattedLogs;
                  adherenceStats :=
                    {| AdherenceStat.adherenceRate := adherenceRate formattedLogs;
                       AdherenceStat.totalDoses := totalDoses;
                       AdherenceStat.takenDoses := takenOnTime;
                       AdherenceStat.missedDoses := totalDoses - takenOnTime;
                       AdherenceStat.mostMissed :=
                         sortedMostMissed formattedMeds formattedLogs |};
                  isLoading := false |},
               w)
          end
      end
  end.

End Dashboard.

Module WeeklyAdherence.
Record t : Type := {
  date : string;
  adherenceRate : Z;
  total : Z;
  taken : Z
}.
End WeeklyAdherence.

(* ================================================================== *)
(** * The Analytics page *)
(* ================================================================== *)

Module Analytics.

(** [calculateMostMissed]: the dictionary is keyed by medication id. *)
Definition missedByMed (meds : list Medication.t) (logs : list DoseLog.t)
  : JS.object (string * Z) :=
  fold_left
    (fun acc med =>
       let missed := Dashboard.missedCount logs med in
       if 0 <? missed
       then JS.assign (Medication.id med) (Medication.name med, missed) acc
       else acc)
    meds [].

Definition calculateMostMissed (meds : list Medication.t) (logs : list DoseLog.t)
  : list MostMissed.t :=
  JS.slice0 5
    (JS.sort Dashboard.byCountDescending
       (map (fun kv => {| MostMissed.medication := fst (snd kv);
                          MostMissed.count := snd (snd kv) |})
            (JS.Object_entries (missedByMed meds logs)))).

Definition calculateOverallAdherence (logs : list DoseLog.t) : Z :=
  match logs with
  | [] => 0
  | _ =>
      let takenOnTime := List.length (filter DoseLog.isOnTime logs) in
      JS.Math_round
        (JS.multiply
           (JS.divide (inject_Z (Z.of_nat takenOnTime))
                      (inject_Z (Z.of_nat (List.length logs))))
           100)
  end.

(** The entry of one day of the week.  [format] is the library's
    [format(date, pattern)]. *)
Definition dayAdherence (zone : JS.Zone) (format : JS.Date -> string -> string)
  (logs : list DoseLog.t) (day : JS.Date) : WeeklyAdherence.t :=
  let dayLogs :=
    filter (fun log => DateFns.isSameDay zone (JS.Num (DoseLog.timestamp log)) day)
           logs in
  let takenCount := List.length (filter DoseLog.isOnTime dayLogs) in
  let totalCount := List.length dayLogs in
  let adherenceRate :=
    if (0 <? totalCount)%nat
    then JS.multiply
           (JS.divide (inject_Z (Z.of_nat takenCount))
                      (inject_Z (Z.of_nat totalCount)))
           100
    else 0%Q in
  {| WeeklyAdherence.date := format day "MMM d"%string;
     WeeklyAdherence.adherenceRate := JS.Math_round adherenceRate;
     WeeklyAdherence.total := Z.of_nat totalCount;
     WeeklyAdherence.taken := Z.of_nat takenCount |}.

(** [calculateWeeklyAdherence(logs, medications)] for the week that
    starts at [currentWeekStart]: the new [weeklyData]. *)
Definition calculateWeeklyAdherence (zone : JS.Zone)
  (format : JS.Date -> string -> string) (currentWeekStart : JS.Date)
  (logs : list DoseLog.t) (medications : list Medication.t)
  : option (list WeeklyAdherence.t) :=
  let weekEnd := DateFns.endOfWeek zone 0 currentWeekStart in
  match DateFns.eachDayOfInterval zone currentWeekStart weekEnd with
  | Some daysInWeek => Some (map (dayAdherence zone format logs) daysInWeek)
  | None => None
  end.

(** The initial [currentWeekStart], and the two navigation handlers with
    the [currentWeekStart] they set. *)
Definition initialWeekStart (zone : JS.Zone) (now : Z) : JS.Date :=
  DateFns.startOfWeek zone 0 (JS.Num now).

Definition navigatePreviousWeek (zone : JS.Zone) (currentWeekStart : JS.Date)
  : JS.Date :=
  DateFns.subWeeks zone currentWeekStart 1.

Definition navigateNextWeek (zone : JS.Zone) (now : Z)
  (currentWeekStart : JS.Date)
  : JS.Date :=
  let nextWeek := DateFns.addWeeks zone currentWeekStart 1 in
  if JS.le nextWeek (DateFns.startOfWeek zone 0 (JS.Num now))
  then nextWeek
  else currentWeekStart.

End Analytics.

(* ================================================================== *)
(** * The Calendar page *)
(* ================================================================== *)

Module Calendar.

Record State : Type := {
  user : option User.t;
  date : Z;
  medications : list Medication.t;
  logs : list DoseLog.t
}.

Definition setLogs (l : list DoseLog.t) (st : State) : State :=
  {| user := user st; date := date st; medications := medications st;
     logs := l |}.

(** The predicate of [getScheduledMedications], at the selected date. *)
Definition isActiveOn (date : Z) (med : Medication.t) : bool :=
  let startDate := JS.Num (Medication.startDate med) in
  let endDate := option_map JS.Num (Medication.endDate med) in
  JS.le startDate (JS.Num date)
  && (match endDate with
      | None => true
      | Some e => JS.ge e (JS.Num date)
      end).

Definition getScheduledMedications (st : State) : list Medication.t :=
  filter (isActiveOn (date st)) (medications st).

Definition getLogsForDate (zone : JS.Zone) (st : State) : list DoseLog.t :=
  filter (fun log =>
            DateFns.isSameDay zone (JS.Num (DoseLog.timestamp log))
                              (JS.Num (date st)))
         (logs st).

Definition isMedicationTaken (zone : JS.Zone) (st : State)
  (medicationId : string)
  : bool :=
  existsb (fun log => String.eqb (DoseLog.medicationId log) medicationId)
          (getLogsForDate zone st).

(** [handleLogDose(medicationId)], run at the instant [now] against a
    store that answers the insert with [v]. *)
Definition handleLogDose (zone : JS.Zone) (now : Z) (v : Supabase.verdict)
  (medicationId : string) (st : State) (w : World) : State * World :=
  match user st with
  | None => (st, w)
  | Some u =>
      if isMedicationTaken zone st medicationId
      then (st, toast (toast_info "You've already logged this medication today") w)
      else
        let request :=
          {| Supabase.medication_id := medicationId;
             Supabase.timestamp := now;
             Supabase.is_on_time := true;
             Supabase.user_id := User.id u |} in
        let (w, reply) := insert_dose_log v request w in
        match Supabase.error reply with
        | Some message =>
            (st, toast (toast_error (message_or message "Failed to log dose"))
                       (console_error "Error logging dose:" w))
        | None =>
            let w := toast (toast_success "Dose logged successfully!") w in
            match Supabase.data reply with
            | stored :: _ => (setLogs (logs st ++ [formatLog stored]) st, w)
            | [] => (st, w)
            end
        end
  end.

(** [getDayHasMedication(day)]: the modifier of the days of the calendar. *)
Definition getDayHasMedication (zone : JS.Zone) (st : State) (day : Z) : bool :=
  let dayLogs :=
    filter (fun log =>
              DateFns.isSameDay zone (JS.Num (DoseLog.timestamp log)) (JS.Num day))
           (logs st) in
  (0 <? List.length dayLogs)%nat.

End Calendar.

(* ================================================================== *)
(** * The Dose Logging page *)
(* ================================================================== *)

Module DoseLogging.

Record State : Type := {
  user : option User.t;
  selectedMedicationId : string;
  recentLogs : list DoseLog.t
}.

(** [handleLogDose()], run at the instant [now]. *)
Definition handleLogDose (now : Z) (v : Supabase.verdict) (st : State)
  (w : World) : State * World :=
  match selectedMedicationId st, user st with
  | EmptyString, _ | _, None =>
      (st, toast (toast_error "Please select a medication") w)
  | String _ _, Some u =>
      let request :=
        {| Supabase.medication_id := selectedMedicationId st;
           Supabase.timestamp := now;
           Supabase.is_on_time := true;
           Supabase.user_id := User.id u |} in
      let (w, reply) := insert_dose_log v request w in
      match Supabase.error reply with
      | Some message =>
          (st, toast (toast_error (message_or message "Failed to log dose"))
                     (console_error "Error logging dose:" w))
      | None =>
          let w := toast (toast_success "Dose logged successfully!") w in
          let logs' :=
            match Supabase.data reply with
            | stored :: _ => formatLog stored :: recentLogs st
            | [] => recentLogs st
            end in
          ({| user := user st; selectedMedicationId := EmptyString;
              recentLogs := logs' |}, w)
      end
  end.

(** [getMedicationName(id)], over the medications of the page. *)
Definition getMedicationName (medications : list Medication.t) (id : string)
  : string :=
  match find (fun med => String.eqb (Medication.id med) id) medications with
  | Some medication => Medication.name medication
  | None => "Unknown Medication"
  end.

End DoseLogging.

(* ================================================================== *)
(** * The Add Medication page *)
(* ================================================================== *)

Module AddMedication.

Record FormValues : Type := {
  name : string;
  dose : string;
  frequency : FrequencyType;
  startDate : Z;
  endDate : option Z;
  category : option string;
  familyMember : option string
}.

Record State : Type := {
  user : option User.t;
  times : list string;
  timeInput : string
}.

(** [onSubmit(data)], run at the instant [now]. *)
Definition onSubmit (now : Z) (v : Supabase.verdict) (data : FormValues)
  (st : State) (w : World) : World :=
  match user st with
  | None => toast (toast_error "You must be logged in to add a medication") w
  | Some u =>
      match times st with
      | [] => toast (toast_error "Please add at least one time for your medication") w
      | _ :: _ =>
          let medication :=
            {| Supabase.m_name := name data;
               Supabase.m_dose := dose data;
               Supabase.m_frequency := frequency data;
               Supabase.m_times := times st;
               Supabase.m_start_date := startDate data;
               Supabase.m_end_date := endDate data;
               Supabase.m_category := category data;
               Supabase.m_family_member := familyMember data;
               Supabase.m_user_id := User.id u;
               Supabase.m_created_at := now |} in
          let (w, reply) := insert_medication v medication w in
          match Supabase.error reply with
          | Some message =>
              toast (toast_error (message_or message "Failed to add medication"))
                    (console_error "Error adding medication:" w)
          | None =>
              navigate "/medications"
                (toast (toast_success "Medication added successfully!") w)
          end
      end
  end.

Definition setTimes (l : list string) (st : State) : State :=
  {| user := user st; times := l; timeInput := timeInput st |}.

(** [updateDefaultTimes(frequency)] *)
Definition updateDefaultTimes (frequency : FrequencyType) (st : State) : State :=
  match frequency with
  | once_daily => setTimes ["08:00"%string] st
  | twice_daily => setTimes ["08:00"; "20:00"]%string st
  | three_times_daily => setTimes ["08:00"; "14:00"; "20:00"]%string st
  | four_times_daily => setTimes ["08:00"; "12:00"; "16:00"; "20:00"]%string st
  | custom => st
  end.

Definition setFrequency (value : FrequencyType) (form : FormValues) : FormValues :=
  {| name := name form; dose := dose form; frequency := value;
     startDate := startDate form; endDate := endDate form;
     category := category form; familyMember := familyMember form |}.

(** [onFrequencyChange(value)], on the values of the form and the state. *)
Definition onFrequencyChange (value : FrequencyType) (form : FormValues)
  (st : State) : FormValues * State :=
  (setFrequency value form,
   match value with
   | custom => st
   | _ => updateDefaultTimes value st
   end).

(** [addTime()] *)
Definition addTime (st : State) : State :=
  match timeInput st with
  | EmptyString => st
  | String _ _ =>
      if JS.includes (times st) (timeInput st) then st
      else {| user := user st; times := times st ++ [timeInput st];
              timeInput := EmptyString |}
  end.

(** [removeTime(index)] *)
Definition removeTime (index : nat) (st : State) : State :=
  setTimes (JS.splice1 index (times st)) st.

End AddMedication.

(* ================================================================== *)
(** * The Register page *)
(* ================================================================== *)

Module Register.

Record State : Type := {
  email : string;
  password : string;
  confirmPassword : string;
  isLoading : bool
}.

(** What [signUp] of the authentication context does with a request: it
    succeeds, returns an error, or throws. *)
Inductive signUpOutcome : Type :=
| signedUp
| signUpError (message : string)
| signUpThrows (message : string).

Record Effects : Type := {
  signUps : list (string * string);
  toasts : list notice;
  navigated : list string
}.

Definition toast (n : notice) (e : Effects) : Effects :=
  {| signUps := signUps e; toasts := toasts e ++ [n];
     navigated := navigated e |}.

Definition setIsLoading (b : bool) (st : State) : State :=
  {| email := email st; password := password st;
     confirmPassword := confirmPassword st; isLoading := b |}.

(** [handleSubmit(e)] *)
Definition handleSubmit (outcome : signUpOutcome) (st : State) (e : Effects)
  : State * Effects :=
  match email st, password st, confirmPassword st with
  | String _ _, String _ _, String _ _ =>
      if negb (String.eqb (password st) (confirmPassword st))
      then (st, toast (toast_error "Passwords do not match") e)
      else
        let e := {| signUps := signUps e ++ [(email st, password st)];
                    toasts := toasts e; navigated := navigated e |} in
        (setIsLoading false st,
         match outcome with
         | signUpError message => toast (toast_error message) e
         | signUpThrows message =>
             toast (toast_error
                      (message_or message "An error occurred during registration")) e
         | signedUp =>
             let e := toast (toast_success
               "Registration successful! Please check your email for verification.") e in
             {| signUps := signUps e; toasts := toasts e;
                navigated := navigated e ++ ["/login"%string] |}
         end)
  | _, _, _ => (st, toast (toast_error "Please fill in all fields") e)
  end.

End Register.

(* ================================================================== *)
(** * Vocabulary of the properties *)
(* ================================================================== *)

(** An instant with a valid date a day before it and two days after it. *)
Definition ordinary (t : Z) : Prop :=
  - JS.maxTime + JS.msPerDay <= t <= JS.maxTime - 2 * JS.msPerDay.

(** Two instants on one local calendar day. *)
Definition sameLocalDay (zone : JS.Zone) (a b : Z) : Prop :=
  JS.Day (JS.LocalTime zone a) = JS.Day (JS.LocalTime zone b).

(** A zone whose offsets from UTC stay below a day. *)
Definition offsetsBelowADay (zone : JS.Zone) : Prop :=
  forall t isUTC, - JS.msPerDay < zone t isUTC < JS.msPerDay.

(** The instant that a zone gives a local time value, and the local
    times that the clocks of the zone do show (a transition that moves
    the clocks forward skips some). *)
Definition instantOf (zone : JS.Zone) (local : Z) : Z :=
  local - zone local false.

Definition onTheClock (zone : JS.Zone) (local : Z) : Prop :=
  JS.LocalTime zone (instantOf zone local) = local.

(** The hour and minute of a well-formed time of day: two digits, a colon,
    two digits, the hour below 24 and the minute below 60. *)
Definition timeOfDay (s : string) : option (Z * Z) :=
  match s with
  | String h1 (String h0 (String ":"%char (String m1 (String m0 EmptyString)))) =>
      match JS.digitValue h1, JS.digitValue h0,
            JS.digitValue m1, JS.digitValue m0 with
      | Some a, Some b, Some c, Some d =>
          let h := 10 * a + b in
          let m := 10 * c + d in
          if (h <? 24) && (m <? 60) then Some (h, m) else None
      | _, _, _, _ => None
      end
  | _ => None
  end.

(** The local time [h]:[m]:00.000 on the calendar day that comes [n]
    days after the local calendar day of [now]. *)
Definition wallClock (zone : JS.Zone) (now n h m : Z) : Z :=
  (JS.Day (JS.LocalTime zone now) + n) * JS.msPerDay
  + h * JS.msPerHour + m * JS.msPerMinute.

(** The instant of [h]:[m]:00.000 on the local calendar day of [now],
    and the due instant the projection is to give: that instant if it
    is not before [now], else the instant of [h]:[m]:00.000 on the next
    calendar day. *)
Definition todayAt (zone : JS.Zone) (now h m : Z) : Z :=
  instantOf zone (wallClock zone now 0 h m).

Definition nextDue (zone : JS.Zone) (now h m : Z) : Z :=
  let candidate := todayAt zone now h m in
  if candidate <? now then instantOf zone (wallClock zone now 1 h m)
  else candidate.

(** The code units that occur in numeric literals (digits, signs, the
    point, the letters of the exponent, of the radix prefixes, of the
    hexadecimal digits and of Infinity), and the strings that hold a
    code unit which is neither one of them nor white space: [Number]
    gives NaN for these. *)
Definition numericCodeUnit (c : ascii) : bool :=
  existsb (Ascii.eqb c)
          (list_ascii_of_string "0123456789abcdefABCDEFxXoO.+-Inity").

Definition noNumber (s : string) : Prop :=
  exists c, In c (list_ascii_of_string s)
            /\ JS.isWhiteSpace c = false /\ numericCodeUnit c = false.

(** A time string without a minute field, or whose hour field or minute
    field is no number. *)
Definition noHourOrMinute (timeStr : string) : Prop :=
  let fields := JS.split ":" timeStr in
  (List.length fields < 2)%nat
  \/ noNumber (nth 0 fields EmptyString)
  \/ noNumber (nth 1 fields EmptyString).

(** The record that a submission of the form stands for: the values of
    the form, the times of the page, the id of the user and the instant
    of the submission. *)
Definition submittedRecord (now : Z) (data : AddMedication.FormValues)
  (times : list string) (u : User.t) : Supabase.medications_insert :=
  {| Supabase.m_name := AddMedication.name data;
     Supabase.m_dose := AddMedication.dose data;
     Supabase.m_frequency := AddMedication.frequency data;
     Supabase.m_times := times;
     Supabase.m_start_date := AddMedication.startDate data;
     Supabase.m_end_date := AddMedication.endDate data;
     Supabase.m_category := AddMedication.category data;
     Supabase.m_family_member := AddMedication.familyMember data;
     Supabase.m_user_id := User.id u;
     Supabase.m_created_at := now |}.

Definition dueAt (d : Z) (x : UpcomingDose.t) : bool :=
  JS.strict_eq (UpcomingDose.dueTime x) (JS.Num d).

Definition dueNoLater (x y : UpcomingDose.t) : Prop :=
  JS.le (UpcomingDose.dueTime x) (UpcomingDose.dueTime y) = true.

(** Orders and classes by an integer key, for the sorted arrays. *)
Definition keyLe {A : Type} (key : A -> Z) (x y : A) : Prop := key x <= key y.
Definition hasKey {A : Type} (key : A -> Z) (k : Z) (x : A) : bool := key x =? k.

Definition validDue (x : UpcomingDose.t) : Prop :=
  exists d, UpcomingDose.dueTime x = JS.Num d.

Definition dueKey (x : UpcomingDose.t) : Z :=
  match UpcomingDose.dueTime x with
  | JS.Num d => d
  | JS.NaN => 0
  end.

(** The ranking the claim describes: the medications with a missed dose,
    each under its name with its own count, in the order of the
    medication list. *)
Definition missedEntries (meds : list Medication.t) (logs : list DoseLog.t)
  : list MostMissed.t :=
  map (fun med => {| MostMissed.medication := Medication.name med;
                     MostMissed.count := Dashboard.missedCount logs med |})
      (filter (fun med => 0 <? Dashboard.missedCount logs med) meds).

Definition missedKey (x : MostMissed.t) : Z := - MostMissed.count x.

(** Names that are ordinary dictionary keys. *)
Definition plainName (s : string) : Prop :=
  JS.isArrayIndex s = false /\ s <> "__proto__"%string.

(** The percentage [(k / n) * 100] as the Standard Library's specification
    of IEEE 754 arithmetic computes it in the binary64 format, to compare
    [JS.round64] with. *)
Definition rationalOfDouble (x : spec_float) : option Q :=
  match x with
  | S754_zero _ => Some 0%Q
  | S754_finite negative m e =>
      let v := if 0 <=? e then inject_Z (Zpos m * 2 ^ e)
               else Qmake (Zpos m) (Z.to_pos (2 ^ (- e))) in
      Some (if negative then Qopp v else v)
  | S754_infinity _ | S754_nan => None
  end.

Definition doubleOfInteger (k : Z) : spec_float :=
  binary_normalize 53 1024 k 0 false.

Definition percentageIEEE (k n : Z) : option Q :=
  rationalOfDouble
    (SFmul 53 1024
       (SFdiv 53 1024 (doubleOfInteger k) (doubleOfInteger n))
       (doubleOfInteger 100)).

Definition percentagesAgree (n : nat) : bool :=
  forallb
    (fun k =>
       match percentageIEEE (Z.of_nat k) (Z.of_nat n) with
       | Some q =>
           Qeq_bool q
             (JS.multiply (JS.divide (inject_Z (Z.of_nat k)) (inject_Z (Z.of_nat n)))
                          100)
       | None => false
       end)
    (seq 0 (S n)).

(** An instant with more than two weeks of valid dates on either side. *)
Definition roomy (t : Z) : Prop :=
  - JS.maxTime + 15 * JS.msPerDay <= t <= JS.maxTime - 15 * JS.msPerDay.

(** In a zone without transitions, of offset [tza]: the instant at which
    the local day number [d] starts, and the starts of the local weeks
    (Sunday, 00:00). *)
Definition dayStart (tza d : Z) : Z := d * JS.msPerDay - tza.

Definition isWeekStart (tza s : Z) : Prop :=
  exists d, s = dayStart tza d /\ (d + 4) mod 7 = 0.

(** The logs recorded on the local day number [d]. *)
Definition logsOfDay (tza d : Z) (logs : list DoseLog.t) : list DoseLog.t :=
  filter (fun log => JS.Day (JS.LocalTime tza (DoseLog.timestamp log)) =? d) logs.

(** The page's view of the store's dose logs. *)
Definition mirrors (logs : list DoseLog.t) (w : World) : Prop :=
  logs = map formatLog (Supabase.dose_logs (db w)).

(** A time of day in ascending order after another. *)
Definition timesAscend (l : list string) : Prop :=
  StronglySorted
    (fun a b => match timeOfDay a, timeOfDay b with
                | Some (h, m), Some (h', m') => h * 60 + m < h' * 60 + m'
                | _, _ => False
                end) l.

(** The number of times a day a frequency stands for. *)
Definition dosesPerDay (frequency : FrequencyType) : option nat :=
  match frequency with
  | once_daily => Some 1%nat
  | twice_daily => Some 2%nat
  | three_times_daily => Some 3%nat
  | four_times_daily => Some 4%nat
  | custom => None
  end.

(** The entry of the weekly chart for the local day number [d]: the
    logs of that day, those of them taken on time, and the overall
    percentage of that day. *)
Definition dayEntry (tza : Z) (format : JS.Date -> string -> string)
  (logs : list DoseLog.t) (d : Z) : WeeklyAdherence.t :=
  let dayLogs := logsOfDay tza d logs in
  {| WeeklyAdherence.date := format (JS.Num (dayStart tza d)) "MMM d"%string;
     WeeklyAdherence.adherenceRate := Analytics.calculateOverallAdherence dayLogs;
     WeeklyAdherence.total := Z.of_nat (List.length dayLogs);
     WeeklyAdherence.taken :=
       Z.of_nat (List.length (filter DoseLog.isOnTime dayLogs)) |}.

(** The seven local day numbers of the week that starts on day [d], and
    the logs recorded in that week. *)
Definition weekDays (d : Z) : list Z :=
  [d; d + 1; d + 2; d + 3; d + 4; d + 5; d + 6].

Definition logsOfWeek (tza d : Z) (logs : list DoseLog.t) : list DoseLog.t :=
  filter (fun log =>
            let day := JS.Day (JS.LocalTime tza (DoseLog.timestamp log)) in
            (d <=? day) && (day <? d + 7))
         logs.

Definition sumZ (l : list Z) : Z := fold_right Z.add 0 l.

(** The rows a handler added to the dose log table. *)
Definition addedDoseLogs (before after : World) (added : list Supabase.dose_logs_row)
  : Prop :=
  Supabase.dose_logs (db after) = Supabase.dose_logs (db before) ++ added.

(** A request to the dose log table that carries the on-time flag set. *)
Definition onTimeRequest (q : request) : Prop :=
  match q with
  | insert_into_dose_logs r => Supabase.is_on_time r = true
  | insert_into_medications _ => True
  end.

(* ================================================================== *)
(** * Sample data *)
(* ================================================================== *)

Module Sample.

Definition t_2024_01_01 : Z := 1704067200000.
Definition t_2024_03_01_0700 : Z := 1709276400000.
Definition t_2024_03_01_0800 : Z := 1709280000000.
Definition t_2024_03_01_0805 : Z := 1709280300000.
Definition t_2024_03_01_0900 : Z := 1709283600000.
Definition t_2024_03_01_2100 : Z := 1709326800000.
Definition t_2024_03_02_0000 : Z := 1709337600000.
Definition t_2024_03_02_0800 : Z := 1709366400000.
Definition t_2024_03_02_2100 : Z := 1709413200000.

Definition patient : User.t :=
  {| User.id := "u1"; User.email := "patient@example.org" |}.

Definition medication (id name : string) (times : list string) (startDate : Z)
  (endDate : option Z) : Medication.t :=
  {| Medication.id := id; Medication.name := name; Medication.dose := "10mg";
     Medication.frequency := custom; Medication.times := times;
     Medication.startDate := startDate; Medication.endDate := endDate;
     Medication.category := None; Medication.familyMember := None;
     Medication.userId := "u1"; Medication.createdAt := startDate |}.

Definition log (id medicationId : string) (timestamp : Z) (isOnTime : bool)
  : DoseLog.t :=
  {| DoseLog.id := id; DoseLog.medicationId := medicationId;
     DoseLog.timestamp := timestamp; DoseLog.isOnTime := isOnTime;
     DoseLog.userId := "u1" |}.

Definition stored (id medicationId : string) (timestamp : Z) (isOnTime : bool)
  : Supabase.dose_logs_row :=
  {| Supabase.id := id;
     Supabase.row := {| Supabase.medication_id := medicationId;
                        Supabase.timestamp := timestamp;
                        Supabase.is_on_time := isOnTime;
                        Supabase.user_id := "u1" |} |}.

Definition world (rows : list Supabase.dose_logs_row) : World :=
  {| db := {| Supabase.dose_logs := rows; Supabase.medications := [] |};
     requests := []; toasts := []; console := []; navigated := [] |}.

(** The Dashboard before its first fetch. *)
Definition loading : Dashboard.State :=
  {| Dashboard.medications := []; Dashboard.upcomingDoses := [];
     Dashboard.recentLogs := [];
     Dashboard.adherenceStats :=
       {| AdherenceStat.adherenceRate := 0; AdherenceStat.totalDoses := 0;
          AdherenceStat.takenDoses := 0; AdherenceStat.missedDoses := 0;
          AdherenceStat.mostMissed := [] |};
     Dashboard.isLoading := true |}.

(** The medication of the scenario: twice a day, from 1 January 2024. *)
Definition m1 : Medication.t :=
  medication "m1" "Aspirin" ["08:00"; "20:00"]%string t_2024_01_01 None.

Definition scenarioLogs : list DoseLog.t :=
  [ log "l1" "m1" t_2024_03_01_0805 true;
    log "l2" "m1" t_2024_03_02_2100 false ].

(** Forty logs, twenty-three of them on time. *)
Definition fortyLogs : list DoseLog.t :=
  repeat (log "l" "m1" t_2024_03_01_0805 true) 23
  ++ repeat (log "l" "m1" t_2024_03_01_0805 false) 17.

(** A course that ends on 1 March 2024 at 09:00:00.000. *)
Definition course : Medication.t :=
  medication "m2" "Amoxicillin" ["08:00"]%string t_2024_01_01
             (Some t_2024_03_01_0900).

(** Two medications under one name. *)
Definition morning : Medication.t :=
  medication "m3" "Metformin" ["08:00"]%string t_2024_01_01 None.
Definition evening : Medication.t :=
  medication "m4" "Metformin" ["20:00"]%string t_2024_01_01 None.

Definition missedLogs : list DoseLog.t :=
  [ log "l1" "m3" t_2024_03_01_0805 false;
    log "l2" "m3" t_2024_03_02_0800 false;
    log "l3" "m4" t_2024_03_01_2100 false ].

(** A medication whose time of day is not a time of day. *)
Definition garbled : Medication.t :=
  medication "m5" "Ibuprofen" ["8am"]%string t_2024_01_01 None.

(** A medication whose time of day carries seconds. *)
Definition withSeconds : Medication.t :=
  medication "m6" "Ibuprofen" ["08:00:30"]%string t_2024_01_01 None.

(** New York around the end of daylight saving time in 2024: four hours
    behind UTC until 3 November, 06:00 UTC, and five hours from then;
    the local times from 01:00 to 02:00 of that day come twice and are
    read as the earlier instant. *)
Definition newYork : JS.Zone :=
  fun t isUTC =>
    if isUTC
    then (if t <? 1730613600000 then -14400000 else -18000000)
    else (if t <? 1730599200000 then -14400000 else -18000000).

(** 2 November 2024, 09:00 in New York (13:00 UTC). *)
Definition t_2024_11_02_0900_EDT : Z := 1730552400000.

(** The form of the Add Medication page, filled in. *)
Definition aspirinForm : AddMedication.FormValues :=
  {| AddMedication.name := "Aspirin"; AddMedication.dose := "10mg";
     AddMedication.frequency := once_daily;
     AddMedication.startDate := t_2024_01_01;
     AddMedication.endDate := None;
     AddMedication.category := Some "prescription"%string;
     AddMedication.familyMember := None |}.

End Sample.

(* ================================================================== *)
(** * Validity windows (Dashboard filter, Calendar filter) *)
(* ================================================================== *)

(** What the Dashboard filter lets through: the start date is inclusive,
    the end date exclusive. *)
Lemma upcomingFilter_true (now : Z) (med : Medication.t) :
  Dashboard.upcomingFilter now med = true <->
  Medication.startDate med <= now
  /\ (Medication.endDate med = None
      \/ exists e, Medication.endDate med = Some e /\ now < e).
Proof.
  unfold Dashboard.upcomingFilter, DateFns.isAfter, DateFns.isBefore, JS.gt.
  destruct (Medication.endDate med) as [e|]; simpl;
    rewrite ?andb_true_iff, negb_true_iff, ?Z.ltb_lt, Z.ltb_ge.
  - split.
    + intros [He Hs]. split; [exact Hs|]. right. exists e. split; [reflexivity|exact He].
    + intros [Hs [Hn|[e' [He' Hlt]]]]; [discriminate|].
      injection He' as <-. split; assumption.
  - split.
    + intros Hs. split; [exact Hs|]. left; reflexivity.
    + intros [Hs _]. exact Hs.
Qed.

(** What the Calendar filter lets through: both ends are inclusive. *)
Lemma isActiveOn_true (date : Z) (med : Medication.t) :
  Calendar.isActiveOn date med = true <->
  Medication.startDate med <= date
  /\ (Medication.endDate med = None
      \/ exists e, Medication.endDate med = Some e /\ date <= e).
Proof.
  unfold Calendar.isActiveOn, JS.ge.
  destruct (Medication.endDate med) as [e|]; simpl;
    rewrite ?andb_true_iff, ?Z.leb_le.
  - split.
    + intros [Hs He]. split; [exact Hs|]. right. exists e. split; [reflexivity|exact He].
    + intros [Hs [Hn|[e' [He' Hle]]]]; [discriminate|].
      injection He' as <-. split; assumption.
  - split.
    + intros [Hs _]. split; [exact Hs|]. left; reflexivity.
    + intros [Hs _]. split; [exact Hs|reflexivity].
Qed.

(** Away from the last instant of a window the two pages agree. *)
Lemma filters_agree_off_end (t : Z) (med : Medication.t) :
  Medication.endDate med <> Some t ->
  Calendar.isActiveOn t med = Dashboard.upcomingFilter t med.
Proof.
  intros Hne. apply eq_true_iff_eq.
  rewrite isActiveOn_true, upcomingFilter_true.
  split; intros [Hs H]; (split; [exact Hs|]);
    destruct H as [Hn|[e [He Hc]]]; try (left; exact Hn);
    right; exists e; (split; [exact He|]).
  - assert (e <> t) by congruence. lia.
  - lia.
Qed.

(** C1 (the code departs from the claim): a medication whose end date is
    the very instant [now] is left out of the upcoming doses, whatever
    its other fields, although it started a day before [now] and its end
    date is not before [now]. *)
Theorem upcomingFilter_drops_end_equal_now :
  forall (id name : string) (times : list string) (now : Z),
    let med := Sample.medication id name times (now - JS.msPerDay) (Some now) in
    Dashboard.upcomingFilter now med = false
    /\ Medication.startDate med < now
    /\ Medication.endDate med = Some now.
Proof.
  intros id name times now. cbn -[Z.sub].
  unfold Dashboard.upcomingFilter, DateFns.isAfter, DateFns.isBefore, JS.gt.
  cbn -[Z.sub]. rewrite Z.ltb_irrefl. repeat split.
  unfold JS.msPerDay. lia.
Qed.

(** C5 (the code departs from the claim): at the last instant of a
    validity window the Calendar page keeps the medication and the
    Dashboard filter drops it. *)
Theorem calendar_and_dashboard_differ_at_end :
  Calendar.isActiveOn Sample.t_2024_03_01_0900 Sample.course = true
  /\ Dashboard.upcomingFilter Sample.t_2024_03_01_0900 Sample.course = false
  /\ Medication.startDate Sample.course <= Sample.t_2024_03_01_0900
  /\ Medication.endDate Sample.course = Some Sample.t_2024_03_01_0900.
Proof.
  repeat split; try reflexivity. discriminate.
Qed.

(* ================================================================== *)
(** * Logging a dose, adding a medication *)
(* ================================================================== *)

(** The Calendar page refuses a dose for a medication it shows as taken
    on the selected date: a notice, no request, the store and the page
    state as they were. *)
Lemma calendar_refuses_repeat (tza now : Z) (v : Supabase.verdict)
  (medicationId : string) (st : Calendar.State) (w : World) (u : User.t) :
  Calendar.user st = Some u ->
  Calendar.isMedicationTaken tza st medicationId = true ->
  Calendar.handleLogDose tza now v medicationId st w
  = (st, toast (toast_info "You've already logged this medication today") w).
Proof.
  intros Hu Htaken. unfold Calendar.handleLogDose. rewrite Hu, Htaken. reflexivity.
Qed.

(** C7 (the code departs from the claim): on the Dose Logging page a
    second dose of a medication already logged that day is accepted: the
    store holds two rows for it on the one calendar day and the page
    announces success. *)
Theorem doseLogging_accepts_second_dose_of_the_day :
  let st := {| DoseLogging.user := Some Sample.patient;
               DoseLogging.selectedMedicationId := "m1";
               DoseLogging.recentLogs :=
                 [Sample.log "l1" "m1" Sample.t_2024_03_01_0805 true] |} in
  let w := Sample.world [Sample.stored "l1" "m1" Sample.t_2024_03_01_0805 true] in
  let w' := snd (DoseLogging.handleLogDose Sample.t_2024_03_01_2100
                   (Supabase.accept "l2") st w) in
  Supabase.dose_logs (db w')
  = [Sample.stored "l1" "m1" Sample.t_2024_03_01_0805 true;
     Sample.stored "l2" "m1" Sample.t_2024_03_01_2100 true]
  /\ toasts w' = [toast_success "Dose logged successfully!"]
  /\ sameLocalDay 0 Sample.t_2024_03_01_0805 Sample.t_2024_03_01_2100.
Proof.
  repeat split.
Qed.

(** The Calendar page looks for a log on the selected date, not on the day
    of the new log: with 2 March selected, a dose taken on 1 March at
    21:00 is stored although the page holds a log of 1 March, 08:05. *)
Example calendar_guard_reads_selected_date :
  let st := {| Calendar.user := Some Sample.patient;
               Calendar.date := Sample.t_2024_03_02_0000;
               Calendar.medications := [Sample.m1];
               Calendar.logs :=
                 [Sample.log "l1" "m1" Sample.t_2024_03_01_0805 true] |} in
  let w := Sample.world [Sample.stored "l1" "m1" Sample.t_2024_03_01_0805 true] in
  Supabase.dose_logs
    (db (snd (Calendar.handleLogDose 0 Sample.t_2024_03_01_2100
                (Supabase.accept "l2") "m1" st w)))
  = [Sample.stored "l1" "m1" Sample.t_2024_03_01_0805 true;
     Sample.stored "l2" "m1" Sample.t_2024_03_01_2100 true].
Proof. reflexivity. Qed.

(** C9: whatever the page state, the store's verdict, the clock and the
    medication, each dose-logging handler sends only requests with
    is_on_time = true and adds only rows with is_on_time = true; the flag
    never depends on the time of day or on the timestamp. *)
Theorem dose_logs_are_created_on_time :
  forall (tza now : Z) (v : Supabase.verdict) (medicationId : string)
         (cst : Calendar.State) (dst : DoseLogging.State) (w : World),
    let wc := snd (Calendar.handleLogDose tza now v medicationId cst w) in
    let wd := snd (DoseLogging.handleLogDose now v dst w) in
    (exists sent added,
        requests wc = requests w ++ sent /\ Forall onTimeRequest sent
        /\ addedDoseLogs w wc added
        /\ Forall (fun r => Supabase.is_on_time (Supabase.row r) = true) added)
    /\ (exists sent added,
        requests wd = requests w ++ sent /\ Forall onTimeRequest sent
        /\ addedDoseLogs w wd added
        /\ Forall (fun r => Supabase.is_on_time (Supabase.row r) = true) added).
Proof.
  intros tza now v medicationId cst dst w. split.
  - unfold Calendar.handleLogDose.
    destruct (Calendar.user cst) as [u|];
      [destruct (Calendar.isMedicationTaken tza cst medicationId)|];
      try (exists [], []; unfold addedDoseLogs; cbn; rewrite !app_nil_r;
           repeat split; constructor).
    destruct v as [i|msg]; cbn.
    + eexists [_], [_]. unfold addedDoseLogs. cbn.
      repeat split; repeat constructor.
    + eexists [_], []. unfold addedDoseLogs. cbn. rewrite app_nil_r.
      repeat split; repeat constructor.
  - unfold DoseLogging.handleLogDose.
    destruct (DoseLogging.selectedMedicationId dst) as [|c s];
      [|destruct (DoseLogging.user dst) as [u|]];
      try (exists [], []; unfold addedDoseLogs; cbn; rewrite !app_nil_r;
           repeat split; constructor).
    destruct v as [i|msg]; cbn.
    + eexists [_], [_]. unfold addedDoseLogs. cbn.
      repeat split; repeat constructor.
    + eexists [_], []. unfold addedDoseLogs. cbn. rewrite app_nil_r.
      repeat split; repeat constructor.
Qed.

(** C10: for a signed-in user, submitting the form sends an insert to the
    medications table exactly when the list of times is not empty.  With
    times it sends one request, which carries the record of the form
    with these times; when the store accepts it, this record and nothing
    else is added to the table, the success notice is shown and the page
    moves on; when the store refuses it, the table stays as it was and
    the error is shown.  With an empty list it shows its error, sends
    nothing and leaves the store alone.  So every row that a submission
    adds is the record of the form with the times of the page, of which
    there is at least one. *)
Theorem onSubmit_inserts_iff_times (now : Z) (v : Supabase.verdict)
  (data : AddMedication.FormValues) (st : AddMedication.State) (w : World)
  (u : User.t) :
  AddMedication.user st = Some u ->
  let w' := AddMedication.onSubmit now v data st w in
  let record := submittedRecord now data (AddMedication.times st) u in
  ((exists r, requests w' = requests w ++ [insert_into_medications r])
   <-> AddMedication.times st <> [])
  /\ (AddMedication.times st <> [] ->
      requests w' = requests w ++ [insert_into_medications record]
      /\ Supabase.dose_logs (db w') = Supabase.dose_logs (db w)
      /\ match v with
         | Supabase.accept _ =>
             Supabase.medications (db w')
             = Supabase.medications (db w) ++ [record]
             /\ toasts w'
                = toasts w ++ [toast_success "Medication added successfully!"]
             /\ navigated w' = navigated w ++ ["/medications"%string]
         | Supabase.refuse message =>
             Supabase.medications (db w') = Supabase.medications (db w)
             /\ toasts w'
                = toasts w
                  ++ [toast_error (message_or message "Failed to add medication")]
             /\ navigated w' = navigated w
         end)
  /\ (AddMedication.times st = [] ->
      requests w' = requests w /\ db w' = db w
      /\ toasts w'
         = toasts w
           ++ [toast_error "Please add at least one time for your medication"]
      /\ navigated w' = navigated w)
  /\ (forall r, In r (Supabase.medications (db w')) ->
                In r (Supabase.medications (db w))
                \/ (r = record /\ Supabase.m_times r <> [])).
Proof.
  intros Hu. unfold AddMedication.onSubmit, submittedRecord. rewrite Hu.
  destruct (AddMedication.times st) as [|t ts] eqn:Ht.
  - cbn. split; [|split; [|split]].
    + split.
      * intros [r Hr]. exfalso.
        apply (f_equal (@List.length request)) in Hr.
        rewrite length_app in Hr. cbn in Hr. lia.
      * intros H; contradiction.
    + intros H; contradiction.
    + intros _. repeat split.
    + intros r Hr. left; exact Hr.
  - destruct v as [i|msg]; cbn.
    + split; [|split; [|split]].
      * split; [discriminate|]. intros _. eexists. reflexivity.
      * intros _. repeat split.
      * discriminate.
      * intros r Hr. apply in_app_or in Hr. destruct Hr as [Hr|[<-|[]]].
        -- left; exact Hr.
        -- right. split; [reflexivity|]. cbn. discriminate.
    + split; [|split; [|split]].
      * split; [discriminate|]. intros _. eexists. reflexivity.
      * intros _. repeat split.
      * discriminate.
      * intros r Hr. left; exact Hr.
Qed.

Lemma onSubmit_inserts_iff_times_witness :
  let st := {| AddMedication.user := Some Sample.patient;
               AddMedication.times := ["08:00"; "20:00"]%string;
               AddMedication.timeInput := EmptyString |} in
  let w' := AddMedication.onSubmit Sample.t_2024_03_01_0900
              (Supabase.accept "m1") Sample.aspirinForm st (Sample.world []) in
  let record := submittedRecord Sample.t_2024_03_01_0900 Sample.aspirinForm
                  ["08:00"; "20:00"]%string Sample.patient in
  requests w' = [insert_into_medications record]
  /\ Supabase.medications (db w') = [record]
  /\ Supabase.m_times record = ["08:00"; "20:00"]%string.
Proof.
  intros st w' record.
  pose proof (proj1 (proj2 (onSubmit_inserts_iff_times Sample.t_2024_03_01_0900
                              (Supabase.accept "m1") Sample.aspirinForm st
                              (Sample.world []) Sample.patient eq_refl)))
    as Hsent.
  assert (Htimes : AddMedication.times st <> []) by discriminate.
  destruct (Hsent Htimes) as [Hrequests [_ [Hrows _]]].
  split; [exact Hrequests|]. split; [exact Hrows|reflexivity].
Defined.

(* ================================================================== *)
(** * Calendar days *)
(* ================================================================== *)

(** A day holds the instants from its start to the start of the next. *)
Lemma Day_bounds (t : Z) :
  JS.Day t * JS.msPerDay <= t < JS.Day t * JS.msPerDay + JS.msPerDay.
Proof.
  unfold JS.Day.
  pose proof (Z.div_mod t JS.msPerDay) as Hdm.
  pose proof (Z.mod_pos_bound t JS.msPerDay) as Hb.
  unfold JS.msPerDay in *. lia.
Qed.

(** Time values in range pass [TimeClip] unchanged. *)
Lemma TimeClip_Num (t : Z) :
  - JS.maxTime <= t <= JS.maxTime -> JS.TimeClip (JS.Num t) = JS.Num t.
Proof.
  intros H. unfold JS.TimeClip.
  destruct (Z.leb_spec (Z.abs t) JS.maxTime) as [_|Hgt]; [reflexivity|lia].
Qed.

(** The start of the local day of [t], a day inside the range of dates. *)
Lemma startOfDay_Num (tza t : Z) :
  - JS.maxTime + JS.msPerDay <= t <= JS.maxTime ->
  DateFns.startOfDay tza (JS.Num t)
  = JS.Num (JS.Day (JS.LocalTime tza t) * JS.msPerDay - tza).
Proof.
  intros Ht. unfold DateFns.startOfDay, JS.setHours, JS.MakeTime, JS.MakeDate,
    JS.toUTC, JS.UTC, JS.fixed.
  pose proof (Day_bounds (JS.LocalTime tza t)) as Hb.
  unfold JS.LocalTime, JS.fixed in *.
  rewrite TimeClip_Num.
  - f_equal. lia.
  - unfold JS.msPerDay, JS.maxTime, JS.msPerHour, JS.msPerMinute, JS.msPerSecond in *.
    lia.
Qed.

(** [isSameDay] compares local calendar days. *)
Lemma isSameDay_iff (tza a b : Z) :
  ordinary a -> ordinary b ->
  DateFns.isSameDay tza (JS.Num a) (JS.Num b) = true <-> sameLocalDay tza a b.
Proof.
  intros Ha Hb. unfold DateFns.isSameDay, sameLocalDay, ordinary in *.
  rewrite !startOfDay_Num by (unfold JS.msPerDay, JS.maxTime in *; lia).
  cbn. rewrite Z.eqb_eq. unfold JS.msPerDay. lia.
Qed.

(** C6: on the Calendar page a medication counts as taken on the selected
    date exactly when some log of the page refers to it and was recorded
    on the same local calendar day as the selected date, at whatever time
    of that day; and once the handler has recorded a dose at an instant
    of the selected day, the medication counts as taken. *)
Theorem isMedicationTaken_iff_logged_that_day (tza : Z) (st : Calendar.State)
  (medicationId : string) :
  ordinary (Calendar.date st) ->
  Forall (fun log => ordinary (DoseLog.timestamp log)) (Calendar.logs st) ->
  (Calendar.isMedicationTaken tza st medicationId = true
   <-> exists log, In log (Calendar.logs st)
                   /\ DoseLog.medicationId log = medicationId
                   /\ sameLocalDay tza (DoseLog.timestamp log) (Calendar.date st))
  /\ (forall (now : Z) (generated : string) (u : User.t) (w : World),
        Calendar.user st = Some u ->
        ordinary now ->
        sameLocalDay tza now (Calendar.date st) ->
        Calendar.isMedicationTaken tza
          (fst (Calendar.handleLogDose tza now (Supabase.accept generated)
                  medicationId st w))
          medicationId = true).
Proof.
  intros Hdate Hlogs.
  assert (Hiff : forall logs,
             Forall (fun log => ordinary (DoseLog.timestamp log)) logs ->
             Calendar.isMedicationTaken tza (Calendar.setLogs logs st) medicationId = true
             <-> exists log, In log logs
                             /\ DoseLog.medicationId log = medicationId
                             /\ sameLocalDay tza (DoseLog.timestamp log)
                                             (Calendar.date st)).
  { intros logs Hall. unfold Calendar.isMedicationTaken, Calendar.getLogsForDate.
    cbn. rewrite existsb_exists. rewrite Forall_forall in Hall.
    split.
    - intros [log [Hin Hid]]. apply filter_In in Hin. destruct Hin as [Hin Hday].
      exists log. split; [exact Hin|]. split.
      + apply String.eqb_eq. exact Hid.
      + apply isSameDay_iff; [apply Hall; exact Hin|exact Hdate|exact Hday].
    - intros [log [Hin [Hid Hday]]]. exists log. split.
      + apply filter_In. split; [exact Hin|].
        apply isSameDay_iff; [apply Hall; exact Hin|exact Hdate|exact Hday].
      + apply String.eqb_eq. exact Hid. }
  assert (Hst : Calendar.setLogs (Calendar.logs st) st = st) by (destruct st; reflexivity).
  split.
  - rewrite <- Hst at 1. apply Hiff. exact Hlogs.
  - intros now generated u w Hu Hnow Hsame.
    unfold Calendar.handleLogDose. rewrite Hu.
    destruct (Calendar.isMedicationTaken tza st medicationId) eqn:Htaken.
    + cbn. exact Htaken.
    + cbn. apply Hiff.
      * apply Forall_app. split; [exact Hlogs|]. constructor; [exact Hnow|constructor].
      * eexists. split; [apply in_or_app; right; left; reflexivity|].
        cbn. split; [reflexivity|exact Hsame].
Qed.

Lemma isMedicationTaken_iff_logged_that_day_witness :
  let st := {| Calendar.user := Some Sample.patient;
               Calendar.date := Sample.t_2024_03_01_0900;
               Calendar.medications := [Sample.m1];
               Calendar.logs := [Sample.log "l1" "m1" Sample.t_2024_03_01_0805 true] |} in
  Calendar.isMedicationTaken 0 st "m1" = true
  <-> exists log, In log (Calendar.logs st)
                  /\ DoseLog.medicationId log = "m1"%string
                  /\ sameLocalDay 0 (DoseLog.timestamp log) (Calendar.date st).
Proof.
  intros st.
  refine (proj1 (isMedicationTaken_iff_logged_that_day 0 st "m1" _ _)).
  - vm_compute. split; discriminate.
  - constructor; [|constructor]. vm_compute. split; discriminate.
Defined.

(* ================================================================== *)
(** * Array.prototype.sort with a comparator that subtracts keys *)
(* ================================================================== *)

Section StableSort.

Variable A : Type.
Variable comparefn : A -> A -> JS.num.
Variable key : A -> Z.

(** The elements on which the comparator is the difference of the keys. *)
Variable comparable : A -> Prop.
Hypothesis comparefn_key :
  forall x y, comparable x -> comparable y ->
              JS.SortCompare comparefn x y = key x - key y.

Lemma insert_Permutation (x : A) (l : list A) :
  Permutation (JS.insert comparefn x l) (x :: l).
Proof.
  induction l as [|y l IH]; cbn.
  - apply Permutation_refl.
  - destruct (JS.SortCompare comparefn x y <=? 0).
    + apply Permutation_refl.
    + apply perm_trans with (y :: x :: l).
      * apply perm_skip. exact IH.
      * apply perm_swap.
Qed.

Lemma sort_Permutation (l : list A) : Permutation (JS.sort comparefn l) l.
Proof.
  induction l as [|x l IH]; cbn.
  - apply perm_nil.
  - apply perm_trans with (x :: JS.sort comparefn l).
    + apply insert_Permutation.
    + apply perm_skip. exact IH.
Qed.

Lemma sort_comparable (l : list A) :
  Forall comparable l -> Forall comparable (JS.sort comparefn l).
Proof.
  intros H. rewrite Forall_forall in *. intros x Hx. apply H.
  apply (Permutation_in x (sort_Permutation l)). exact Hx.
Qed.

Lemma insert_sorted (x : A) (l : list A) :
  comparable x -> Forall comparable l ->
  StronglySorted (keyLe key) l -> StronglySorted (keyLe key) (JS.insert comparefn x l).
Proof.
  intros Hx Hl Hs. induction Hs as [|y l Hs IH Hy]; cbn.
  - constructor; constructor.
  - inversion Hl as [|y' l' Hcy Hcl]; subst.
    rewrite (comparefn_key x y Hx Hcy).
    destruct (Z.leb_spec (key x - key y) 0) as [Hle|Hgt].
    + constructor.
      * constructor; assumption.
      * constructor; [unfold keyLe; lia|].
        rewrite Forall_forall in *. intros z Hz. specialize (Hy z Hz).
        unfold keyLe in *. lia.
    + constructor.
      * apply IH. exact Hcl.
      * rewrite Forall_forall in *. intros z Hz.
        apply (Permutation_in z (insert_Permutation x l)) in Hz.
        destruct Hz as [<-|Hz]; [unfold keyLe; lia|apply Hy; exact Hz].
Qed.

Lemma sort_sorted (l : list A) :
  Forall comparable l -> StronglySorted (keyLe key) (JS.sort comparefn l).
Proof.
  induction l as [|x l IH]; intros H; cbn.
  - constructor.
  - inversion H as [|x' l' Hx Hl]; subst.
    apply insert_sorted; [exact Hx|apply sort_comparable; exact Hl|apply IH; exact Hl].
Qed.

Lemma insert_stable (k : Z) (x : A) (l : list A) :
  comparable x -> Forall comparable l ->
  filter (hasKey key k) (JS.insert comparefn x l) = filter (hasKey key k) (x :: l).
Proof.
  intros Hx Hl. induction Hl as [|y l Hy Hl IH]; [reflexivity|].
  cbn [JS.insert]. rewrite (comparefn_key x y Hx Hy).
  destruct (Z.leb_spec (key x - key y) 0) as [Hle|Hgt]; [reflexivity|].
  cbn [filter] in *. rewrite IH. unfold hasKey.
  destruct (Z.eqb_spec (key y) k) as [Hyk|Hyk];
    destruct (Z.eqb_spec (key x) k) as [Hxk|Hxk]; try reflexivity.
  lia.
Qed.

(** Stability: the elements of one key keep the order they came in. *)
Lemma sort_stable (k : Z) (l : list A) :
  Forall comparable l ->
  filter (hasKey key k) (JS.sort comparefn l) = filter (hasKey key k) l.
Proof.
  induction l as [|x l IH]; intros H; [reflexivity|].
  inversion H as [|x' l' Hx Hl]; subst. cbn [JS.sort].
  rewrite insert_stable by (try apply sort_comparable; assumption).
  cbn [filter]. rewrite (IH Hl). reflexivity.
Qed.

End StableSort.

(* ================================================================== *)
(** * Times of day *)
(* ================================================================== *)

(** A digit has a value from 0 to 9 and is no colon. *)
Lemma digitValue_facts (c : ascii) (d : Z) :
  JS.digitValue c = Some d ->
  0 <= d <= 9 /\ Ascii.eqb c ":" = false.
Proof.
  destruct c as [[] [] [] [] [] [] [] []]; vm_compute; intros H;
    try discriminate H; injection H as <-; repeat split; discriminate.
Qed.

(** [Number] reads two digits as their decimal value. *)
Lemma Number_two_digits (a b : ascii) (x y : Z) :
  JS.digitValue a = Some x -> JS.digitValue b = Some y ->
  JS.Number (String a (String b EmptyString)) = JS.Num (10 * x + y).
Proof.
  intros Ha Hb.
  destruct a as [[] [] [] [] [] [] [] []]; vm_compute in Ha;
    try discriminate Ha; injection Ha as <-;
    destruct b as [[] [] [] [] [] [] [] []]; vm_compute in Hb;
    try discriminate Hb; injection Hb as <-; reflexivity.
Qed.

(** A well-formed time of day splits into its hour and its minute. *)
Lemma timeOfDay_fields (s : string) (h m : Z) :
  timeOfDay s = Some (h, m) ->
  map JS.Number (JS.split ":" s) = [JS.Num h; JS.Num m]
  /\ 0 <= h < 24 /\ 0 <= m < 60.
Proof.
  unfold timeOfDay.
  intros He.
  destruct s as [|h1 [|h0 [|c [|m1 [|m0 [|]]]]]]; try discriminate He;
    destruct c as [[] [] [] [] [] [] [] []]; try discriminate He.
  destruct (JS.digitValue h1) as [a|] eqn:H1; [|discriminate He].
  destruct (JS.digitValue h0) as [b|] eqn:H0; [|discriminate He].
  destruct (JS.digitValue m1) as [c|] eqn:M1; [|discriminate He].
  destruct (JS.digitValue m0) as [d|] eqn:M0; [|discriminate He].
  destruct (Z.ltb_spec (10 * a + b) 24) as [Hh|]; [|discriminate He].
  destruct (Z.ltb_spec (10 * c + d) 60) as [Hm|]; [|discriminate He].
  change (Some (10 * a + b, 10 * c + d) = Some (h, m)) in He.
  assert (Eh : h = 10 * a + b) by congruence.
  assert (Em : m = 10 * c + d) by congruence.
  clear He. subst h m.
  destruct (digitValue_facts _ _ H1) as [Ra Ca].
  destruct (digitValue_facts _ _ H0) as [Rb Cb].
  destruct (digitValue_facts _ _ M1) as [Rc Cc].
  destruct (digitValue_facts _ _ M0) as [Rd Cd].
  split; [|lia].
  cbn [JS.split]. rewrite Ca, Cb, Cc, Cd. cbn [Ascii.eqb Bool.eqb JS.split map].
  rewrite (Number_two_digits _ _ _ _ H1 H0), (Number_two_digits _ _ _ _ M1 M0).
  reflexivity.
Qed.

(** A wall clock time lies on its calendar day, at its hour and
    minute. *)
Lemma wallClock_day (zone : JS.Zone) (now n h m : Z) :
  0 <= h < 24 -> 0 <= m < 60 ->
  JS.Day (wallClock zone now n h m) = JS.Day (JS.LocalTime zone now) + n
  /\ JS.TimeWithinDay (wallClock zone now n h m)
     = h * JS.msPerHour + m * JS.msPerMinute.
Proof.
  intros Hh Hm. unfold wallClock, JS.Day, JS.TimeWithinDay.
  set (D := JS.LocalTime zone now / JS.msPerDay + n).
  assert (Hr : 0 <= h * JS.msPerHour + m * JS.msPerMinute < JS.msPerDay)
    by (unfold JS.msPerDay, JS.msPerHour, JS.msPerMinute; lia).
  replace (D * JS.msPerDay + h * JS.msPerHour + m * JS.msPerMinute)
    with (h * JS.msPerHour + m * JS.msPerMinute + D * JS.msPerDay) by lia.
  split.
  - rewrite Z.div_add by discriminate. rewrite Z.div_small by exact Hr. lia.
  - rewrite Z.mod_add by discriminate. apply Z.mod_small. exact Hr.
Qed.

(** The wall clock times of the days around [now], and their instants,
    are near [now]. *)
Lemma wallClock_near (zone : JS.Zone) (now n h m : Z) :
  offsetsBelowADay zone -> 0 <= h < 24 -> 0 <= m < 60 ->
  now + (n - 3) * JS.msPerDay
  < instantOf zone (wallClock zone now n h m)
  < now + (n + 3) * JS.msPerDay.
Proof.
  intros Hzone Hh Hm. unfold instantOf.
  pose proof (Hzone (wallClock zone now n h m) false) as Hlocal.
  pose proof (Hzone now true) as Hnow.
  pose proof (Day_bounds (JS.LocalTime zone now)) as Hb.
  unfold wallClock in *. unfold JS.LocalTime in Hb.
  set (D := JS.Day (now + zone now true)) in *.
  change (JS.Day (JS.LocalTime zone now)) with D in *.
  set (o := zone ((D + n) * JS.msPerDay + h * JS.msPerHour + m * JS.msPerMinute)
                 false) in *.
  unfold JS.msPerDay, JS.msPerHour, JS.msPerMinute in *. lia.
Qed.

(** In a zone without transitions every local time is on the clock, the
    offset is what bounds the offsets, and the next calendar day is 24
    hours away. *)
Lemma onTheClock_fixed (tza local : Z) : onTheClock tza local.
Proof. unfold onTheClock, instantOf, JS.LocalTime, JS.fixed. lia. Qed.

Lemma offsetsBelowADay_fixed (tza : Z) :
  - JS.msPerDay < tza < JS.msPerDay -> offsetsBelowADay tza.
Proof. intros H t isUTC. exact H. Qed.

Lemma nextDue_fixed (tza now h m : Z) :
  nextDue tza now h m
  = if todayAt tza now h m <? now then todayAt tza now h m + JS.msPerDay
    else todayAt tza now h m.
Proof.
  unfold nextDue. destruct (todayAt tza now h m <? now); [|reflexivity].
  unfold todayAt, instantOf, wallClock, JS.fixed. lia.
Qed.

(** A well-formed time of day is projected to its next due instant. *)
Lemma projectDose_timeOfDay (zone : JS.Zone) (now reading : Z)
  (med : Medication.t) (timeStr : string) (h m : Z) :
  roomy now -> offsetsBelowADay zone -> sameLocalDay zone reading now ->
  timeOfDay timeStr = Some (h, m) ->
  onTheClock zone (wallClock zone now 0 h m) ->
  Dashboard.projectDose zone now reading med timeStr
  = {| UpcomingDose.medication := med;
       UpcomingDose.dueTime := JS.Num (nextDue zone now h m) |}.
Proof.
  intros Hnow Hzone Hday Htime Hclock.
  destruct (timeOfDay_fields _ _ _ Htime) as [Hfields [Hh Hm]].
  pose proof (wallClock_near zone now 0 h m Hzone Hh Hm) as Htoday.
  pose proof (wallClock_near zone now 1 h m Hzone Hh Hm) as Htomorrow.
  destruct (wallClock_day zone now 0 h m Hh Hm) as [Hd Ht].
  unfold roomy in Hnow.
  unfold Dashboard.projectDose. rewrite Hfields. cbn [nth].
  assert (Hset :
    JS.setHours zone (JS.Num reading) (JS.Num h) (JS.Num m) (JS.Num 0) (JS.Num 0)
    = JS.Num (todayAt zone now h m)).
  { unfold JS.setHours, JS.MakeTime, JS.MakeDate, JS.toUTC, JS.UTC.
    rewrite Hday.
    replace (JS.Day (JS.LocalTime zone now) * JS.msPerDay
             + (h * JS.msPerHour + m * JS.msPerMinute + 0 * JS.msPerSecond + 0))
      with (wallClock zone now 0 h m) by (unfold wallClock; lia).
    apply TimeClip_Num. unfold todayAt.
    unfold JS.msPerDay, JS.maxTime in *. lia. }
  rewrite Hset. unfold nextDue, DateFns.isBefore, JS.lt. f_equal.
  destruct (todayAt zone now h m <? now); [|reflexivity].
  unfold JS.setDate_getDate_plus_1, todayAt.
  rewrite Hclock, Hd, Ht. unfold JS.MakeDate, JS.toUTC, JS.UTC.
  replace ((JS.Day (JS.LocalTime zone now) + 0 + 1) * JS.msPerDay
           + (h * JS.msPerHour + m * JS.msPerMinute))
    with (wallClock zone now 1 h m) by (unfold wallClock; lia).
  apply TimeClip_Num.
  unfold JS.msPerDay, JS.maxTime in *. lia.
Qed.

(* ================================================================== *)
(** * The upcoming doses *)
(* ================================================================== *)

(** The [k]-th run of the callback gets the [k]-th pair and reading. *)
Lemma nth_error_indexed (B : Type) (l : list B) (a k : nat) (x : B) :
  nth_error l k = Some x ->
  nth_error (combine (seq a (List.length l)) l) k = Some ((a + k)%nat, x).
Proof.
  revert a k. induction l as [|y l IH]; intros a k H.
  - destruct k; discriminate H.
  - destruct k as [|k]; cbn in *.
    + injection H as <-. rewrite Nat.add_0_r. reflexivity.
    + rewrite (IH (S a) k H). f_equal. f_equal. lia.
Qed.

Lemma projectedDoses_length (zone : JS.Zone) (now : Z) (clock : nat -> Z)
  (meds : list Medication.t) :
  List.length (Dashboard.projectedDoses zone now clock meds)
  = List.length (Dashboard.scheduledTimes now meds).
Proof.
  unfold Dashboard.projectedDoses.
  rewrite length_map, length_combine, length_seq. apply Nat.min_id.
Qed.

Lemma projectedDoses_nth (zone : JS.Zone) (now : Z) (clock : nat -> Z)
  (meds : list Medication.t) (k : nat) (med : Medication.t) (timeStr : string) :
  nth_error (Dashboard.scheduledTimes now meds) k = Some (med, timeStr) ->
  nth_error (Dashboard.projectedDoses zone now clock meds) k
  = Some (Dashboard.projectDose zone now (clock k) med timeStr).
Proof.
  intros Hk. unfold Dashboard.projectedDoses.
  rewrite nth_error_map, (nth_error_indexed _ _ 0 k _ Hk). reflexivity.
Qed.

(** On valid dates the comparator of the upcoming doses subtracts due
    instants. *)
Lemma byDueTime_key (x y : UpcomingDose.t) :
  validDue x -> validDue y ->
  JS.SortCompare Dashboard.byDueTime x y = dueKey x - dueKey y.
Proof.
  intros [dx Hx] [dy Hy].
  unfold JS.SortCompare, Dashboard.byDueTime, dueKey. rewrite Hx, Hy. reflexivity.
Qed.

Lemma StronglySorted_weaken (B : Type) (R R' : B -> B -> Prop) (P : B -> Prop)
  (l : list B) :
  (forall x y, P x -> P y -> R x y -> R' x y) ->
  Forall P l -> StronglySorted R l -> StronglySorted R' l.
Proof.
  intros HR HP Hs. induction Hs as [|x l Hs IH Hx]; [constructor|].
  inversion HP as [|x' l' Px Pl]; subst. constructor; [apply IH; exact Pl|].
  rewrite Forall_forall in *. intros y Hy. apply HR; auto.
Qed.

Lemma dueAt_hasKey (d : Z) (l : list UpcomingDose.t) :
  Forall validDue l -> filter (dueAt d) l = filter (hasKey dueKey d) l.
Proof.
  intros H. apply filter_ext_in. rewrite Forall_forall in H.
  intros x Hx. destruct (H x Hx) as [dx Hdx].
  unfold dueAt, hasKey, dueKey. rewrite Hdx. reflexivity.
Qed.

(** The first three of the stable sort of an array of valid dates. *)
Lemma upcoming_sorted (zone : JS.Zone) (now : Z) (clock : nat -> Z)
  (meds : list Medication.t) :
  Forall validDue (Dashboard.projectedDoses zone now clock meds) ->
  exists sorted,
    Dashboard.upcoming zone now clock meds = firstn 3 sorted
    /\ Permutation sorted (Dashboard.projectedDoses zone now clock meds)
    /\ StronglySorted dueNoLater sorted
    /\ forall d, filter (dueAt d) sorted
                 = filter (dueAt d) (Dashboard.projectedDoses zone now clock meds).
Proof.
  intros Hvalid.
  exists (JS.sort Dashboard.byDueTime (Dashboard.projectedDoses zone now clock meds)).
  split; [reflexivity|].
  split; [apply sort_Permutation|]. split.
  - apply StronglySorted_weaken with (R := keyLe dueKey) (P := validDue).
    + intros x y [dx Hx] [dy Hy]. unfold keyLe, dueNoLater, dueKey.
      rewrite Hx, Hy. cbn. intros H. apply Z.leb_le. exact H.
    + apply sort_comparable. exact Hvalid.
    + apply sort_sorted with (comparable := validDue);
        [exact byDueTime_key|exact Hvalid].
  - intros d. rewrite !dueAt_hasKey;
      [|exact Hvalid|apply sort_comparable; exact Hvalid].
    apply sort_stable with (comparable := validDue);
      [exact byDueTime_key|exact Hvalid].
Qed.

(** C4: let [expected] list each medication of [meds] that passes the
    filter at [now], in the order of [meds], with each time string of its
    list, in the order of the list.  At an instant [now] well inside the
    range of dates, in a zone whose offsets stay below a day (with or
    without daylight saving), and with every reading of the clock on the
    local calendar day of [now]: there is one projected dose for each
    entry of [expected], in this order; the dose of a well-formed time of
    day "HH:MM" that is on the clock on the day of [now] belongs to the
    medication of the entry and is due on that calendar day at
    HH:MM:00.000 local time when that instant is not before [now], and
    on the next calendar day at HH:MM:00.000 local time otherwise; and
    when all the times are such, the doses shown are the first three of
    the projected doses sorted by due instant, doses due at one instant
    keeping the order they were projected in. *)
Theorem upcoming_next_due (zone : JS.Zone) (now : Z) (clock : nat -> Z)
  (meds : list Medication.t) :
  roomy now -> offsetsBelowADay zone ->
  (forall k, sameLocalDay zone (clock k) now) ->
  let expected :=
    flat_map (fun med => map (fun timeStr => (med, timeStr)) (Medication.times med))
             (filter (Dashboard.upcomingFilter now) meds) in
  let projected := Dashboard.projectedDoses zone now clock meds in
  (forall k med timeStr h m,
      nth_error expected k = Some (med, timeStr) ->
      timeOfDay timeStr = Some (h, m) ->
      onTheClock zone (wallClock zone now 0 h m) ->
      nth_error projected k
      = Some {| UpcomingDose.medication := med;
                UpcomingDose.dueTime := JS.Num (nextDue zone now h m) |})
  /\ map UpcomingDose.medication projected = map fst expected
  /\ ((forall visit, In visit expected ->
         exists h m, timeOfDay (snd visit) = Some (h, m)
                     /\ onTheClock zone (wallClock zone now 0 h m)) ->
      exists sorted,
        Dashboard.upcoming zone now clock meds = firstn 3 sorted
        /\ Permutation sorted projected
        /\ StronglySorted dueNoLater sorted
        /\ forall d, filter (dueAt d) sorted = filter (dueAt d) projected).
Proof.
  intros Hnow Hzone Hclock expected projected.
  assert (Hentry : forall k med timeStr h m,
             nth_error expected k = Some (med, timeStr) ->
             timeOfDay timeStr = Some (h, m) ->
             onTheClock zone (wallClock zone now 0 h m) ->
             nth_error projected k
             = Some {| UpcomingDose.medication := med;
                       UpcomingDose.dueTime := JS.Num (nextDue zone now h m) |}).
  { intros k med timeStr h m Hk Ht Hc. unfold projected.
    rewrite (projectedDoses_nth _ _ _ _ _ _ _ Hk). f_equal.
    apply projectDose_timeOfDay; auto. }
  assert (Hmeds : map UpcomingDose.medication projected = map fst expected).
  { apply nth_error_ext. intros k. rewrite !nth_error_map.
    destruct (nth_error expected k) as [[med timeStr]|] eqn:Hk.
    - unfold projected. rewrite (projectedDoses_nth _ _ _ _ _ _ _ Hk). reflexivity.
    - assert (Hnone : nth_error projected k = None).
      { apply nth_error_None. unfold projected. rewrite projectedDoses_length.
        apply nth_error_None. exact Hk. }
      rewrite Hnone. reflexivity. }
  split; [exact Hentry|]. split; [exact Hmeds|].
  intros Hwf. apply upcoming_sorted.
  rewrite Forall_forall. intros x Hx.
  apply In_nth_error in Hx. destruct Hx as [k Hk].
  destruct (nth_error expected k) as [[med timeStr]|] eqn:Hv.
  - destruct (Hwf (med, timeStr) (nth_error_In _ _ Hv)) as [h [m [Ht Hc]]].
    cbn in Ht. fold projected in Hk.
    rewrite (Hentry k med timeStr h m Hv Ht Hc) in Hk. injection Hk as <-.
    eexists. reflexivity.
  - exfalso. apply nth_error_None in Hv.
    assert (Hsome : nth_error (Dashboard.projectedDoses zone now clock meds) k
                    <> None) by congruence.
    apply nth_error_Some in Hsome. rewrite projectedDoses_length in Hsome.
    unfold expected in Hv. unfold Dashboard.scheduledTimes in Hsome. lia.
Qed.

Lemma upcoming_next_due_witness :
  let zone := Sample.newYork in
  let now := Sample.t_2024_11_02_0900_EDT in
  let projected :=
    Dashboard.projectedDoses zone now (fun _ => now) [Sample.m1] in
  nth_error projected 0
  = Some {| UpcomingDose.medication := Sample.m1;
            UpcomingDose.dueTime := JS.Num (now + 24 * JS.msPerHour) |}
  /\ nth_error projected 1
     = Some {| UpcomingDose.medication := Sample.m1;
               UpcomingDose.dueTime := JS.Num (now + 11 * JS.msPerHour) |}
  /\ exists sorted,
       Dashboard.upcoming zone now (fun _ => now) [Sample.m1] = firstn 3 sorted
       /\ Permutation sorted projected
       /\ StronglySorted dueNoLater sorted
       /\ forall d, filter (dueAt d) sorted = filter (dueAt d) projected.
Proof.
  intros zone now projected.
  assert (Hzone : offsetsBelowADay zone).
  { intros t isUTC. unfold zone, Sample.newYork.
    destruct isUTC; destruct (t <? _); split; reflexivity. }
  assert (Hnow : roomy now) by (vm_compute; split; discriminate).
  destruct (upcoming_next_due zone now (fun _ => now) [Sample.m1] Hnow Hzone
              (fun _ => eq_refl)) as [Hentries [_ Hshown]].
  split; [|split].
  - exact (Hentries 0%nat Sample.m1 "08:00"%string 8 0 eq_refl eq_refl eq_refl).
  - exact (Hentries 1%nat Sample.m1 "20:00"%string 20 0 eq_refl eq_refl eq_refl).
  - apply Hshown. intros visit [<-|[<-|[]]].
    + exists 8, 0. split; reflexivity.
    + exists 20, 0. split; reflexivity.
Defined.

(** The scenario of the specification: at 07:00 the 08:00 dose is due
    the same day, at 09:00 it is due the next day. *)
Example upcoming_scenario :
  map UpcomingDose.dueTime
      (Dashboard.upcoming 0 Sample.t_2024_03_01_0700
         (fun _ => Sample.t_2024_03_01_0700) [Sample.m1])
  = [JS.Num Sample.t_2024_03_01_0800; JS.Num 1709323200000]
  /\ map UpcomingDose.dueTime
         (Dashboard.upcoming 0 Sample.t_2024_03_01_0900
            (fun _ => Sample.t_2024_03_01_0900) [Sample.m1])
     = [JS.Num 1709323200000; JS.Num Sample.t_2024_03_02_0800].
Proof. split; reflexivity. Qed.

(** Across the end of daylight saving time the next calendar day is 25
    hours away: in New York on 2 November 2024 at 09:00, the 08:30 dose
    is due on 3 November at 08:30, 24 hours and 30 minutes later. *)
Example upcoming_across_a_transition :
  map UpcomingDose.dueTime
      (Dashboard.upcoming Sample.newYork Sample.t_2024_11_02_0900_EDT
         (fun _ => Sample.t_2024_11_02_0900_EDT)
         [Sample.medication "m7" "Aspirin" ["08:30"]%string Sample.t_2024_01_01 None])
  = [JS.Num (Sample.t_2024_11_02_0900_EDT + 24 * JS.msPerHour + 30 * JS.msPerMinute)].
Proof. reflexivity. Qed.

(* ================================================================== *)
(** * Malformed times of day *)
(* ================================================================== *)

(** An hour or a minute that is NaN makes the date invalid. *)
Lemma setHours_NaN (zone : JS.Zone) (d : JS.Date) (hours minutes : JS.num) :
  hours = JS.NaN \/ minutes = JS.NaN ->
  JS.setHours zone d hours minutes (JS.Num 0) (JS.Num 0) = JS.NaN.
Proof.
  intros [-> | ->]; destruct d; try reflexivity;
    unfold JS.setHours, JS.MakeTime; try destruct hours; reflexivity.
Qed.

(** A code unit of no numeric literal is no digit and no sign. *)
Lemma numericCodeUnit_false (c : ascii) :
  numericCodeUnit c = false ->
  JS.digitValue c = None /\ c <> "+"%char /\ c <> "-"%char.
Proof.
  destruct c as [[] [] [] [] [] [] [] []]; vm_compute; intros H;
    try discriminate H; repeat split; discriminate.
Qed.

Lemma decimalDigits_None (s : string) (acc : Z) (c : ascii) :
  In c (list_ascii_of_string s) -> JS.digitValue c = None ->
  JS.decimalDigits acc s = None.
Proof.
  revert acc. induction s as [|a s IH]; intros acc Hin Hc; [contradiction|].
  cbn [JS.decimalDigits]. destruct Hin as [->|Hin].
  - rewrite Hc. reflexivity.
  - destruct (JS.digitValue a); [apply IH; assumption|reflexivity].
Qed.

Lemma unsignedInteger_NaN (s : string) (c : ascii) :
  In c (list_ascii_of_string s) -> JS.digitValue c = None ->
  JS.unsignedInteger s = JS.NaN.
Proof.
  intros Hin Hc. unfold JS.unsignedInteger.
  destruct s as [|a s]; [reflexivity|].
  rewrite (decimalDigits_None _ 0 c Hin Hc). reflexivity.
Qed.

(** Trimming keeps what is no white space. *)
Lemma trimStart_In (s : string) (c : ascii) :
  In c (list_ascii_of_string s) -> JS.isWhiteSpace c = false ->
  In c (list_ascii_of_string (JS.trimStart s)).
Proof.
  intros Hin Hc. induction s as [|a s IH]; [contradiction|].
  cbn [JS.trimStart]. destruct (JS.isWhiteSpace a) eqn:Ha; [|exact Hin].
  apply IH. destruct Hin as [->|Hin]; [congruence|exact Hin].
Qed.

Lemma trimEnd_In (s : string) (c : ascii) :
  In c (list_ascii_of_string s) -> JS.isWhiteSpace c = false ->
  In c (list_ascii_of_string (JS.trimEnd s)).
Proof.
  intros Hin Hc. induction s as [|a s IH]; [contradiction|].
  cbn [JS.trimEnd]. destruct Hin as [->|Hin].
  - destruct (JS.trimEnd s); [rewrite Hc|]; left; reflexivity.
  - specialize (IH Hin). destruct (JS.trimEnd s) as [|b t]; [contradiction|].
    right. exact IH.
Qed.

(** A string with a code unit of no numeric literal is no number. *)
Lemma Number_noNumber (s : string) : noNumber s -> JS.Number s = JS.NaN.
Proof.
  intros [c [Hin [Hws Hnum]]].
  destruct (numericCodeUnit_false c Hnum) as [Hdigit [Hplus Hminus]].
  assert (Htrim : In c (list_ascii_of_string (JS.trim s)))
    by (apply trimEnd_In; [apply trimStart_In|]; assumption).
  unfold JS.Number. destruct (JS.trim s) as [|a t]; [contradiction|].
  destruct (Ascii.eqb_spec a "+") as [->|Ha].
  { destruct Htrim as [E|Htrim]; [congruence|].
    apply (unsignedInteger_NaN _ c); assumption. }
  destruct (Ascii.eqb_spec a "-") as [->|Hb].
  { destruct Htrim as [E|Htrim]; [congruence|].
    rewrite (unsignedInteger_NaN _ c); [reflexivity|assumption|assumption]. }
  transitivity (JS.unsignedInteger (String a t)).
  - destruct a as [[] [] [] [] [] [] [] []]; try reflexivity; congruence.
  - apply (unsignedInteger_NaN _ c); assumption.
Qed.

Lemma nth_map_within (B C : Type) (f : B -> C) (l : list B) (n : nat)
  (d : B) (d' : C) :
  (n < List.length l)%nat -> nth n (map f l) d' = f (nth n l d).
Proof.
  intros Hn. rewrite (nth_indep (map f l) d' (f d)) by (rewrite length_map; exact Hn).
  apply map_nth.
Qed.

(** A time string without a minute field, or with an hour or minute
    field that is no number, is projected to an invalid date. *)
Lemma projectDose_noHourOrMinute (zone : JS.Zone) (now reading : Z)
  (med : Medication.t) (timeStr : string) :
  noHourOrMinute timeStr ->
  Dashboard.projectDose zone now reading med timeStr
  = {| UpcomingDose.medication := med; UpcomingDose.dueTime := JS.NaN |}.
Proof.
  intros Hno. unfold Dashboard.projectDose.
  set (fields := JS.split ":" timeStr) in *.
  assert (Hnan : nth 0 (map JS.Number fields) JS.NaN = JS.NaN
                 \/ nth 1 (map JS.Number fields) JS.NaN = JS.NaN).
  { unfold noHourOrMinute in Hno. fold fields in Hno.
    assert (Hfield : forall n, noNumber (nth n fields EmptyString) ->
                               nth n (map JS.Number fields) JS.NaN = JS.NaN).
    { intros n Hn. destruct (Nat.lt_ge_cases n (List.length fields)) as [Hlt|Hge].
      - rewrite (nth_map_within _ _ _ _ _ EmptyString _ Hlt).
        apply Number_noNumber. exact Hn.
      - apply nth_overflow. rewrite length_map. exact Hge. }
    destruct Hno as [Hshort|[Hhour|Hminute]].
    - right. apply nth_overflow. rewrite length_map. lia.
    - left. apply Hfield. exact Hhour.
    - right. apply Hfield. exact Hminute. }
  rewrite (setHours_NaN _ _ _ _ Hnan). reflexivity.
Qed.

(** The fields after the minute are not looked at. *)
Lemma split_timeOfDay_more (timeStr rest : string) (h m : Z) :
  timeOfDay timeStr = Some (h, m) ->
  map JS.Number (JS.split ":" (timeStr ++ ":" ++ rest))
  = JS.Num h :: JS.Num m :: map JS.Number (JS.split ":" rest).
Proof.
  unfold timeOfDay. intros He.
  destruct timeStr as [|h1 [|h0 [|c [|m1 [|m0 [|]]]]]]; try discriminate He;
    destruct c as [[] [] [] [] [] [] [] []]; try discriminate He.
  destruct (JS.digitValue h1) as [a|] eqn:H1; [|discriminate He].
  destruct (JS.digitValue h0) as [b|] eqn:H0; [|discriminate He].
  destruct (JS.digitValue m1) as [c|] eqn:M1; [|discriminate He].
  destruct (JS.digitValue m0) as [d|] eqn:M0; [|discriminate He].
  destruct (Z.ltb_spec (10 * a + b) 24) as [Hh|]; [|discriminate He].
  destruct (Z.ltb_spec (10 * c + d) 60) as [Hm|]; [|discriminate He].
  change (Some (10 * a + b, 10 * c + d) = Some (h, m)) in He.
  assert (Eh : h = 10 * a + b) by congruence.
  assert (Em : m = 10 * c + d) by congruence.
  clear He. subst h m.
  destruct (digitValue_facts _ _ H1) as [Ra Ca].
  destruct (digitValue_facts _ _ H0) as [Rb Cb].
  destruct (digitValue_facts _ _ M1) as [Rc Cc].
  destruct (digitValue_facts _ _ M0) as [Rd Cd].
  cbn [append JS.split]. rewrite Ca, Cb, Cc, Cd.
  cbn [Ascii.eqb Bool.eqb JS.split map].
  rewrite (Number_two_digits _ _ _ _ H1 H0), (Number_two_digits _ _ _ _ M1 M0).
  reflexivity.
Qed.

Lemma projectDose_more_fields (zone : JS.Zone) (now reading : Z)
  (med : Medication.t) (timeStr rest : string) (h m : Z) :
  timeOfDay timeStr = Some (h, m) ->
  Dashboard.projectDose zone now reading med (timeStr ++ ":" ++ rest)
  = Dashboard.projectDose zone now reading med timeStr.
Proof.
  intros Ht. unfold Dashboard.projectDose.
  rewrite (split_timeOfDay_more _ rest _ _ Ht).
  destruct (timeOfDay_fields _ _ _ Ht) as [-> _]. reflexivity.
Qed.

(** Rendering the card fails exactly on an invalid date. *)
Lemma upcomingDoseRows_None (text : Z -> string -> string)
  (doses : list UpcomingDose.t) :
  Dashboard.upcomingDoseRows text doses = None
  <-> exists dose, In dose doses /\ UpcomingDose.dueTime dose = JS.NaN.
Proof.
  induction doses as [|dose doses IH]; cbn [Dashboard.upcomingDoseRows].
  - split; [discriminate|]. intros [dose [[] _]].
  - unfold Dashboard.upcomingDoseRow, DateFns.format.
    destruct (UpcomingDose.dueTime dose) as [|t] eqn:Hdue.
    + split; [|reflexivity]. intros _. exists dose. split; [left; reflexivity|exact Hdue].
    + destruct (Dashboard.upcomingDoseRows text doses) as [rows|].
      * split; [discriminate|]. intros [x [[<-|Hx] Hnan]]; [congruence|].
        exfalso. destruct IH as [_ IH]. discriminate (IH (ex_intro _ x (conj Hx Hnan))).
      * split; [|reflexivity]. intros _.
        destruct IH as [IH _]. destruct (IH eq_refl) as [x [Hx Hnan]].
        exists x. split; [right; exact Hx|exact Hnan].
Qed.

(** C8 (the claim fails): a time string that is no "HH:MM" can pass for
    one.  With "08:00:30" the fetch ends without a notice, the page gets
    an ordinary dose due at 08:00, the third field dropped, and renders
    it: nothing fails and nothing tells of the malformed entry. *)
Lemma malformed_times_raise_no_failure :
  let fetched :=
    Dashboard.fetchData 0 Sample.t_2024_03_01_0700
      (fun _ => Sample.t_2024_03_01_0700) (Some Sample.patient)
      (Supabase.returned [Sample.withSeconds]) (Supabase.returned [])
      Sample.loading (Sample.world []) in
  timeOfDay "08:00:30" = None
  /\ snd fetched = Sample.world []
  /\ Dashboard.upcomingDoses (fst fetched)
     = [{| UpcomingDose.medication := Sample.withSeconds;
           UpcomingDose.dueTime := JS.Num Sample.t_2024_03_01_0800 |}]
  /\ Dashboard.upcomingDoseRows (fun _ formatStr => formatStr)
       (Dashboard.upcomingDoses (fst fetched))
     = Some [("Ibuprofen", "10mg", "h:mm a", "MMM d")]%string.
Proof. repeat split. Qed.

(** A time string without a number, as "8am", gives an invalid date.  The
    fetch reports nothing; rendering the card is what fails. *)
Example garbled_time_fails_at_render :
  let fetched :=
    Dashboard.fetchData 0 Sample.t_2024_03_01_0700
      (fun _ => Sample.t_2024_03_01_0700) (Some Sample.patient)
      (Supabase.returned [Sample.garbled]) (Supabase.returned [])
      Sample.loading (Sample.world []) in
  noHourOrMinute "8am"
  /\ snd fetched = Sample.world []
  /\ Dashboard.upcomingDoses (fst fetched)
     = [{| UpcomingDose.medication := Sample.garbled;
           UpcomingDose.dueTime := JS.NaN |}]
  /\ Dashboard.upcomingDoseRows (fun _ formatStr => formatStr)
       (Dashboard.upcomingDoses (fst fetched))
     = None.
Proof.
  split; [left; cbn; lia|]. repeat split.
Qed.

(** C8, amended: the projection has no failure path and checks no time
    string.  Whatever the time strings are, a fetch whose queries succeed
    raises no notice and shows three doses, or all if there are fewer,
    out of one projected dose for each time string of each medication
    that passes the filter.  A well-formed "HH:MM" followed by a colon
    and anything is projected as "HH:MM" is, to an ordinary dose: the
    malformed entry is masked.  A time string without a minute field, or
    whose hour field or minute field holds a code unit of no numeric
    literal, is projected to a dose with an invalid due time; the
    projection does not report it, and rendering the card of the upcoming
    doses fails exactly when it holds such a dose. *)
Theorem projection_keeps_malformed_times (zone : JS.Zone) (now : Z)
  (clock : nat -> Z) (meds : list Medication.t) :
  let expected :=
    flat_map (fun med => map (fun timeStr => (med, timeStr)) (Medication.times med))
             (filter (Dashboard.upcomingFilter now) meds) in
  let projected := Dashboard.projectedDoses zone now clock meds in
  (forall (u : User.t) (logs : list DoseLog.t) (st : Dashboard.State) (w : World),
      let fetched :=
        Dashboard.fetchData zone now clock (Some u) (Supabase.returned meds)
          (Supabase.returned logs) st w in
      snd fetched = w
      /\ List.length (Dashboard.upcomingDoses (fst fetched))
         = Nat.min 3 (List.length expected)
      /\ ((List.length expected <= 3)%nat ->
          Permutation
            (map UpcomingDose.medication (Dashboard.upcomingDoses (fst fetched)))
            (map fst expected)))
  /\ map UpcomingDose.medication projected = map fst expected
  /\ (forall k med timeStr rest h m,
         nth_error expected k = Some (med, (timeStr ++ ":" ++ rest)%string) ->
         timeOfDay timeStr = Some (h, m) ->
         nth_error projected k
         = Some (Dashboard.projectDose zone now (clock k) med timeStr)
         /\ (roomy now -> offsetsBelowADay zone ->
             sameLocalDay zone (clock k) now ->
             onTheClock zone (wallClock zone now 0 h m) ->
             nth_error projected k
             = Some {| UpcomingDose.medication := med;
                       UpcomingDose.dueTime := JS.Num (nextDue zone now h m) |}))
  /\ (forall k med timeStr,
         nth_error expected k = Some (med, timeStr) ->
         noHourOrMinute timeStr ->
         nth_error projected k
         = Some {| UpcomingDose.medication := med;
                   UpcomingDose.dueTime := JS.NaN |})
  /\ (forall (text : Z -> string -> string) (doses : list UpcomingDose.t),
         Dashboard.upcomingDoseRows text doses = None
         <-> exists dose, In dose doses /\ UpcomingDose.dueTime dose = JS.NaN).
Proof.
  intros expected projected.
  assert (Hmeds : map UpcomingDose.medication projected = map fst expected).
  { apply nth_error_ext. intros k. rewrite !nth_error_map.
    destruct (nth_error expected k) as [[med timeStr]|] eqn:Hk.
    - unfold projected. rewrite (projectedDoses_nth _ _ _ _ _ _ _ Hk). reflexivity.
    - assert (Hnone : nth_error projected k = None).
      { apply nth_error_None. unfold projected. rewrite projectedDoses_length.
        apply nth_error_None. exact Hk. }
      rewrite Hnone. reflexivity. }
  assert (Hlen : List.length projected = List.length expected).
  { rewrite <- (length_map UpcomingDose.medication), Hmeds. apply length_map. }
  split; [|split; [exact Hmeds|split; [|split]]].
  - intros u logs st w fetched.
    assert (Hshown : Dashboard.upcomingDoses (fst fetched)
                     = firstn 3 (JS.sort Dashboard.byDueTime projected))
      by reflexivity.
    split; [reflexivity|]. rewrite Hshown. split.
    + rewrite length_firstn.
      rewrite (Permutation_length (sort_Permutation _ Dashboard.byDueTime projected)).
      rewrite Hlen. reflexivity.
    + intros Hfew. rewrite firstn_all2.
      * rewrite <- Hmeds. apply Permutation_map. apply sort_Permutation.
      * rewrite (Permutation_length
                   (sort_Permutation _ Dashboard.byDueTime projected)).
        rewrite Hlen. exact Hfew.
  - intros k med timeStr rest h m Hk Ht.
    assert (Hdose : nth_error projected k
                    = Some (Dashboard.projectDose zone now (clock k) med timeStr)).
    { unfold projected. rewrite (projectedDoses_nth _ _ _ _ _ _ _ Hk). f_equal.
      apply (projectDose_more_fields _ _ _ _ _ _ _ _ Ht). }
    split; [exact Hdose|].
    intros Hnow Hzone Hday Hclock. rewrite Hdose. f_equal.
    apply projectDose_timeOfDay; assumption.
  - intros k med timeStr Hk Hno. unfold projected.
    rewrite (projectedDoses_nth _ _ _ _ _ _ _ Hk). f_equal.
    apply projectDose_noHourOrMinute. exact Hno.
  - apply upcomingDoseRows_None.
Qed.

(* ================================================================== *)
(** * The most missed medications *)
(* ================================================================== *)

(** The comparator of the ranking subtracts the negated counts. *)
Lemma byCountDescending_key (x y : MostMissed.t) :
  True -> True ->
  JS.SortCompare Dashboard.byCountDescending x y = missedKey x - missedKey y.
Proof. intros _ _. unfold JS.SortCompare, Dashboard.byCountDescending, missedKey. lia. Qed.

Lemma Forall_comparable_True (B : Type) (l : list B) : Forall (fun _ => True) l.
Proof. induction l; constructor; auto. Qed.

Lemma defineOrUpdate_values (V : Type) (P : V -> Prop) (key : string) (v : V)
  (o : JS.object V) :
  P v -> Forall (fun kv => P (snd kv)) o ->
  Forall (fun kv => P (snd kv)) (JS.defineOrUpdate key v o).
Proof.
  intros Hv Ho. induction Ho as [|[k w] o Hw Ho IH]; cbn.
  - constructor; [exact Hv|constructor].
  - destruct (String.eqb k key); constructor; auto.
Qed.

(** The dictionary of missed doses holds positive counts only. *)
Lemma missedByMed_positive (meds : list Medication.t) (logs : list DoseLog.t) :
  Forall (fun kv => 0 < snd kv) (Dashboard.missedByMed meds logs).
Proof.
  unfold Dashboard.missedByMed.
  assert (H : forall acc, Forall (fun kv : string * Z => 0 < snd kv) acc ->
    Forall (fun kv : string * Z => 0 < snd kv)
      (fold_left
         (fun acc med =>
            let missed := Dashboard.missedCount logs med in
            if 0 <? missed then JS.assign (Medication.name med) missed acc else acc)
         meds acc)).
  { induction meds as [|med meds IH]; intros acc Hacc; cbn; [exact Hacc|].
    apply IH. destruct (Z.ltb_spec 0 (Dashboard.missedCount logs med)) as [Hpos|];
      [|exact Hacc].
    unfold JS.assign. destruct (String.eqb _ _); [exact Hacc|].
    apply defineOrUpdate_values; assumption. }
  apply H. constructor.
Qed.

(** [Object.entries] lists every property once. *)
Lemma Object_entries_Permutation (V : Type) (o : JS.object V) :
  Permutation (JS.Object_entries o) o.
Proof.
  unfold JS.Object_entries.
  apply perm_trans with
    (filter (fun p => JS.isArrayIndex (fst p)) o
     ++ filter (fun p => negb (JS.isArrayIndex (fst p))) o).
  - apply Permutation_app_tail. apply sort_Permutation.
  - induction o as [|p o IH]; cbn; [apply perm_nil|].
    destruct (JS.isArrayIndex (fst p)); cbn.
    + apply perm_skip. exact IH.
    + apply Permutation_sym, Permutation_cons_app, Permutation_sym. exact IH.
Qed.

Lemma In_firstn (B : Type) (n : nat) (l : list B) (x : B) :
  In x (firstn n l) -> In x l.
Proof.
  intros H. rewrite <- (firstn_skipn n l). apply in_or_app. left; exact H.
Qed.

Lemma StronglySorted_firstn (B : Type) (R : B -> B -> Prop) (n : nat) (l : list B) :
  StronglySorted R l -> StronglySorted R (firstn n l).
Proof.
  intros Hs. revert n. induction Hs as [|x l Hs IH Hx]; intros [|n]; cbn;
    try constructor.
  - apply IH.
  - rewrite Forall_forall in *. intros y Hy. apply Hx.
    apply (In_firstn _ _ _ _ Hy).
Qed.

(** What the ranking of the Dashboard satisfies on every input: at most
    three entries, none with a count of zero, in descending order of
    count. *)
Lemma sortedMostMissed_shape (meds : list Medication.t) (logs : list DoseLog.t) :
  let ranking := Dashboard.sortedMostMissed meds logs in
  (List.length ranking <= 3)%nat
  /\ Forall (fun x => 0 < MostMissed.count x) ranking
  /\ StronglySorted (fun x y => MostMissed.count y <= MostMissed.count x) ranking.
Proof.
  unfold Dashboard.sortedMostMissed, JS.slice0.
  set (entries := map _ (JS.Object_entries _)).
  split; [|split].
  - rewrite length_firstn. lia.
  - apply Forall_forall. intros x Hx. apply In_firstn in Hx.
    apply (Permutation_in x (sort_Permutation _ _ _)) in Hx.
    unfold entries in Hx. apply in_map_iff in Hx. destruct Hx as [kv [<- Hkv]].
    apply (Permutation_in kv (Object_entries_Permutation _ _)) in Hkv.
    pose proof (missedByMed_positive meds logs) as Hpos.
    rewrite Forall_forall in Hpos. cbn. apply Hpos. exact Hkv.
  - apply StronglySorted_firstn.
    apply StronglySorted_weaken with (R := keyLe missedKey) (P := fun _ => True).
    + intros x y _ _. unfold keyLe, missedKey. lia.
    + apply Forall_comparable_True.
    + apply sort_sorted with (comparable := fun _ => True);
        [exact byCountDescending_key|apply Forall_comparable_True].
Qed.

(** A new key goes to the end of the dictionary. *)
Lemma defineOrUpdate_fresh (V : Type) (key : string) (v : V) (o : JS.object V) :
  ~ In key (map fst o) -> JS.defineOrUpdate key v o = o ++ [(key, v)].
Proof.
  induction o as [|[k w] o IH]; cbn; intros Hfresh; [reflexivity|].
  destruct (String.eqb_spec k key) as [->|Hne].
  - exfalso. apply Hfresh. left; reflexivity.
  - rewrite IH; [reflexivity|]. intros Hin. apply Hfresh. right; exact Hin.
Qed.

(** With distinct plain names the dictionary lists the medications with
    a missed dose in their order. *)
Lemma missedByMed_distinct_names (meds : list Medication.t) (logs : list DoseLog.t) :
  NoDup (map Medication.name meds) ->
  Forall (fun med => plainName (Medication.name med)) meds ->
  Dashboard.missedByMed meds logs
  = map (fun med => (Medication.name med, Dashboard.missedCount logs med))
        (filter (fun med => 0 <? Dashboard.missedCount logs med) meds).
Proof.
  intros Hnd Hplain. unfold Dashboard.missedByMed.
  assert (H : forall acc,
    (forall med, In med meds -> ~ In (Medication.name med) (map fst acc)) ->
    fold_left
      (fun acc med =>
         let missed := Dashboard.missedCount logs med in
         if 0 <? missed then JS.assign (Medication.name med) missed acc else acc)
      meds acc
    = acc ++ map (fun med => (Medication.name med, Dashboard.missedCount logs med))
                 (filter (fun med => 0 <? Dashboard.missedCount logs med) meds)).
  { induction meds as [|med meds IH]; intros acc Hacc; cbn.
    - rewrite app_nil_r. reflexivity.
    - inversion Hnd as [|n ns Hn Hns]; subst.
      inversion Hplain as [|m ms [_ Hproto] Hms]; subst.
      destruct (0 <? Dashboard.missedCount logs med).
      + unfold JS.assign.
        destruct (String.eqb_spec (Medication.name med) "__proto__");
          [contradiction|].
        rewrite defineOrUpdate_fresh by (apply Hacc; left; reflexivity).
        rewrite IH; [cbn; rewrite <- app_assoc; reflexivity|exact Hns|exact Hms|].
        intros med' Hin. rewrite map_app, in_app_iff. cbn.
        intros [Hold|[Heq|[]]].
        * apply (Hacc med'); [right; exact Hin|exact Hold].
        * apply Hn. rewrite Heq. apply in_map. exact Hin.
      + apply IH; [exact Hns|exact Hms|].
        intros med' Hin. apply Hacc. right; exact Hin. }
  apply (H []). intros med _ [].
Qed.

(** Without array-index keys [Object.entries] keeps the creation order. *)
Lemma Object_entries_plain (V : Type) (o : JS.object V) :
  Forall (fun kv => JS.isArrayIndex (fst kv) = false) o ->
  JS.Object_entries o = o.
Proof.
  intros H. unfold JS.Object_entries.
  assert (Hnone : filter (fun p : string * V => JS.isArrayIndex (fst p)) o = []).
  { induction H as [|kv o Hkv Ho IH]; [reflexivity|]. cbn. rewrite Hkv. exact IH. }
  assert (Hall : filter (fun p : string * V => negb (JS.isArrayIndex (fst p))) o = o).
  { induction H as [|kv o Hkv Ho IH]; [reflexivity|].
    cbn. rewrite Hkv. cbn. f_equal. apply IH.
    cbn in Hnone. rewrite Hkv in Hnone. exact Hnone. }
  rewrite Hnone, Hall. reflexivity.
Qed.

(** With medications of pairwise distinct, plain names the ranking of the
    Dashboard is the one the claim describes: each medication with a
    missed dose under its own count, sorted by descending count,
    medications of one count in the order of the list, the first three. *)
Lemma sortedMostMissed_distinct_names (meds : list Medication.t)
  (logs : list DoseLog.t) :
  NoDup (map Medication.name meds) ->
  Forall (fun med => plainName (Medication.name med)) meds ->
  exists sorted,
    Dashboard.sortedMostMissed meds logs = firstn 3 sorted
    /\ Permutation sorted (missedEntries meds logs)
    /\ StronglySorted (keyLe missedKey) sorted
    /\ forall k, filter (hasKey missedKey k) sorted
                 = filter (hasKey missedKey k) (missedEntries meds logs).
Proof.
  intros Hnd Hplain.
  assert (Hentries :
    map (fun kv => {| MostMissed.medication := fst kv; MostMissed.count := snd kv |})
        (JS.Object_entries (Dashboard.missedByMed meds logs))
    = missedEntries meds logs).
  { rewrite (missedByMed_distinct_names meds logs Hnd Hplain).
    rewrite Object_entries_plain.
    - unfold missedEntries. rewrite map_map. reflexivity.
    - apply Forall_forall. intros kv Hkv. apply in_map_iff in Hkv.
      destruct Hkv as [med [<- Hmed]]. apply filter_In in Hmed.
      rewrite Forall_forall in Hplain. apply (Hplain med). apply Hmed. }
  exists (JS.sort Dashboard.byCountDescending (missedEntries meds logs)).
  unfold Dashboard.sortedMostMissed. rewrite Hentries.
  split; [reflexivity|]. split; [apply sort_Permutation|]. split.
  - apply sort_sorted with (comparable := fun _ => True);
      [exact byCountDescending_key|apply Forall_comparable_True].
  - intros k. apply sort_stable with (comparable := fun _ => True);
      [exact byCountDescending_key|apply Forall_comparable_True].
Qed.

(** C3 (the code departs from the claim): two medications under one name,
    the first with two missed doses and the second with one.  The
    Dashboard ranks a single entry that carries the count of the second;
    the count of the first is lost.  The Analytics page, whose
    dictionary is keyed by id, ranks both. *)
Theorem sortedMostMissed_merges_same_name :
  Dashboard.missedCount Sample.missedLogs Sample.morning = 2
  /\ Dashboard.missedCount Sample.missedLogs Sample.evening = 1
  /\ Dashboard.sortedMostMissed [Sample.morning; Sample.evening] Sample.missedLogs
     = [{| MostMissed.medication := "Metformin"; MostMissed.count := 1 |}]
  /\ Analytics.calculateMostMissed [Sample.morning; Sample.evening]
       Sample.missedLogs
     = [{| MostMissed.medication := "Metformin"; MostMissed.count := 2 |};
        {| MostMissed.medication := "Metformin"; MostMissed.count := 1 |}].
Proof. repeat split. Qed.

(** A name that is an array index jumps the queue: of two medications
    with one missed dose each, the one named "7" is ranked before the
    one listed before it. *)
Example sortedMostMissed_index_name_first :
  map MostMissed.medication
    (Dashboard.sortedMostMissed
       [Sample.medication "m3" "Metformin" [] Sample.t_2024_01_01 None;
        Sample.medication "m4" "7" [] Sample.t_2024_01_01 None]
       [Sample.log "l1" "m3" Sample.t_2024_03_01_0805 false;
        Sample.log "l3" "m4" Sample.t_2024_03_01_2100 false])
  = ["7"; "Metformin"]%string.
Proof. reflexivity. Qed.

(* ================================================================== *)
(** * Rounding to binary64 *)
(* ================================================================== *)

(** [roundHalfEven n d] is within one half of [n/d]. *)
Lemma roundHalfEven_near (n d : Z) :
  0 < d -> - d <= 2 * (JS.roundHalfEven n d * d - n) <= d.
Proof.
  intros Hd. unfold JS.roundHalfEven.
  pose proof (Z.div_mod n d) as Hdm.
  pose proof (Z.mod_pos_bound n d Hd) as Hb.
  assert (Hn : n = d * (n / d) + n mod d) by (apply Hdm; lia).
  set (q := n / d) in *. set (r := n mod d) in *.
  destruct (Z.ltb_spec (2 * r) d); [nia|].
  destruct (Z.ltb_spec d (2 * r)); [nia|].
  destruct (Z.even q); nia.
Qed.

(** The binade of [n/d] starts at or below [n/d]. *)
Lemma atLeastPow2_binade (n d : Z) :
  0 < n -> 0 < d -> JS.atLeastPow2 n d (JS.binade n d) = true.
Proof.
  intros Hn Hd. unfold JS.binade.
  destruct (JS.atLeastPow2 n d (Z.log2 n - Z.log2 d)) eqn:He0; [exact He0|].
  clear He0.
  pose proof (Z.log2_spec n Hn) as [Hnl _].
  pose proof (Z.log2_spec d Hd) as [_ Hdu].
  pose proof (Z.log2_nonneg n) as Hln. pose proof (Z.log2_nonneg d) as Hld.
  set (a := Z.log2 n) in *. set (b := Z.log2 d) in *.
  unfold JS.atLeastPow2.
  destruct (Z.leb_spec 0 (a - b - 1)) as [Hpos|Hneg]; apply Z.leb_le.
  - (* d * 2^(a-b-1) < 2^(b+1) * 2^(a-b-1) = 2^a <= n *)
    assert (Hp : 2 ^ Z.succ b * 2 ^ (a - b - 1) = 2 ^ a).
    { rewrite <- Z.pow_add_r by lia. f_equal. lia. }
    assert (0 < 2 ^ (a - b - 1)) by (apply Z.pow_pos_nonneg; lia).
    nia.
  - (* d < 2^(b+1) = 2^a * 2^(b+1-a) <= n * 2^(b+1-a) *)
    assert (Hp : 2 ^ a * 2 ^ (- (a - b - 1)) = 2 ^ Z.succ b).
    { rewrite <- Z.pow_add_r by lia. f_equal. lia. }
    assert (0 < 2 ^ (- (a - b - 1))) by (apply Z.pow_pos_nonneg; lia).
    nia.
Qed.

(** The double nearest to a positive rational is within a relative
    distance of 2^-53 of it. *)
Lemma round64_pos_close (n d : positive) :
  let q := Qmake (Zpos n) d in
  let r := JS.round64_pos (Zpos n) (Zpos d) in
  (q * (1 - (1 # 9007199254740992)) <= r
   /\ r <= q * (1 + (1 # 9007199254740992)))%Q.
Proof.
  intros q r. unfold r, JS.round64_pos.
  pose proof (atLeastPow2_binade (Zpos n) (Zpos d) eq_refl eq_refl) as Hbin.
  unfold JS.atLeastPow2 in Hbin.
  set (e := JS.binade (Zpos n) (Zpos d)) in *.
  destruct (Z.leb_spec 0 (52 - e)) as [Hs|Hs].
  - (* the mantissa is scaled up *)
    set (P := 2 ^ (52 - e)).
    assert (HP : 0 < P) by (apply Z.pow_pos_nonneg; lia).
    pose proof (roundHalfEven_near (Zpos n * P) (Zpos d) eq_refl) as Hm.
    set (m := JS.roundHalfEven (Zpos n * P) (Zpos d)) in *.
    assert (Hlow : 2 ^ 52 * Zpos d <= Zpos n * P).
    { unfold P. destruct (Z.leb_spec 0 e) as [He|He]; apply Z.leb_le in Hbin.
      - replace (2 ^ 52) with (2 ^ e * 2 ^ (52 - e))
          by (rewrite <- Z.pow_add_r by lia; f_equal; lia).
        assert (0 < 2 ^ (52 - e)) by (apply Z.pow_pos_nonneg; lia). nia.
      - replace (2 ^ (52 - e)) with (2 ^ (- e) * 2 ^ 52)
          by (rewrite <- Z.pow_add_r by lia; f_equal; lia).
        nia. }
    change (2 ^ 52) with 4503599627370496 in Hlow.
    unfold q, Qle, Qmult, Qminus, Qplus, Qopp. cbn [Qnum Qden].
    rewrite !Pos2Z.inj_mul, !Z2Pos.id by exact HP.
    split; nia.
  - (* the mantissa is scaled down *)
    set (P := 2 ^ (- (52 - e))).
    assert (HP : 0 < P) by (apply Z.pow_pos_nonneg; lia).
    assert (HD : 0 < Zpos d * P) by lia.
    pose proof (roundHalfEven_near (Zpos n) (Zpos d * P) HD) as Hm.
    set (m := JS.roundHalfEven (Zpos n) (Zpos d * P)) in *.
    assert (Hlow : 2 ^ 52 * (Zpos d * P) <= Zpos n).
    { unfold P. destruct (Z.leb_spec 0 e) as [He|He]; [|lia].
      apply Z.leb_le in Hbin.
      replace (2 ^ e) with (2 ^ 52 * 2 ^ (- (52 - e))) in Hbin
        by (rewrite <- Z.pow_add_r by lia; f_equal; lia).
      lia. }
    change (2 ^ 52) with 4503599627370496 in Hlow.
    unfold q, Qle, Qmult, Qminus, Qplus, Qopp, inject_Z. cbn [Qnum Qden].
    rewrite !Pos2Z.inj_mul.
    split; nia.
Qed.

(** The same for any rational that is not negative. *)
Lemma round64_close (q : Q) :
  (0 <= q)%Q ->
  (q * (1 - (1 # 9007199254740992)) <= JS.round64 q
   /\ JS.round64 q <= q * (1 + (1 # 9007199254740992)))%Q.
Proof.
  intros Hq. destruct q as [[|n|n] d]; unfold JS.round64; cbn [Qnum Qden].
  - unfold Qle; cbn; lia.
  - apply round64_pos_close.
  - exfalso. unfold Qle in Hq. cbn in Hq. lia.
Qed.

(* ================================================================== *)
(** * The adherence percentage *)
(* ================================================================== *)

(** Inequalities between rationals built from integers, as inequalities
    between integers. *)
Ltac Q_to_Z :=
  unfold Qle, Qlt, Qmult, Qminus, Qplus, Qopp, inject_Z;
  cbn [Qnum Qden Pos.mul].

(** [Math.round((k / n) * 100)] is an integer nearest to [100 k / n], for
    array lengths [k <= n]. *)
Lemma percentage_nearest (k n : Z) :
  0 <= k <= n -> 0 < n < 2 ^ 32 ->
  let shown :=
    JS.Math_round (JS.multiply (JS.divide (inject_Z k) (inject_Z n)) 100) in
  - n <= 2 * n * shown - 200 * k <= n.
Proof.
  intros Hk Hn shown.
  change (2 ^ 32) with 4294967296 in Hn.
  set (K := inject_Z k). set (N := inject_Z n).
  assert (HN : (1 <= N)%Q) by (unfold N, Qle; cbn; lia).
  assert (HN' : (N <= 4294967296)%Q) by (unfold N, Qle; cbn; lia).
  assert (HK : (0 <= K)%Q) by (unfold K, Qle; cbn; lia).
  assert (HKN : (K <= N)%Q) by (unfold K, N, Qle; cbn; lia).
  set (v := (K / N)%Q).
  assert (Hv : (v * N == K)%Q) by (unfold v; field; lra).
  assert (Hv0 : (0 <= v)%Q).
  { unfold v. apply Qle_shift_div_l; lra. }
  assert (Hv1 : (v <= 1)%Q).
  { unfold v. apply Qle_shift_div_r; lra. }
  pose proof (round64_close v Hv0) as [Hx1l Hx1u].
  change (JS.round64 v) with (JS.divide K N) in Hx1l, Hx1u.
  set (x1 := JS.divide K N) in *.
  assert (Hx1 : (0 <= x1 * 100)%Q) by lra.
  pose proof (round64_close (x1 * 100)%Q Hx1) as [Hx2l Hx2u].
  change (JS.round64 (x1 * 100)) with (JS.multiply x1 100) in Hx2l, Hx2u.
  set (x2 := JS.multiply x1 100) in *.
  change shown with (Qfloor (x2 + (1 # 2))). clear shown.
  pose proof (Qfloor_le (x2 + (1 # 2))%Q) as Hfl.
  pose proof (Qlt_floor (x2 + (1 # 2))%Q) as Hfu.
  set (shown := Qfloor (x2 + (1 # 2))) in *.
  rewrite inject_Z_plus in Hfu. change (inject_Z 1) with 1%Q in Hfu.
  set (R := inject_Z shown) in *.
  (* the shown value is within 1/2 + 10^-13 of 100 v *)
  assert (Hup : (2 * R - 200 * v - 1 <= 1 # 10000000000000)%Q) by lra.
  assert (Hdown : (200 * v - 2 * R - 1 <= 1 # 10000000000000)%Q) by lra.
  assert (Hgoal : (- N <= 2 * N * R - 200 * K /\ 2 * N * R - 200 * K <= N)%Q
                  -> - n <= 2 * n * shown - 200 * k <= n).
  { unfold N, R, K; Q_to_Z; lia. }
  apply Hgoal. clear Hgoal.
  destruct (Z_le_gt_dec (2 * n * shown - 200 * k) n) as [Hle|Hgt];
    [destruct (Z_le_gt_dec (- n) (2 * n * shown - 200 * k)) as [Hge|Hlt]|].
  - unfold N, R, K; Q_to_Z; lia.
  - exfalso.
    assert (Hint : (200 * K - 2 * N * R >= N + 1)%Q)
      by (unfold N, R, K; Q_to_Z; lia).
    assert (Hprod : (N * (200 * v - 2 * R - 1) <= N * (1 # 10000000000000))%Q)
      by (apply Qmult_le_l; lra).
    setoid_replace (N * (200 * v - 2 * R - 1))%Q
      with (200 * (v * N) - 2 * N * R - N)%Q in Hprod by ring.
    rewrite Hv in Hprod. lra.
  - exfalso.
    assert (Hint : (2 * N * R - 200 * K >= N + 1)%Q)
      by (unfold N, R, K; Q_to_Z; lia).
    assert (Hprod : (N * (2 * R - 200 * v - 1) <= N * (1 # 10000000000000))%Q)
      by (apply Qmult_le_l; lra).
    setoid_replace (N * (2 * R - 200 * v - 1))%Q
      with (2 * N * R - 200 * (v * N) - N)%Q in Hprod by ring.
    rewrite Hv in Hprod. lra.
Qed.

Lemma filter_all (B : Type) (f : B -> bool) (l : list B) :
  (forall x, In x l -> f x = true) -> filter f l = l.
Proof.
  induction l as [|x l IH]; intros H; [reflexivity|].
  cbn. rewrite (H x (or_introl eq_refl)). f_equal. apply IH.
  intros y Hy. apply H. right; exact Hy.
Qed.

Lemma filter_none (B : Type) (f : B -> bool) (l : list B) :
  (forall x, In x l -> f x = false) -> filter f l = [].
Proof.
  induction l as [|x l IH]; intros H; [reflexivity|].
  cbn. rewrite (H x (or_introl eq_refl)). apply IH.
  intros y Hy. apply H. right; exact Hy.
Qed.

(** C2: for a collection of logs (an array, so of fewer than 2^32
    elements) the percentage the Dashboard shows is 0 when there is no
    log, and otherwise an integer nearest to 100 times the number of
    on-time logs over the number of logs; it lies between 0 and 100, is
    100 when there are logs and all are on time, and 0 when none is. *)
Theorem shownAdherence_is_rounded_percentage (logs : list DoseLog.t) :
  Z.of_nat (List.length logs) < 2 ^ 32 ->
  let total := Z.of_nat (List.length logs) in
  let onTime := Z.of_nat (List.length (filter DoseLog.isOnTime logs)) in
  let shown := Dashboard.shownAdherence logs in
  (logs = [] -> shown = 0)
  /\ - total <= 2 * total * shown - 200 * onTime <= total
  /\ 0 <= shown <= 100
  /\ (logs <> [] -> (forall log, In log logs -> DoseLog.isOnTime log = true) ->
      shown = 100)
  /\ ((forall log, In log logs -> DoseLog.isOnTime log = false) -> shown = 0).
Proof.
  intros Hlen total onTime shown.
  destruct logs as [|log logs].
  - assert (Hshown : shown = 0) by reflexivity.
    rewrite Hshown. cbn. repeat split; try lia. intros H _. contradiction.
  - assert (Hk : 0 <= onTime <= total).
    { unfold onTime, total. pose proof (filter_length_le DoseLog.isOnTime (log :: logs)).
      lia. }
    assert (Hn : 0 < total < 2 ^ 32) by (unfold total in *; cbn in *; lia).
    pose proof (percentage_nearest onTime total Hk Hn) as Hnear.
    cbv zeta in Hnear.
    assert (Hshown :
      shown = JS.Math_round
                (JS.multiply (JS.divide (inject_Z onTime) (inject_Z total)) 100))
      by reflexivity.
    rewrite <- Hshown in Hnear.
    split; [discriminate|]. split; [exact Hnear|]. split; [nia|]. split.
    + intros _ Hall.
      assert (Heq : onTime = total).
      { unfold onTime, total. rewrite (filter_all _ _ _ Hall). reflexivity. }
      nia.
    + intros Hnone.
      assert (Heq : onTime = 0).
      { unfold onTime. rewrite (filter_none _ _ _ Hnone). reflexivity. }
      nia.
Qed.

Lemma shownAdherence_is_rounded_percentage_witness :
  Dashboard.shownAdherence Sample.scenarioLogs = 50.
Proof.
  assert (Hlen : Z.of_nat (List.length Sample.scenarioLogs) < 2 ^ 32)
    by (vm_compute; reflexivity).
  pose proof (shownAdherence_is_rounded_percentage Sample.scenarioLogs Hlen)
    as [_ [Hnear _]].
  cbn [Sample.scenarioLogs List.length filter DoseLog.isOnTime Sample.log Z.of_nat
       Pos.of_succ_nat Pos.succ] in Hnear.
  lia.
Defined.

(** The percentage of 23 on-time logs out of 40 is shown as 57: the
    product [(23 / 40) * 100] is the double just below 57.5. *)
Example shownAdherence_tie :
  Dashboard.shownAdherence Sample.fortyLogs = 57.
Proof. vm_compute. reflexivity. Qed.

(** For up to forty logs the model of the product agrees with the
    binary64 arithmetic of the Standard Library. *)
Example percentages_agree_with_binary64 :
  forallb percentagesAgree (seq 1 40) = true.
Proof. vm_compute. reflexivity. Qed.

(** The Analytics page computes the same percentage. *)
Lemma calculateOverallAdherence_shown (logs : list DoseLog.t) :
  Analytics.calculateOverallAdherence logs = Dashboard.shownAdherence logs.
Proof. destruct logs; reflexivity. Qed.

(* ================================================================== *)
(** * The Calendar page: repeated and refused doses *)
(* ================================================================== *)

(** A log of the page recorded on the selected day marks its medication
    as taken. *)
Lemma isMedicationTaken_of_log (tza : Z) (st : Calendar.State) (log : DoseLog.t) :
  ordinary (Calendar.date st) -> ordinary (DoseLog.timestamp log) ->
  In log (Calendar.logs st) ->
  sameLocalDay tza (DoseLog.timestamp log) (Calendar.date st) ->
  Calendar.isMedicationTaken tza st (DoseLog.medicationId log) = true.
Proof.
  intros Hdate Hts Hin Hday. unfold Calendar.isMedicationTaken, Calendar.getLogsForDate.
  apply existsb_exists. exists log. split.
  - apply filter_In. split; [exact Hin|]. apply isSameDay_iff; assumption.
  - apply String.eqb_refl.
Qed.

(** X1: once the Calendar page has stored a dose taken on the selected
    day, a second press for the same medication, at any later time and
    whatever the store would answer, only shows the notice: no request
    is sent and the store gains nothing. *)
Theorem calendar_second_press_refused (tza now : Z) (generated : string)
  (medicationId : string) (st : Calendar.State) (w : World) (u : User.t) :
  Calendar.user st = Some u ->
  ordinary (Calendar.date st) -> ordinary now ->
  sameLocalDay tza now (Calendar.date st) ->
  let first := Calendar.handleLogDose tza now (Supabase.accept generated)
                 medicationId st w in
  forall (now' : Z) (v' : Supabase.verdict),
    let second := Calendar.handleLogDose tza now' v' medicationId
                    (fst first) (snd first) in
    fst second = fst first
    /\ requests (snd second) = requests (snd first)
    /\ db (snd second) = db (snd first)
    /\ toasts (snd second)
       = toasts (snd first)
         ++ [toast_info "You've already logged this medication today"]
    /\ (List.length (Supabase.dose_logs (db (snd second)))
        <= S (List.length (Supabase.dose_logs (db w))))%nat.
Proof.
  intros Hu Hdate Hnow Hday first now' v' second.
  assert (Huser : Calendar.user (fst first) = Some u).
  { unfold first, Calendar.handleLogDose. rewrite Hu.
    destruct (Calendar.isMedicationTaken tza st medicationId); cbn; exact Hu. }
  assert (Htaken : Calendar.isMedicationTaken tza (fst first) medicationId = true).
  { unfold first, Calendar.handleLogDose. rewrite Hu.
    destruct (Calendar.isMedicationTaken tza st medicationId) eqn:Hbefore;
      cbn; [exact Hbefore|].
    set (new := formatLog _).
    apply (isMedicationTaken_of_log tza (Calendar.setLogs (Calendar.logs st ++ [new]) st) new).
    - exact Hdate.
    - exact Hnow.
    - cbn. apply in_or_app. right. left. reflexivity.
    - exact Hday. }
  assert (Hgrow : (List.length (Supabase.dose_logs (db (snd first)))
                   <= S (List.length (Supabase.dose_logs (db w))))%nat).
  { unfold first, Calendar.handleLogDose. rewrite Hu.
    destruct (Calendar.isMedicationTaken tza st medicationId); cbn;
      [lia|rewrite length_app; cbn; lia]. }
  unfold second, Calendar.handleLogDose. rewrite Huser, Htaken. cbn.
  repeat split. exact Hgrow.
Qed.

Lemma calendar_second_press_refused_witness :
  let st := {| Calendar.user := Some Sample.patient;
               Calendar.date := Sample.t_2024_03_01_0900;
               Calendar.medications := [Sample.m1];
               Calendar.logs := [] |} in
  let first := Calendar.handleLogDose 0 Sample.t_2024_03_01_0805
                 (Supabase.accept "l1") "m1" st (Sample.world []) in
  requests (snd (Calendar.handleLogDose 0 Sample.t_2024_03_01_2100
                   (Supabase.accept "l2") "m1" (fst first) (snd first)))
  = requests (snd first).
Proof.
  intros st first.
  refine (proj1 (proj2 (calendar_second_press_refused 0 Sample.t_2024_03_01_0805
                          "l1" "m1" st (Sample.world []) Sample.patient
                          eq_refl _ _ _ Sample.t_2024_03_01_2100
                          (Supabase.accept "l2")))).
  - vm_compute. split; discriminate.
  - vm_compute. split; discriminate.
  - reflexivity.
Defined.

(** X2: when the store refuses the insert, the Calendar page shows the
    store's message (or its own when the message is empty), keeps its
    logs and leaves the table alone, so that the medication still counts
    as not taken and a later press that the store accepts adds exactly
    one row. *)
Theorem calendar_refused_insert_can_be_retried (tza now now' : Z)
  (message generated medicationId : string) (st : Calendar.State) (w : World)
  (u : User.t) :
  Calendar.user st = Some u ->
  Calendar.isMedicationTaken tza st medicationId = false ->
  let failed := Calendar.handleLogDose tza now (Supabase.refuse message)
                  medicationId st w in
  let retried := Calendar.handleLogDose tza now' (Supabase.accept generated)
                   medicationId (fst failed) (snd failed) in
  fst failed = st
  /\ db (snd failed) = db w
  /\ toasts (snd failed)
     = toasts w ++ [toast_error (message_or message "Failed to log dose")]
  /\ Supabase.dose_logs (db (snd retried))
     = Supabase.dose_logs (db w)
       ++ [{| Supabase.id := generated;
              Supabase.row :=
                {| Supabase.medication_id := medicationId;
                   Supabase.timestamp := now';
                   Supabase.is_on_time := true;
                   Supabase.user_id := User.id u |} |}]
  /\ Calendar.logs (fst retried)
     = Calendar.logs st
       ++ [{| DoseLog.id := generated; DoseLog.medicationId := medicationId;
              DoseLog.timestamp := now'; DoseLog.isOnTime := true;
              DoseLog.userId := User.id u |}].
Proof.
  intros Hu Hfree failed retried.
  assert (Hfailed : failed
                    = (st, toast (toast_error (message_or message "Failed to log dose"))
                                 (console_error "Error logging dose:"
                                    (fst (insert_dose_log (Supabase.refuse message)
                                            {| Supabase.medication_id := medicationId;
                                               Supabase.timestamp := now;
                                               Supabase.is_on_time := true;
                                               Supabase.user_id := User.id u |} w))))).
  { unfold failed, Calendar.handleLogDose. rewrite Hu, Hfree. reflexivity. }
  unfold retried. rewrite Hfailed. cbn [fst snd].
  unfold Calendar.handleLogDose. rewrite Hu, Hfree. cbn.
  repeat split.
Qed.

Lemma calendar_refused_insert_can_be_retried_witness :
  let st := {| Calendar.user := Some Sample.patient;
               Calendar.date := Sample.t_2024_03_01_0900;
               Calendar.medications := [Sample.m1];
               Calendar.logs := [] |} in
  fst (Calendar.handleLogDose 0 Sample.t_2024_03_01_0805
         (Supabase.refuse "offline") "m1" st (Sample.world [])) = st.
Proof.
  intros st.
  exact (proj1 (calendar_refused_insert_can_be_retried 0 Sample.t_2024_03_01_0805
                  Sample.t_2024_03_01_2100 "offline" "l1" "m1" st (Sample.world [])
                  Sample.patient eq_refl eq_refl)).
Defined.

(** X3: the calendar marks a day exactly when a log of the page was
    recorded on that local day; so the selected day is marked whenever
    one of its medications counts as taken. *)
Theorem getDayHasMedication_iff (tza : Z) (st : Calendar.State) (day : Z) :
  ordinary day ->
  Forall (fun log => ordinary (DoseLog.timestamp log)) (Calendar.logs st) ->
  (Calendar.getDayHasMedication tza st day = true
   <-> exists log, In log (Calendar.logs st)
                   /\ sameLocalDay tza (DoseLog.timestamp log) day)
  /\ (forall medicationId,
         day = Calendar.date st ->
         Calendar.isMedicationTaken tza st medicationId = true ->
         Calendar.getDayHasMedication tza st day = true).
Proof.
  intros Hday Hlogs. rewrite Forall_forall in Hlogs.
  assert (Hiff : Calendar.getDayHasMedication tza st day = true
                 <-> exists log, In log (Calendar.logs st)
                                 /\ sameLocalDay tza (DoseLog.timestamp log) day).
  { unfold Calendar.getDayHasMedication. rewrite Nat.ltb_lt. split.
    - intros Hlen.
      destruct (filter _ (Calendar.logs st)) as [|log rest] eqn:Hf;
        [cbn in Hlen; lia|].
      assert (Hin : In log (filter
                (fun log => DateFns.isSameDay tza (JS.Num (DoseLog.timestamp log))
                              (JS.Num day)) (Calendar.logs st)))
        by (rewrite Hf; left; reflexivity).
      apply filter_In in Hin. destruct Hin as [Hin Hsame].
      exists log. split; [exact Hin|].
      apply isSameDay_iff; [apply Hlogs; exact Hin|exact Hday|exact Hsame].
    - intros [log [Hin Hsame]].
      assert (Hf : In log (filter
                (fun log => DateFns.isSameDay tza (JS.Num (DoseLog.timestamp log))
                              (JS.Num day)) (Calendar.logs st))).
      { apply filter_In. split; [exact Hin|].
        apply isSameDay_iff; [apply Hlogs; exact Hin|exact Hday|exact Hsame]. }
      destruct (filter _ (Calendar.logs st)); [destruct Hf|cbn; lia]. }
  split; [exact Hiff|].
  intros medicationId -> Htaken. apply Hiff.
  unfold Calendar.isMedicationTaken, Calendar.getLogsForDate in Htaken.
  apply existsb_exists in Htaken. destruct Htaken as [log [Hin _]].
  apply filter_In in Hin. destruct Hin as [Hin Hsame].
  exists log. split; [exact Hin|].
  apply isSameDay_iff; [apply Hlogs; exact Hin|exact Hday|exact Hsame].
Qed.

Lemma getDayHasMedication_iff_witness :
  let st := {| Calendar.user := Some Sample.patient;
               Calendar.date := Sample.t_2024_03_01_0900;
               Calendar.medications := [Sample.m1];
               Calendar.logs := Sample.scenarioLogs |} in
  Calendar.getDayHasMedication 0 st Sample.t_2024_03_02_0000 = true
  <-> exists log, In log (Calendar.logs st)
                  /\ sameLocalDay 0 (DoseLog.timestamp log) Sample.t_2024_03_02_0000.
Proof.
  intros st.
  refine (proj1 (getDayHasMedication_iff 0 st Sample.t_2024_03_02_0000 _ _)).
  - vm_compute. split; discriminate.
  - repeat (constructor; [vm_compute; split; discriminate|]). constructor.
Defined.

(** X4: if the logs of the Calendar page are the page's view of the dose
    log table, they still are after [handleLogDose], whether the dose
    was refused by the page, refused by the store or stored. *)
Theorem calendar_logs_mirror_store (tza now : Z) (v : Supabase.verdict)
  (medicationId : string) (st : Calendar.State) (w : World) :
  mirrors (Calendar.logs st) w ->
  let after := Calendar.handleLogDose tza now v medicationId st w in
  mirrors (Calendar.logs (fst after)) (snd after).
Proof.
  unfold mirrors. intros Hm. unfold Calendar.handleLogDose.
  destruct (Calendar.user st) as [u|]; [|exact Hm].
  destruct (Calendar.isMedicationTaken tza st medicationId); [exact Hm|].
  destruct v as [generated|message]; cbn.
  - rewrite map_app, <- Hm. reflexivity.
  - exact Hm.
Qed.

Lemma calendar_logs_mirror_store_witness :
  let st := {| Calendar.user := Some Sample.patient;
               Calendar.date := Sample.t_2024_03_01_0900;
               Calendar.medications := [Sample.m1];
               Calendar.logs := [] |} in
  let after := Calendar.handleLogDose 0 Sample.t_2024_03_01_0805
                 (Supabase.accept "l1") "m1" st (Sample.world []) in
  mirrors (Calendar.logs (fst after)) (snd after).
Proof.
  intros st.
  exact (calendar_logs_mirror_store 0 Sample.t_2024_03_01_0805
           (Supabase.accept "l1") "m1" st (Sample.world []) eq_refl).
Defined.

(* ================================================================== *)
(** * The Dose Logging page: names and repeated presses *)
(* ================================================================== *)

(** X5: among medications with distinct ids, [getMedicationName] gives a
    medication's own name for its id, and "Unknown Medication" for an id
    no medication has. *)
Theorem getMedicationName_lookup (medications : list Medication.t) :
  NoDup (map Medication.id medications) ->
  (forall med, In med medications ->
               DoseLogging.getMedicationName medications (Medication.id med)
               = Medication.name med)
  /\ (forall id, ~ In id (map Medication.id medications) ->
                 DoseLogging.getMedicationName medications id
                 = "Unknown Medication"%string).
Proof.
  intros Hnd. unfold DoseLogging.getMedicationName. split.
  - induction medications as [|m ms IH]; intros med Hin; [destruct Hin|].
    inversion Hnd as [|i ids Hfresh Hrest]; subst. cbn.
    destruct (String.eqb_spec (Medication.id m) (Medication.id med)) as [Heq|Hne].
    + destruct Hin as [->|Hin]; [reflexivity|].
      exfalso. apply Hfresh. rewrite Heq. apply in_map. exact Hin.
    + destruct Hin as [->|Hin]; [contradiction|]. apply IH; assumption.
  - intros id Hout.
    induction medications as [|m ms IH]; [reflexivity|].
    inversion Hnd as [|i ids Hfresh Hrest]; subst. cbn.
    destruct (String.eqb_spec (Medication.id m) id) as [Heq|Hne].
    + exfalso. apply Hout. left. exact Heq.
    + apply IH; [exact Hrest|]. intros Hin. apply Hout. right. exact Hin.
Qed.

Lemma getMedicationName_lookup_witness :
  DoseLogging.getMedicationName [Sample.m1; Sample.course] "m2" = "Amoxicillin"%string.
Proof.
  refine (proj1 (getMedicationName_lookup [Sample.m1; Sample.course] _)
                Sample.course _).
  - repeat constructor; cbn; intuition discriminate.
  - right. left. reflexivity.
Defined.

(** X6: a dose stored from the Dose Logging page is put first in the
    recent logs, with the selected medication, the instant of the press
    and the flag set, and the selection is cleared; pressing again
    without selecting sends nothing and asks for a medication. *)
Theorem doseLogging_success_clears_selection (now : Z) (generated : string)
  (st : DoseLogging.State) (w : World) (u : User.t) :
  DoseLogging.user st = Some u ->
  DoseLogging.selectedMedicationId st <> EmptyString ->
  let first := DoseLogging.handleLogDose now (Supabase.accept generated) st w in
  DoseLogging.recentLogs (fst first)
  = {| DoseLog.id := generated;
       DoseLog.medicationId := DoseLogging.selectedMedicationId st;
       DoseLog.timestamp := now; DoseLog.isOnTime := true;
       DoseLog.userId := User.id u |} :: DoseLogging.recentLogs st
  /\ DoseLogging.selectedMedicationId (fst first) = EmptyString
  /\ forall (now' : Z) (v' : Supabase.verdict),
       DoseLogging.handleLogDose now' v' (fst first) (snd first)
       = (fst first, toast (toast_error "Please select a medication") (snd first)).
Proof.
  intros Hu Hsel first. unfold first, DoseLogging.handleLogDose. rewrite Hu.
  destruct (DoseLogging.selectedMedicationId st) as [|c s] eqn:Hs;
    [contradiction|].
  cbn. repeat split.
Qed.

Lemma doseLogging_success_clears_selection_witness :
  let st := {| DoseLogging.user := Some Sample.patient;
               DoseLogging.selectedMedicationId := "m1";
               DoseLogging.recentLogs := [] |} in
  DoseLogging.selectedMedicationId
    (fst (DoseLogging.handleLogDose Sample.t_2024_03_01_0805
            (Supabase.accept "l1") st (Sample.world []))) = EmptyString.
Proof.
  intros st.
  refine (proj1 (proj2 (doseLogging_success_clears_selection
                          Sample.t_2024_03_01_0805 "l1" st (Sample.world [])
                          Sample.patient eq_refl _))).
  discriminate.
Defined.

(** X7: when the store refuses the insert, the Dose Logging page keeps the
    selection and the recent logs and leaves the table alone; pressing
    again, with the store accepting, stores the one dose. *)
Theorem doseLogging_refused_insert_can_be_retried (now now' : Z)
  (message generated : string) (st : DoseLogging.State) (w : World)
  (u : User.t) :
  DoseLogging.user st = Some u ->
  DoseLogging.selectedMedicationId st <> EmptyString ->
  let failed := DoseLogging.handleLogDose now (Supabase.refuse message) st w in
  let retried := DoseLogging.handleLogDose now' (Supabase.accept generated)
                   (fst failed) (snd failed) in
  fst failed = st
  /\ db (snd failed) = db w
  /\ toasts (snd failed)
     = toasts w ++ [toast_error (message_or message "Failed to log dose")]
  /\ Supabase.dose_logs (db (snd retried))
     = Supabase.dose_logs (db w)
       ++ [{| Supabase.id := generated;
              Supabase.row :=
                {| Supabase.medication_id := DoseLogging.selectedMedicationId st;
                   Supabase.timestamp := now';
                   Supabase.is_on_time := true;
                   Supabase.user_id := User.id u |} |}].
Proof.
  intros Hu Hsel failed retried.
  unfold retried, failed, DoseLogging.handleLogDose. rewrite Hu.
  destruct (DoseLogging.selectedMedicationId st) as [|c s] eqn:Hs;
    [contradiction|].
  cbn. rewrite Hu, Hs. cbn. repeat split.
Qed.

Lemma doseLogging_refused_insert_can_be_retried_witness :
  let st := {| DoseLogging.user := Some Sample.patient;
               DoseLogging.selectedMedicationId := "m1";
               DoseLogging.recentLogs := [] |} in
  fst (DoseLogging.handleLogDose Sample.t_2024_03_01_0805
         (Supabase.refuse "offline") st (Sample.world [])) = st.
Proof.
  intros st.
  refine (proj1 (doseLogging_refused_insert_can_be_retried
                   Sample.t_2024_03_01_0805 Sample.t_2024_03_01_2100
                   "offline" "l1" st (Sample.world []) Sample.patient eq_refl _)).
  discriminate.
Defined.

(* ================================================================== *)
(** * The Add Medication page: the list of times *)
(* ================================================================== *)

Lemma includes_In (a : list string) (s : string) :
  JS.includes a s = true <-> In s a.
Proof.
  unfold JS.includes. rewrite existsb_exists. split.
  - intros [x [Hin Heq]]. apply String.eqb_eq in Heq. subst. exact Hin.
  - intros Hin. exists s. split; [exact Hin|apply String.eqb_refl].
Qed.

(** X8: [addTime] never enters a time twice: a list of times without
    duplicates stays without duplicates, every time entered before is
    kept, and a second press right after the first changes nothing. *)
Theorem addTime_keeps_times_distinct (st : AddMedication.State) :
  NoDup (AddMedication.times st) ->
  NoDup (AddMedication.times (AddMedication.addTime st))
  /\ (exists added, AddMedication.times (AddMedication.addTime st)
                    = AddMedication.times st ++ added)
  /\ AddMedication.addTime (AddMedication.addTime st) = AddMedication.addTime st.
Proof.
  intros Hnd. unfold AddMedication.addTime.
  destruct (AddMedication.timeInput st) as [|c s] eqn:Hin.
  - rewrite Hin. repeat split; [exact Hnd|exists []; rewrite app_nil_r; reflexivity].
  - destruct (JS.includes (AddMedication.times st) (String c s)) eqn:Hinc.
    + rewrite Hin, Hinc. repeat split; [exact Hnd|].
      exists []. rewrite app_nil_r. reflexivity.
    + cbn. repeat split.
      * assert (Hfresh : ~ In (String c s) (AddMedication.times st)).
        { intros H. apply includes_In in H. congruence. }
        apply NoDup_app; [exact Hnd|constructor; [intros []|constructor]|].
        intros a Ha [<-|[]]. contradiction.
      * eexists. reflexivity.
Qed.

Lemma addTime_keeps_times_distinct_witness :
  NoDup (AddMedication.times
           (AddMedication.addTime
              {| AddMedication.user := Some Sample.patient;
                 AddMedication.times := ["08:00"%string];
                 AddMedication.timeInput := "20:00" |})).
Proof.
  refine (proj1 (addTime_keeps_times_distinct _ _)).
  repeat constructor. intros [].
Defined.

(** X9: [removeTime] takes out the time at the index and nothing else:
    the times before it stay in place, those after it move up by one,
    and an index past the end changes nothing. *)
Theorem removeTime_removes_one (index : nat) (st : AddMedication.State) :
  let before := AddMedication.times st in
  let after := AddMedication.times (AddMedication.removeTime index st) in
  ((index < List.length before)%nat ->
   S (List.length after) = List.length before)
  /\ ((List.length before <= index)%nat -> after = before)
  /\ (forall j, (j < index)%nat -> nth_error after j = nth_error before j)
  /\ (forall j, (index <= j)%nat -> nth_error after j = nth_error before (S j))
  /\ AddMedication.user (AddMedication.removeTime index st) = AddMedication.user st
  /\ AddMedication.timeInput (AddMedication.removeTime index st)
     = AddMedication.timeInput st.
Proof.
  intros before after. unfold after, AddMedication.removeTime, JS.splice1.
  cbn [AddMedication.times AddMedication.setTimes AddMedication.user
       AddMedication.timeInput].
  fold before. repeat split.
  - intros Hlt. rewrite length_app, length_firstn, length_skipn. lia.
  - intros Hge. rewrite firstn_all2 by exact Hge.
    rewrite skipn_all2 by lia. apply app_nil_r.
  - intros j Hj.
    rewrite nth_error_app, length_firstn, nth_error_firstn, nth_error_skipn.
    destruct (Nat.ltb_spec j (Nat.min index (List.length before))) as [Hin|Hout].
    + destruct (Nat.ltb_spec j index); [reflexivity|lia].
    + assert (Hnone : nth_error before j = None) by (apply nth_error_None; lia).
      rewrite Hnone. apply nth_error_None. lia.
  - intros j Hj.
    rewrite nth_error_app, length_firstn, nth_error_firstn, nth_error_skipn.
    destruct (Nat.ltb_spec j (Nat.min index (List.length before))) as [Hin|Hout];
      [lia|].
    destruct (Nat.le_ge_cases index (List.length before)) as [Hle|Hge].
    + f_equal. lia.
    + assert (Hnone : nth_error before (S j) = None) by (apply nth_error_None; lia).
      rewrite Hnone. apply nth_error_None. lia.
Qed.

(** X10: removing the time that [addTime] has just entered gives back the
    list of times there was. *)
Theorem removeTime_undoes_addTime (st : AddMedication.State) :
  AddMedication.timeInput st <> EmptyString ->
  ~ In (AddMedication.timeInput st) (AddMedication.times st) ->
  AddMedication.times
    (AddMedication.removeTime (List.length (AddMedication.times st))
                              (AddMedication.addTime st))
  = AddMedication.times st.
Proof.
  intros Hinput Hfresh. unfold AddMedication.addTime.
  destruct (AddMedication.timeInput st) as [|c s] eqn:Hin; [contradiction|].
  destruct (JS.includes (AddMedication.times st) (String c s)) eqn:Hinc.
  - apply includes_In in Hinc. contradiction.
  - unfold AddMedication.removeTime, JS.splice1.
    cbn [AddMedication.times AddMedication.setTimes].
    rewrite skipn_all2 by (rewrite length_app; cbn; lia).
    rewrite firstn_app, firstn_all, Nat.sub_diag. cbn [firstn].
    rewrite !app_nil_r. reflexivity.
Qed.

Lemma removeTime_undoes_addTime_witness :
  AddMedication.times
    (AddMedication.removeTime 1
       (AddMedication.addTime
          {| AddMedication.user := Some Sample.patient;
             AddMedication.times := ["08:00"%string];
             AddMedication.timeInput := "20:00" |}))
  = ["08:00"%string].
Proof.
  refine (removeTime_undoes_addTime
            {| AddMedication.user := Some Sample.patient;
               AddMedication.times := ["08:00"%string];
               AddMedication.timeInput := "20:00" |} _ _).
  - discriminate.
  - cbn. intros [H|[]]. discriminate H.
Defined.

(* ================================================================== *)
(** * The Add Medication page: frequencies and submission *)
(* ================================================================== *)

(** X11: choosing a frequency other than custom replaces the times,
    whatever they were, by as many times as the frequency stands for, all
    of them well-formed times of day in ascending order; choosing custom
    keeps the times.  The form's frequency becomes the chosen one. *)
Theorem onFrequencyChange_default_times (value : FrequencyType)
  (form : AddMedication.FormValues) (st : AddMedication.State) :
  let after := AddMedication.onFrequencyChange value form st in
  AddMedication.frequency (fst after) = value
  /\ match dosesPerDay value with
     | Some n =>
         List.length (AddMedication.times (snd after)) = n
         /\ timesAscend (AddMedication.times (snd after))
         /\ Forall (fun t => timeOfDay t <> None) (AddMedication.times (snd after))
     | None => AddMedication.times (snd after) = AddMedication.times st
     end
  /\ AddMedication.user (snd after) = AddMedication.user st
  /\ AddMedication.timeInput (snd after) = AddMedication.timeInput st.
Proof.
  destruct value; cbn; repeat split;
    unfold timesAscend;
    repeat (constructor; cbn; try lia; try discriminate).
Qed.

(** X12: after a frequency other than custom has been chosen, a
    signed-in user's submission that the store accepts adds one row to
    the medications table, with the chosen frequency and the times that
    go with it, shows the success notice and goes to the list of
    medications. *)
Theorem submit_after_frequency_choice (now : Z) (generated : string)
  (value : FrequencyType) (form : AddMedication.FormValues)
  (st : AddMedication.State) (w : World) (u : User.t) :
  AddMedication.user st = Some u ->
  value <> custom ->
  let chosen := AddMedication.onFrequencyChange value form st in
  let w' := AddMedication.onSubmit now (Supabase.accept generated)
              (fst chosen) (snd chosen) w in
  (exists row,
      Supabase.medications (db w') = Supabase.medications (db w) ++ [row]
      /\ Supabase.m_frequency row = value
      /\ Some (List.length (Supabase.m_times row)) = dosesPerDay value
      /\ Forall (fun t => timeOfDay t <> None) (Supabase.m_times row)
      /\ Supabase.m_name row = AddMedication.name form
      /\ Supabase.m_user_id row = User.id u)
  /\ toasts w' = toasts w ++ [toast_success "Medication added successfully!"]
  /\ navigated w' = navigated w ++ ["/medications"%string].
Proof.
  intros Hu Hvalue chosen w'. unfold w', chosen, AddMedication.onSubmit.
  destruct value; try contradiction; cbn; rewrite Hu; cbn;
    (split; [eexists; split; [reflexivity|];
             cbn; repeat split;
             repeat (constructor; cbn; try discriminate)
            |split; reflexivity]).
Qed.

Lemma submit_after_frequency_choice_witness :
  let form := {| AddMedication.name := "Aspirin"; AddMedication.dose := "10mg";
                 AddMedication.frequency := once_daily;
                 AddMedication.startDate := Sample.t_2024_01_01;
                 AddMedication.endDate := None;
                 AddMedication.category := None;
                 AddMedication.familyMember := None |} in
  let st := {| AddMedication.user := Some Sample.patient;
               AddMedication.times := [];
               AddMedication.timeInput := EmptyString |} in
  let chosen := AddMedication.onFrequencyChange twice_daily form st in
  navigated (AddMedication.onSubmit Sample.t_2024_03_01_0900
               (Supabase.accept "m1") (fst chosen) (snd chosen) (Sample.world []))
  = ["/medications"%string].
Proof.
  intros form st chosen.
  refine (proj2 (proj2 (submit_after_frequency_choice Sample.t_2024_03_01_0900
                          "m1" twice_daily form st (Sample.world [])
                          Sample.patient eq_refl _))).
  discriminate.
Defined.

(** X13: every submission shows exactly one notice; it leaves the page
    for the list of medications exactly when a row was added, and a
    visitor who is not signed in sends nothing. *)
Theorem onSubmit_outcomes (now : Z) (v : Supabase.verdict)
  (data : AddMedication.FormValues) (st : AddMedication.State) (w : World) :
  let w' := AddMedication.onSubmit now v data st w in
  (exists n, toasts w' = toasts w ++ [n])
  /\ ((exists row, Supabase.medications (db w')
                   = Supabase.medications (db w) ++ [row])
      <-> navigated w' = navigated w ++ ["/medications"%string])
  /\ (navigated w' = navigated w \/ navigated w' = navigated w ++ ["/medications"%string])
  /\ (AddMedication.user st = None -> requests w' = requests w /\ db w' = db w)
  /\ Supabase.dose_logs (db w') = Supabase.dose_logs (db w).
Proof.
  assert (Hgrow : forall (B : Type) (l : list B) (x : B), l = l ++ [x] -> False).
  { intros B l x H. apply (f_equal (@List.length B)) in H.
    rewrite length_app in H. cbn in H. lia. }
  unfold AddMedication.onSubmit.
  destruct (AddMedication.user st) as [u|];
    [destruct (AddMedication.times st) as [|t ts];
     [|destruct v as [generated|message]]|];
    cbn; repeat split; eauto;
    try (intros [row Hrow]; exfalso; exact (Hgrow _ _ _ Hrow));
    try (intros Hnav; exfalso; exact (Hgrow _ _ _ Hnav));
    try discriminate.
Qed.

(* ================================================================== *)
(** * The Register page *)
(* ================================================================== *)

(** X14: a registration is sent to the authentication service exactly
    when the three fields are filled and the two passwords are equal,
    and then once, with the e-mail address and the password; whatever
    happens one notice is shown, and the page goes to the login page
    exactly when the service reports success. *)
Theorem handleSubmit_validates (outcome : Register.signUpOutcome)
  (st : Register.State) (e : Register.Effects) :
  let after := Register.handleSubmit outcome st e in
  let valid := Register.email st <> EmptyString
               /\ Register.password st <> EmptyString
               /\ Register.confirmPassword st <> EmptyString
               /\ Register.password st = Register.confirmPassword st in
  (valid ->
   Register.signUps (snd after)
   = Register.signUps e ++ [(Register.email st, Register.password st)])
  /\ (~ valid -> Register.signUps (snd after) = Register.signUps e
                 /\ fst after = st)
  /\ (exists n, Register.toasts (snd after) = Register.toasts e ++ [n])
  /\ (Register.navigated (snd after) = Register.navigated e ++ ["/login"%string]
      <-> valid /\ outcome = Register.signedUp)
  /\ (Register.navigated (snd after) = Register.navigated e
      \/ Register.navigated (snd after) = Register.navigated e ++ ["/login"%string]).
Proof.
  assert (Hgrow : forall (l : list string) (x : string), l = l ++ [x] -> False).
  { intros l x H. apply (f_equal (@List.length string)) in H.
    rewrite length_app in H. cbn in H. lia. }
  intros after valid. unfold after, valid, Register.handleSubmit.
  destruct (Register.email st) as [|c1 s1];
    [|destruct (Register.password st) as [|c2 s2] eqn:Hp;
      [|destruct (Register.confirmPassword st) as [|c3 s3] eqn:Hc;
        [|destruct (String.eqb_spec (String c2 s2) (String c3 s3)) as [Heq|Hne];
          [destruct outcome|]]]];
    cbn; (split; [|split; [|split; [|split]]]).
  all: try (eexists; reflexivity).
  all: try (left; reflexivity).
  all: try (right; reflexivity).
  all: try (intros [H1 [H2 [H3 H4]]]; first [reflexivity|congruence]).
  all: try (intros Hinvalid; first
              [split; reflexivity
              |exfalso; apply Hinvalid; repeat split; first [discriminate|exact Heq]]).
  all: split.
  all: try (intros Hnav; exfalso; exact (Hgrow _ _ Hnav)).
  all: try (intros [[H1 [H2 [H3 H4]]] H5]; first [reflexivity|congruence]).
  all: try (intros _; repeat split; first [discriminate|exact Heq]).
  all: try (intros Hnav; exfalso; apply app_inv_head in Hnav; discriminate Hnav).
Qed.

(* ================================================================== *)
(** * The Dashboard page: what a fetch leaves in the state *)
(* ================================================================== *)

Lemma filter_negb_length (B : Type) (f : B -> bool) (l : list B) :
  (List.length (filter f l) + List.length (filter (fun x => negb (f x)) l)
   = List.length l)%nat.
Proof.
  induction l as [|x l IH]; [reflexivity|].
  cbn. destruct (f x); cbn; lia.
Qed.

(** X15: after a fetch whose two queries succeed the statistics add up:
    the total is the number of logs, taken and missed doses sum to it,
    the missed doses are the logs without the on-time flag; at most
    three upcoming doses and three most missed medications are kept,
    the page is no longer loading and no notice was shown. *)
Theorem fetchData_statistics_add_up (zone : JS.Zone) (now : Z)
  (clock : nat -> Z)
  (u : User.t) (meds : list Medication.t) (logs : list DoseLog.t)
  (st : Dashboard.State) (w : World) :
  let after := Dashboard.fetchData zone now clock (Some u)
                 (Supabase.returned meds) (Supabase.returned logs) st w in
  let stats := Dashboard.adherenceStats (fst after) in
  AdherenceStat.totalDoses stats = Z.of_nat (List.length logs)
  /\ AdherenceStat.takenDoses stats + AdherenceStat.missedDoses stats
     = AdherenceStat.totalDoses stats
  /\ AdherenceStat.missedDoses stats
     = Z.of_nat (List.length (filter (fun log => negb (DoseLog.isOnTime log)) logs))
  /\ 0 <= AdherenceStat.takenDoses stats <= AdherenceStat.totalDoses stats
  /\ (List.length (Dashboard.upcomingDoses (fst after)) <= 3)%nat
  /\ (List.length (AdherenceStat.mostMissed stats) <= 3)%nat
  /\ Dashboard.medications (fst after) = meds
  /\ Dashboard.recentLogs (fst after) = logs
  /\ Dashboard.isLoading (fst after) = false
  /\ snd after = w.
Proof.
  cbn. pose proof (filter_negb_length _ DoseLog.isOnTime logs) as Hsum.
  pose proof (filter_length_le DoseLog.isOnTime logs) as Hle.
  repeat split; try lia.
  - apply (firstn_le_length 3).
  - apply (firstn_le_length 3).
Qed.

(** X16: when the query for the logs fails after the query for the
    medications has succeeded, the page keeps the new medications and
    upcoming doses next to the old logs and statistics, shows one error
    notice and stops loading; when the query for the medications fails
    nothing but the loading flag changes. *)
Theorem fetchData_failed_query (zone : JS.Zone) (now : Z)
  (clock : nat -> Z) (u : User.t)
  (meds : Supabase.reply Medication.t) (logs : Supabase.reply DoseLog.t)
  (st : Dashboard.State) (w : World) :
  Supabase.error meds <> None \/ Supabase.error logs <> None ->
  let after := Dashboard.fetchData zone now clock (Some u) meds logs st w in
  toasts (snd after) = toasts w ++ [toast_error "Failed to fetch dashboard data"]
  /\ db (snd after) = db w
  /\ Dashboard.isLoading (fst after) = false
  /\ Dashboard.recentLogs (fst after) = Dashboard.recentLogs st
  /\ Dashboard.adherenceStats (fst after) = Dashboard.adherenceStats st
  /\ (Supabase.error meds <> None ->
      Dashboard.medications (fst after) = Dashboard.medications st
      /\ Dashboard.upcomingDoses (fst after) = Dashboard.upcomingDoses st)
  /\ (Supabase.error meds = None ->
      Dashboard.medications (fst after) = Supabase.data meds
      /\ Dashboard.upcomingDoses (fst after)
         = Dashboard.upcoming zone now clock (Supabase.data meds)).
Proof.
  intros Hfail. unfold Dashboard.fetchData.
  destruct (Supabase.error meds) as [m|] eqn:Hm.
  - cbn. repeat split; congruence.
  - destruct (Supabase.error logs) as [l|] eqn:Hl.
    + cbn. repeat split; congruence.
    + exfalso. destruct Hfail as [H|H]; apply H; reflexivity.
Qed.

Lemma fetchData_failed_query_witness :
  Dashboard.medications
    (fst (Dashboard.fetchData 0 Sample.t_2024_03_01_0900
            (fun _ => Sample.t_2024_03_01_0900) (Some Sample.patient)
            (Supabase.returned [Sample.m1])
            {| Supabase.data := []; Supabase.error := Some "offline"%string |}
            Sample.loading (Sample.world [])))
  = [Sample.m1].
Proof.
  refine (proj1 (proj2 (proj2 (proj2 (proj2 (proj2 (proj2
            (fetchData_failed_query 0 Sample.t_2024_03_01_0900
               (fun _ => Sample.t_2024_03_01_0900) Sample.patient
               (Supabase.returned [Sample.m1])
               {| Supabase.data := []; Supabase.error := Some "offline"%string |}
               Sample.loading (Sample.world []) _)))))) eq_refl)).
  right. discriminate.
Defined.

(* ================================================================== *)
(** * The Dashboard page: which doses are shown *)
(* ================================================================== *)

(** Every projected dose comes from a visit of the [flatMap]. *)
Lemma projectedDoses_In (zone : JS.Zone) (now : Z) (clock : nat -> Z)
  (meds : list Medication.t) (dose : UpcomingDose.t) :
  In dose (Dashboard.projectedDoses zone now clock meds) ->
  exists k med timeStr,
    nth_error (Dashboard.scheduledTimes now meds) k = Some (med, timeStr)
    /\ dose = Dashboard.projectDose zone now (clock k) med timeStr.
Proof.
  intros Hin. apply In_nth_error in Hin. destruct Hin as [k Hk].
  destruct (nth_error (Dashboard.scheduledTimes now meds) k)
    as [[med timeStr]|] eqn:Hv.
  - rewrite (projectedDoses_nth _ _ _ _ _ _ _ Hv) in Hk. injection Hk as <-.
    exists k, med, timeStr. split; [exact Hv|reflexivity].
  - exfalso. apply nth_error_None in Hv.
    assert (Hsome : nth_error (Dashboard.projectedDoses zone now clock meds) k <> None)
      by congruence.
    apply nth_error_Some in Hsome. rewrite projectedDoses_length in Hsome. lia.
Qed.

Lemma scheduledTimes_In (now : Z) (meds : list Medication.t)
  (med : Medication.t) (timeStr : string) :
  In (med, timeStr) (Dashboard.scheduledTimes now meds)
  <-> In med meds /\ Dashboard.upcomingFilter now med = true
      /\ In timeStr (Medication.times med).
Proof.
  unfold Dashboard.scheduledTimes. rewrite in_flat_map. split.
  - intros [m [Hm Hin]]. apply filter_In in Hm. apply in_map_iff in Hin.
    destruct Hin as [t [Heq Ht]]. injection Heq as -> ->.
    destruct Hm. repeat split; assumption.
  - intros [Hm [Hf Ht]]. exists med. split.
    + apply filter_In. split; assumption.
    + apply in_map. exact Ht.
Qed.

Lemma upcoming_In_projected (zone : JS.Zone) (now : Z) (clock : nat -> Z)
  (meds : list Medication.t) (dose : UpcomingDose.t) :
  In dose (Dashboard.upcoming zone now clock meds) ->
  In dose (Dashboard.projectedDoses zone now clock meds).
Proof.
  intros Hin. unfold Dashboard.upcoming, JS.slice0 in Hin.
  apply In_firstn in Hin.
  apply (Permutation_in dose (sort_Permutation _ Dashboard.byDueTime _)). exact Hin.
Qed.

(** X17: every upcoming dose shown belongs to a medication of the list
    that passes the filter at [now] (it has started, and its end date,
    if any, is after [now]) and stands for one of its times; a
    medication without times is never shown. *)
Theorem upcoming_doses_of_active_medications (zone : JS.Zone) (now : Z)
  (clock : nat -> Z)
  (meds : list Medication.t) (dose : UpcomingDose.t) :
  In dose (Dashboard.upcoming zone now clock meds) ->
  let med := UpcomingDose.medication dose in
  In med meds
  /\ Medication.startDate med <= now
  /\ (forall e, Medication.endDate med = Some e -> now < e)
  /\ Medication.times med <> [].
Proof.
  intros Hin med. apply upcoming_In_projected in Hin.
  apply projectedDoses_In in Hin. destruct Hin as [k [m [timeStr [Hk ->]]]].
  apply nth_error_In in Hk. apply scheduledTimes_In in Hk.
  destruct Hk as [Hm [Hf Ht]]. unfold med. cbn.
  apply upcomingFilter_true in Hf. destruct Hf as [Hs He].
  repeat split; try assumption.
  - intros e Hend. destruct He as [Hnone|[e' [He' Hlt]]]; congruence.
  - intros Hempty. rewrite Hempty in Ht. destruct Ht.
Qed.

Lemma upcoming_doses_of_active_medications_witness :
  In Sample.m1 [Sample.m1].
Proof.
  refine (proj1 (upcoming_doses_of_active_medications 0 Sample.t_2024_03_01_0900
                   (fun _ => Sample.t_2024_03_01_0900) [Sample.m1]
                   {| UpcomingDose.medication := Sample.m1;
                      UpcomingDose.dueTime := JS.Num 1709323200000 |} _)).
  left. reflexivity.
Defined.

(** X18: at an instant [now] well inside the range of dates, in a zone
    whose offsets stay below a day, with the clock on the day of [now]
    and well-formed times of day that are on the clock on that day and
    the next: every upcoming dose shown is due at one of the times of day
    of its medication, local time, on the calendar day of [now] and then
    not before [now], or else on the next calendar day, its time on the
    day of [now] being past; it is never due later than that. *)
Theorem upcoming_doses_due_today_or_tomorrow (zone : JS.Zone) (now : Z)
  (clock : nat -> Z) (meds : list Medication.t) :
  roomy now -> offsetsBelowADay zone ->
  (forall k, sameLocalDay zone (clock k) now) ->
  (forall med timeStr,
      In med meds -> Dashboard.upcomingFilter now med = true ->
      In timeStr (Medication.times med) ->
      exists h m, timeOfDay timeStr = Some (h, m)
                  /\ onTheClock zone (wallClock zone now 0 h m)
                  /\ onTheClock zone (wallClock zone now 1 h m)) ->
  forall dose, In dose (Dashboard.upcoming zone now clock meds) ->
    exists due timeStr h m,
      UpcomingDose.dueTime dose = JS.Num due
      /\ In timeStr (Medication.times (UpcomingDose.medication dose))
      /\ timeOfDay timeStr = Some (h, m)
      /\ ((JS.LocalTime zone due = wallClock zone now 0 h m /\ now <= due)
          \/ (JS.LocalTime zone due = wallClock zone now 1 h m
              /\ todayAt zone now h m < now)).
Proof.
  intros Hnow Hzone Hclock Hwf dose Hin. apply upcoming_In_projected in Hin.
  apply projectedDoses_In in Hin. destruct Hin as [k [med [timeStr [Hk ->]]]].
  apply nth_error_In in Hk. apply scheduledTimes_In in Hk.
  destruct Hk as [Hmed [Hf Ht]].
  destruct (Hwf med timeStr Hmed Hf Ht) as [h [m [Htime [Htoday Htomorrow]]]].
  rewrite (projectDose_timeOfDay zone now (clock k) med timeStr h m
             Hnow Hzone (Hclock k) Htime Htoday).
  exists (nextDue zone now h m), timeStr, h, m. cbn.
  split; [reflexivity|]. split; [exact Ht|]. split; [exact Htime|].
  unfold nextDue. destruct (Z.ltb_spec (todayAt zone now h m) now) as [Hpast|Hnot].
  - right. split; [exact Htomorrow|exact Hpast].
  - left. split; [exact Htoday|exact Hnot].
Qed.

Lemma upcoming_doses_due_today_or_tomorrow_witness :
  let now := Sample.t_2024_11_02_0900_EDT in
  exists due timeStr h m,
    JS.Num (now + 24 * JS.msPerHour) = JS.Num due
    /\ In timeStr (Medication.times Sample.m1)
    /\ timeOfDay timeStr = Some (h, m)
    /\ ((JS.LocalTime Sample.newYork due = wallClock Sample.newYork now 0 h m
         /\ now <= due)
        \/ (JS.LocalTime Sample.newYork due = wallClock Sample.newYork now 1 h m
            /\ todayAt Sample.newYork now h m < now)).
Proof.
  intros now.
  refine (upcoming_doses_due_today_or_tomorrow Sample.newYork now
            (fun _ => now) [Sample.m1] _ _ _ _
            {| UpcomingDose.medication := Sample.m1;
               UpcomingDose.dueTime := JS.Num (now + 24 * JS.msPerHour) |} _).
  - vm_compute. split; discriminate.
  - intros t isUTC. unfold Sample.newYork.
    destruct isUTC; destruct (t <? _); split; reflexivity.
  - intros k. reflexivity.
  - intros med timeStr [<-|[]] _ [<-|[<-|[]]].
    + exists 8, 0. repeat split.
    + exists 20, 0. repeat split.
  - right. left. reflexivity.
Defined.

Lemma StronglySorted_app_le (B : Type) (R : B -> B -> Prop) (l1 l2 : list B) :
  StronglySorted R (l1 ++ l2) ->
  forall x y, In x l1 -> In y l2 -> R x y.
Proof.
  induction l1 as [|a l1 IH]; intros Hs x y Hx Hy; [destruct Hx|].
  cbn in Hs. inversion Hs as [|a' l' Hrest Hall]; subst.
  destruct Hx as [<-|Hx].
  - rewrite Forall_forall in Hall. apply Hall. apply in_or_app. right. exact Hy.
  - apply (IH Hrest x y Hx Hy).
Qed.

(** X19: when the due times are valid dates, the doses shown are the
    earliest: a projected dose that is not shown is due no earlier than
    any dose that is shown. *)
Theorem upcoming_shows_the_earliest (zone : JS.Zone) (now : Z)
  (clock : nat -> Z)
  (meds : list Medication.t) :
  Forall validDue (Dashboard.projectedDoses zone now clock meds) ->
  forall shown other,
    In shown (Dashboard.upcoming zone now clock meds) ->
    In other (Dashboard.projectedDoses zone now clock meds) ->
    In other (Dashboard.upcoming zone now clock meds) \/ dueNoLater shown other.
Proof.
  intros Hvalid shown other Hshown Hother.
  set (projected := Dashboard.projectedDoses zone now clock meds) in *.
  set (sorted := JS.sort Dashboard.byDueTime projected).
  assert (Hsorted : StronglySorted (keyLe dueKey) sorted).
  { apply sort_sorted with (comparable := validDue);
      [exact byDueTime_key|exact Hvalid]. }
  assert (Hin : In other sorted).
  { apply (Permutation_in other (Permutation_sym (sort_Permutation _ _ _))).
    exact Hother. }
  unfold Dashboard.upcoming, JS.slice0 in *. fold projected sorted in Hshown |- *.
  rewrite <- (firstn_skipn 3 sorted) in Hin, Hsorted.
  apply in_app_or in Hin. destruct Hin as [Hfirst|Hrest]; [left; exact Hfirst|].
  right.
  pose proof (StronglySorted_app_le _ _ _ _ Hsorted shown other Hshown Hrest) as Hle.
  rewrite Forall_forall in Hvalid.
  assert (Hvs : validDue shown).
  { apply Hvalid. apply (Permutation_in shown (sort_Permutation _ Dashboard.byDueTime _)).
    apply (In_firstn _ 3). exact Hshown. }
  destruct Hvs as [ds Hds]. destruct (Hvalid other Hother) as [do Hdo].
  unfold keyLe, dueKey in Hle. unfold dueNoLater. rewrite Hds, Hdo in *.
  cbn. apply Z.leb_le. exact Hle.
Qed.

Lemma upcoming_shows_the_earliest_witness :
  let shown := {| UpcomingDose.medication := Sample.m1;
                  UpcomingDose.dueTime := JS.Num 1709323200000 |} in
  let other := {| UpcomingDose.medication := Sample.m1;
                  UpcomingDose.dueTime := JS.Num Sample.t_2024_03_02_0800 |} in
  In other (Dashboard.upcoming 0 Sample.t_2024_03_01_0900
              (fun _ => Sample.t_2024_03_01_0900) [Sample.m1])
  \/ dueNoLater shown other.
Proof.
  intros shown other.
  refine (upcoming_shows_the_earliest 0 Sample.t_2024_03_01_0900
            (fun _ => Sample.t_2024_03_01_0900) [Sample.m1] _ shown other _ _).
  - repeat (constructor; [eexists; reflexivity|]). constructor.
  - left. reflexivity.
  - left. reflexivity.
Defined.

(* ================================================================== *)
(** * The most missed medications, on both pages *)
(* ================================================================== *)

Lemma defineOrUpdate_entries (V : Type) (P : string * V -> Prop) (key : string)
  (v : V) (o : JS.object V) :
  P (key, v) -> Forall P o -> Forall P (JS.defineOrUpdate key v o).
Proof.
  intros Hv Ho. induction Ho as [|[k w] o Hw Ho IH]; cbn.
  - constructor; [exact Hv|constructor].
  - destruct (String.eqb_spec k key) as [->|Hne]; constructor; auto.
Qed.

(** X20: every entry of the Dashboard's ranking stands for a medication
    of the list: it carries the name of a medication and the number of
    that medication's missed doses, which is not zero. *)
Theorem sortedMostMissed_entries_are_medications (meds : list Medication.t)
  (logs : list DoseLog.t) (entry : MostMissed.t) :
  In entry (Dashboard.sortedMostMissed meds logs) ->
  exists med, In med meds
              /\ MostMissed.medication entry = Medication.name med
              /\ MostMissed.count entry = Dashboard.missedCount logs med
              /\ 0 < MostMissed.count entry.
Proof.
  intros Hin. unfold Dashboard.sortedMostMissed, JS.slice0 in Hin.
  apply In_firstn in Hin.
  apply (Permutation_in entry (sort_Permutation _ Dashboard.byCountDescending _)) in Hin.
  apply in_map_iff in Hin. destruct Hin as [kv [<- Hkv]].
  apply (Permutation_in kv (Object_entries_Permutation _ _)) in Hkv.
  set (P := fun kv : string * Z =>
              exists med, In med meds /\ fst kv = Medication.name med
                          /\ snd kv = Dashboard.missedCount logs med
                          /\ 0 < snd kv).
  assert (Hall : Forall P (Dashboard.missedByMed meds logs)).
  { unfold Dashboard.missedByMed.
    assert (H : forall rest acc,
               (forall med, In med rest -> In med meds) -> Forall P acc ->
               Forall P
                 (fold_left
                    (fun acc med =>
                       let missed := Dashboard.missedCount logs med in
                       if 0 <? missed
                       then JS.assign (Medication.name med) missed acc else acc)
                    rest acc)).
    { induction rest as [|med rest IH]; intros acc Hsub Hacc; cbn; [exact Hacc|].
      apply IH; [intros m Hm; apply Hsub; right; exact Hm|].
      destruct (Z.ltb_spec 0 (Dashboard.missedCount logs med)) as [Hpos|];
        [|exact Hacc].
      unfold JS.assign. destruct (String.eqb _ _); [exact Hacc|].
      apply defineOrUpdate_entries; [|exact Hacc].
      exists med. cbn. repeat split; [apply Hsub; left; reflexivity|exact Hpos]. }
    apply H; [auto|constructor]. }
  rewrite Forall_forall in Hall. exact (Hall kv Hkv).
Qed.

Lemma sortedMostMissed_entries_are_medications_witness :
  exists med, In med [Sample.morning; Sample.evening]
              /\ "Metformin"%string = Medication.name med
              /\ 1 = Dashboard.missedCount Sample.missedLogs med
              /\ 0 < 1.
Proof.
  refine (sortedMostMissed_entries_are_medications
            [Sample.morning; Sample.evening] Sample.missedLogs
            {| MostMissed.medication := "Metformin"; MostMissed.count := 1 |} _).
  left. reflexivity.
Defined.

(** With distinct plain ids the dictionary of the Analytics page lists
    the medications with a missed dose in their order. *)
Lemma analytics_missedByMed_distinct_ids (meds : list Medication.t)
  (logs : list DoseLog.t) :
  NoDup (map Medication.id meds) ->
  Forall (fun med => plainName (Medication.id med)) meds ->
  Analytics.missedByMed meds logs
  = map (fun med => (Medication.id med,
                     (Medication.name med, Dashboard.missedCount logs med)))
        (filter (fun med => 0 <? Dashboard.missedCount logs med) meds).
Proof.
  intros Hnd Hplain. unfold Analytics.missedByMed.
  assert (H : forall acc,
    (forall med, In med meds -> ~ In (Medication.id med) (map fst acc)) ->
    fold_left
      (fun acc med =>
         let missed := Dashboard.missedCount logs med in
         if 0 <? missed
         then JS.assign (Medication.id med) (Medication.name med, missed) acc
         else acc)
      meds acc
    = acc ++ map (fun med => (Medication.id med,
                              (Medication.name med, Dashboard.missedCount logs med)))
                 (filter (fun med => 0 <? Dashboard.missedCount logs med) meds)).
  { induction meds as [|med meds IH]; intros acc Hacc; cbn.
    - rewrite app_nil_r. reflexivity.
    - inversion Hnd as [|n ns Hn Hns]; subst.
      inversion Hplain as [|m ms [_ Hproto] Hms]; subst.
      destruct (0 <? Dashboard.missedCount logs med).
      + unfold JS.assign.
        destruct (String.eqb_spec (Medication.id med) "__proto__");
          [contradiction|].
        rewrite defineOrUpdate_fresh by (apply Hacc; left; reflexivity).
        rewrite IH; [cbn; rewrite <- app_assoc; reflexivity|exact Hns|exact Hms|].
        intros med' Hin. rewrite map_app, in_app_iff. cbn.
        intros [Hold|[Heq|[]]].
        * apply (Hacc med'); [right; exact Hin|exact Hold].
        * apply Hn. rewrite Heq. apply in_map. exact Hin.
      + apply IH; [exact Hns|exact Hms|].
        intros med' Hin. apply Hacc. right; exact Hin. }
  apply (H []). intros med _ [].
Qed.

(** X21: on the Analytics page, for medications with distinct ids that
    are ordinary dictionary keys (as the store's UUIDs are), the ranking
    gives every medication with a missed dose its own entry, name and
    count, also when names coincide: it is the first five of these
    entries sorted by descending count, entries of one count in the
    order of the medication list. *)
Theorem calculateMostMissed_ranks_each_medication (meds : list Medication.t)
  (logs : list DoseLog.t) :
  NoDup (map Medication.id meds) ->
  Forall (fun med => plainName (Medication.id med)) meds ->
  exists sorted,
    Analytics.calculateMostMissed meds logs = firstn 5 sorted
    /\ Permutation sorted (missedEntries meds logs)
    /\ StronglySorted (fun x y => MostMissed.count y <= MostMissed.count x) sorted
    /\ forall k, filter (fun x => MostMissed.count x =? k) sorted
                 = filter (fun x => MostMissed.count x =? k) (missedEntries meds logs).
Proof.
  intros Hnd Hplain.
  assert (Hentries :
    map (fun kv => {| MostMissed.medication := fst (snd kv);
                      MostMissed.count := snd (snd kv) |})
        (JS.Object_entries (Analytics.missedByMed meds logs))
    = missedEntries meds logs).
  { rewrite (analytics_missedByMed_distinct_ids meds logs Hnd Hplain).
    rewrite Object_entries_plain.
    - unfold missedEntries. rewrite map_map. reflexivity.
    - apply Forall_forall. intros kv Hkv. apply in_map_iff in Hkv.
      destruct Hkv as [med [<- Hmed]]. apply filter_In in Hmed.
      rewrite Forall_forall in Hplain. apply (Hplain med). apply Hmed. }
  exists (JS.sort Dashboard.byCountDescending (missedEntries meds logs)).
  unfold Analytics.calculateMostMissed. rewrite Hentries.
  split; [reflexivity|]. split; [apply sort_Permutation|]. split.
  - apply StronglySorted_weaken with (R := keyLe missedKey) (P := fun _ => True).
    + intros x y _ _. unfold keyLe, missedKey. lia.
    + apply Forall_comparable_True.
    + apply sort_sorted with (comparable := fun _ => True);
        [exact byCountDescending_key|apply Forall_comparable_True].
  - intros k.
    assert (Hkey : forall l : list MostMissed.t,
               filter (fun x => MostMissed.count x =? k) l
               = filter (hasKey missedKey (- k)) l).
    { intros l. apply filter_ext. intros x. unfold hasKey, missedKey.
      destruct (Z.eqb_spec (MostMissed.count x) k);
        destruct (Z.eqb_spec (- MostMissed.count x) (- k)); try reflexivity; lia. }
    rewrite !Hkey.
    apply sort_stable with (comparable := fun _ => True);
      [exact byCountDescending_key|apply Forall_comparable_True].
Qed.

Lemma calculateMostMissed_ranks_each_medication_witness :
  exists sorted,
    Analytics.calculateMostMissed [Sample.morning; Sample.evening] Sample.missedLogs
    = firstn 5 sorted
    /\ Permutation sorted
         (missedEntries [Sample.morning; Sample.evening] Sample.missedLogs)
    /\ StronglySorted (fun x y => MostMissed.count y <= MostMissed.count x) sorted
    /\ forall k, filter (fun x => MostMissed.count x =? k) sorted
                 = filter (fun x => MostMissed.count x =? k)
                     (missedEntries [Sample.morning; Sample.evening]
                                    Sample.missedLogs).
Proof.
  refine (calculateMostMissed_ranks_each_medication
            [Sample.morning; Sample.evening] Sample.missedLogs _ _).
  - repeat constructor; cbn; intuition discriminate.
  - repeat constructor; discriminate.
Defined.

(* ================================================================== *)
(** * Days and weeks (date-fns) *)
(* ================================================================== *)

(** Moving a date by [k] days of the month adds [k] days. *)
Lemma setDate_plus_days (tza k t : Z) :
  - JS.maxTime <= t + k * JS.msPerDay <= JS.maxTime ->
  JS.setDate_getDate_plus tza (JS.Num k) (JS.Num t)
  = JS.Num (t + k * JS.msPerDay).
Proof.
  intros Ht. unfold JS.setDate_getDate_plus, JS.MakeDate, JS.toUTC, JS.UTC,
    JS.LocalTime, JS.fixed, JS.Day, JS.TimeWithinDay.
  pose proof (Z.div_mod (t + tza) JS.msPerDay) as Hdm.
  replace (((t + tza) / JS.msPerDay + k) * JS.msPerDay
           + (t + tza) mod JS.msPerDay - tza)
    with (t + k * JS.msPerDay)
    by (unfold JS.msPerDay in *; lia).
  apply TimeClip_Num. exact Ht.
Qed.

Lemma Day_dayStart (tza d : Z) : JS.Day (JS.LocalTime tza (dayStart tza d)) = d.
Proof.
  unfold JS.Day, JS.LocalTime, JS.fixed, dayStart.
  replace (d * JS.msPerDay - tza + tza) with (d * JS.msPerDay) by lia.
  apply Z.div_mul. discriminate.
Qed.

Lemma Day_plus_days (t k : Z) : JS.Day (t + k * JS.msPerDay) = JS.Day t + k.
Proof. unfold JS.Day. apply Z.div_add. discriminate. Qed.

(** The start of the day of an instant, as a day start. *)
Lemma startOfDay_dayStart (tza t : Z) :
  - JS.maxTime + JS.msPerDay <= t <= JS.maxTime ->
  DateFns.startOfDay tza (JS.Num t)
  = JS.Num (dayStart tza (JS.Day (JS.LocalTime tza t))).
Proof. intros Ht. rewrite startOfDay_Num by exact Ht. reflexivity. Qed.

Lemma dayStart_near (tza t : Z) :
  t - JS.msPerDay < dayStart tza (JS.Day (JS.LocalTime tza t)) <= t.
Proof.
  pose proof (Day_bounds (JS.LocalTime tza t)) as Hb.
  unfold dayStart, JS.LocalTime, JS.fixed in *. unfold JS.msPerDay in *. lia.
Qed.

(** The day of the week of a local day number. *)
Lemma weekday_range (d : Z) : 0 <= (d + 4) mod 7 < 7.
Proof. apply Z.mod_pos_bound. lia. Qed.

Lemma weekday_of_start (d : Z) : (d - (d + 4) mod 7 + 4) mod 7 = 0.
Proof.
  pose proof (Z.div_mod (d + 4) 7) as Hdm.
  replace (d - (d + 4) mod 7 + 4) with ((d + 4) / 7 * 7) by lia.
  apply Z.mod_mul. discriminate.
Qed.

(** Two week starts are equal or at least a week apart. *)
Lemma week_starts_apart (tza s1 s2 : Z) :
  isWeekStart tza s1 -> isWeekStart tza s2 -> s1 < s2 ->
  s1 + 7 * JS.msPerDay <= s2.
Proof.
  intros [d1 [-> H1]] [d2 [-> H2]] Hlt. unfold dayStart in *.
  pose proof (Z.div_mod (d1 + 4) 7) as Hdm1.
  pose proof (Z.div_mod (d2 + 4) 7) as Hdm2.
  unfold JS.msPerDay in *. lia.
Qed.

(** The week of an instant starts on the Sunday on or before it. *)
Lemma startOfWeek_Num (tza now : Z) :
  roomy now ->
  exists s, DateFns.startOfWeek tza 0 (JS.Num now) = JS.Num s
            /\ isWeekStart tza s
            /\ now - 7 * JS.msPerDay < s <= now.
Proof.
  intros Hnow. unfold roomy in Hnow.
  set (D := JS.Day (JS.LocalTime tza now)).
  pose proof (weekday_range D) as Hwd.
  pose proof (dayStart_near tza now) as Hnear. fold D in Hnear.
  exists (dayStart tza (D - (D + 4) mod 7)). split; [|split].
  - unfold DateFns.startOfWeek, JS.getDay. fold D.
    destruct (Z.ltb_spec ((D + 4) mod 7) 0) as [Hneg|_]; [lia|].
    replace (- (0 + (D + 4) mod 7 - 0)) with (- ((D + 4) mod 7)) by lia.
    rewrite setDate_plus_days
      by (unfold JS.msPerDay, JS.maxTime in *; lia).
    rewrite startOfDay_dayStart
      by (unfold JS.msPerDay, JS.maxTime in *; lia).
    f_equal. f_equal. unfold JS.LocalTime, JS.fixed.
    replace (now + - ((D + 4) mod 7) * JS.msPerDay + tza)
      with (now + tza + - ((D + 4) mod 7) * JS.msPerDay) by lia.
    rewrite Day_plus_days.
    change (now + tza) with (JS.LocalTime tza now). fold D. lia.
  - exists (D - (D + 4) mod 7). split; [reflexivity|apply weekday_of_start].
  - unfold dayStart in *. unfold JS.msPerDay in *. lia.
Qed.

(** A week later, a week earlier. *)
Lemma addWeeks_one (tza s : Z) :
  - JS.maxTime <= s + 7 * JS.msPerDay <= JS.maxTime ->
  DateFns.addWeeks tza (JS.Num s) 1 = JS.Num (s + 7 * JS.msPerDay).
Proof.
  intros Hs. unfold DateFns.addWeeks, DateFns.addDays. cbn [Z.mul Z.eqb Pos.mul].
  apply setDate_plus_days. exact Hs.
Qed.

Lemma subWeeks_one (tza s : Z) :
  - JS.maxTime <= s - 7 * JS.msPerDay <= JS.maxTime ->
  DateFns.subWeeks tza (JS.Num s) 1 = JS.Num (s - 7 * JS.msPerDay).
Proof.
  intros Hs. unfold DateFns.subWeeks, DateFns.addWeeks, DateFns.addDays.
  cbn [Z.opp Z.mul Z.eqb Pos.mul].
  rewrite setDate_plus_days; [f_equal; lia|lia].
Qed.

Lemma isWeekStart_shift (tza s k : Z) :
  isWeekStart tza s -> isWeekStart tza (s + k * (7 * JS.msPerDay)).
Proof.
  intros [d [-> Hd]]. exists (d + k * 7). split.
  - unfold dayStart. lia.
  - replace (d + k * 7 + 4) with (d + 4 + k * 7) by lia.
    rewrite Z.mod_add by discriminate. exact Hd.
Qed.

(* ================================================================== *)
(** * The Analytics page: paging through the weeks *)
(* ================================================================== *)

(** X22: the week shown on the Analytics page never passes the current
    week.  It starts as the week of the clock; from a week that starts on
    a Sunday at 00:00 and is not after the current week, [Next] goes one
    week forward if that week is before the current one and stays put in
    the current week, so that the week shown is again the start of a week
    and not after the current week. *)
Theorem navigateNextWeek_stays_in_the_past (tza now cur : Z) :
  roomy now -> roomy cur -> isWeekStart tza cur ->
  exists thisWeek,
    Analytics.initialWeekStart tza now = JS.Num thisWeek
    /\ isWeekStart tza thisWeek /\ thisWeek <= now
    /\ (cur <= thisWeek ->
        exists next,
          Analytics.navigateNextWeek tza now (JS.Num cur) = JS.Num next
          /\ next = (if cur <? thisWeek then cur + 7 * JS.msPerDay else cur)
          /\ isWeekStart tza next /\ next <= thisWeek).
Proof.
  intros Hnow Hcur Hstart.
  destruct (startOfWeek_Num tza now Hnow) as [sw [Hsw [Hws Hrange]]].
  exists sw. unfold Analytics.initialWeekStart. split; [exact Hsw|].
  split; [exact Hws|]. split; [lia|].
  intros Hle. unfold Analytics.navigateNextWeek. rewrite Hsw.
  unfold roomy in *.
  rewrite addWeeks_one by (unfold JS.msPerDay, JS.maxTime in *; lia).
  cbn [JS.le].
  destruct (Z.ltb_spec cur sw) as [Hlt|Hge].
  - pose proof (week_starts_apart tza cur sw Hstart Hws Hlt) as Hapart.
    destruct (Z.leb_spec (cur + 7 * JS.msPerDay) sw) as [_|Hno]; [|lia].
    eexists. split; [reflexivity|]. split; [reflexivity|]. split; [|exact Hapart].
    replace (cur + 7 * JS.msPerDay) with (cur + 1 * (7 * JS.msPerDay)) by lia.
    apply isWeekStart_shift. exact Hstart.
  - destruct (Z.leb_spec (cur + 7 * JS.msPerDay) sw) as [Hyes|_];
      [unfold JS.msPerDay in *; lia|].
    eexists. split; [reflexivity|]. split; [reflexivity|]. split; [exact Hstart|lia].
Qed.

Lemma navigateNextWeek_stays_in_the_past_witness :
  exists thisWeek,
    Analytics.initialWeekStart 0 Sample.t_2024_03_01_0900 = JS.Num thisWeek
    /\ isWeekStart 0 thisWeek /\ thisWeek <= Sample.t_2024_03_01_0900
    /\ (1708819200000 <= thisWeek ->
        exists next,
          Analytics.navigateNextWeek 0 Sample.t_2024_03_01_0900 (JS.Num 1708819200000)
          = JS.Num next
          /\ next = (if 1708819200000 <? thisWeek
                     then 1708819200000 + 7 * JS.msPerDay else 1708819200000)
          /\ isWeekStart 0 next /\ next <= thisWeek).
Proof.
  refine (navigateNextWeek_stays_in_the_past 0 Sample.t_2024_03_01_0900
            1708819200000 _ _ _).
  - vm_compute. split; discriminate.
  - vm_compute. split; discriminate.
  - exists 19778. split; reflexivity.
Defined.

(** X23: [Previous] then [Next] comes back to the week shown, whenever
    that week is not after the current week; [Previous] itself goes to
    the start of the week before. *)
Theorem previous_then_next_week (tza now cur thisWeek : Z) :
  roomy now -> roomy cur -> isWeekStart tza cur ->
  Analytics.initialWeekStart tza now = JS.Num thisWeek ->
  cur <= thisWeek ->
  Analytics.navigatePreviousWeek tza (JS.Num cur)
  = JS.Num (cur - 7 * JS.msPerDay)
  /\ isWeekStart tza (cur - 7 * JS.msPerDay)
  /\ Analytics.navigateNextWeek tza now
       (Analytics.navigatePreviousWeek tza (JS.Num cur))
     = JS.Num cur.
Proof.
  intros Hnow Hcur Hstart Hinit Hle. unfold roomy in *.
  unfold Analytics.navigatePreviousWeek.
  rewrite subWeeks_one by (unfold JS.msPerDay, JS.maxTime in *; lia).
  split; [reflexivity|]. split.
  - replace (cur - 7 * JS.msPerDay) with (cur + (-1) * (7 * JS.msPerDay)) by lia.
    apply isWeekStart_shift. exact Hstart.
  - unfold Analytics.navigateNextWeek. unfold Analytics.initialWeekStart in Hinit.
    rewrite Hinit.
    rewrite addWeeks_one by (unfold JS.msPerDay, JS.maxTime in *; lia).
    replace (cur - 7 * JS.msPerDay + 7 * JS.msPerDay) with cur by lia.
    cbn [JS.le]. destruct (Z.leb_spec cur thisWeek); [reflexivity|lia].
Qed.

Lemma previous_then_next_week_witness :
  Analytics.navigateNextWeek 0 Sample.t_2024_03_01_0900
    (Analytics.navigatePreviousWeek 0 (JS.Num 1708819200000))
  = JS.Num 1708819200000.
Proof.
  refine (proj2 (proj2 (previous_then_next_week 0 Sample.t_2024_03_01_0900
                          1708819200000 1708819200000 _ _ _ eq_refl _))).
  - vm_compute. split; discriminate.
  - vm_compute. split; discriminate.
  - exists 19778. split; reflexivity.
  - lia.
Defined.

(* ================================================================== *)
(** * The Analytics page: the weekly chart *)
(* ================================================================== *)

(** The last millisecond of a local day. *)
Lemma setHours_end_of_day (tza t : Z) :
  - JS.maxTime + JS.msPerDay <= t <= JS.maxTime - JS.msPerDay ->
  JS.setHours tza (JS.Num t) (JS.Num 23) (JS.Num 59) (JS.Num 59) (JS.Num 999)
  = JS.Num (dayStart tza (JS.Day (JS.LocalTime tza t)) + JS.msPerDay - 1).
Proof.
  intros Ht. unfold JS.setHours, JS.MakeTime, JS.MakeDate, JS.toUTC, JS.UTC, JS.fixed.
  pose proof (Day_bounds (JS.LocalTime tza t)) as Hb.
  unfold dayStart, JS.LocalTime, JS.fixed in *.
  rewrite TimeClip_Num.
  - f_equal. unfold JS.msPerDay, JS.msPerHour, JS.msPerMinute, JS.msPerSecond. lia.
  - unfold JS.msPerDay, JS.maxTime, JS.msPerHour, JS.msPerMinute, JS.msPerSecond in *.
    lia.
Qed.

(** The week that starts at a week start ends a millisecond before the
    next one. *)
Lemma endOfWeek_of_start (tza d : Z) :
  roomy (dayStart tza d) -> (d + 4) mod 7 = 0 ->
  DateFns.endOfWeek tza 0 (JS.Num (dayStart tza d))
  = JS.Num (dayStart tza d + 7 * JS.msPerDay - 1).
Proof.
  intros Hroomy Hsun. unfold roomy in Hroomy.
  unfold DateFns.endOfWeek, JS.getDay. rewrite Day_dayStart, Hsun.
  cbn [Z.ltb Z.compare Z.sub Z.add Z.opp Pos.add].
  rewrite setDate_plus_days by (unfold JS.msPerDay, JS.maxTime in *; lia).
  rewrite setHours_end_of_day by (unfold JS.msPerDay, JS.maxTime in *; lia).
  f_equal. unfold JS.LocalTime, JS.fixed.
  replace (dayStart tza d + 6 * JS.msPerDay + tza)
    with (dayStart tza d + tza + 6 * JS.msPerDay) by lia.
  rewrite Day_plus_days.
  change (dayStart tza d + tza) with (JS.LocalTime tza (dayStart tza d)).
  rewrite Day_dayStart. unfold dayStart. lia.
Qed.

(** One round of the loop of [eachDayOfInterval] from the start of a
    day. *)
Lemma eachDay_step (fuel : nat) (tza d e : Z) :
  - JS.maxTime + JS.msPerDay <= dayStart tza d <= JS.maxTime - JS.msPerDay ->
  DateFns.eachDay (S fuel) tza (JS.Num (dayStart tza d)) (JS.Num e)
  = if dayStart tza d <=? e
    then JS.Num (dayStart tza d)
         :: DateFns.eachDay fuel tza (JS.Num (dayStart tza (d + 1))) (JS.Num e)
    else [].
Proof.
  intros Hd. cbn [DateFns.eachDay JS.le].
  destruct (dayStart tza d <=? e); [|reflexivity].
  rewrite setDate_plus_days by (unfold JS.msPerDay, JS.maxTime in *; lia).
  rewrite startOfDay_dayStart by (unfold JS.msPerDay, JS.maxTime in *; lia).
  unfold JS.LocalTime, JS.fixed.
  replace (dayStart tza d + 1 * JS.msPerDay + tza)
    with (dayStart tza d + tza + 1 * JS.msPerDay) by lia.
  rewrite Day_plus_days.
  change (dayStart tza d + tza) with (JS.LocalTime tza (dayStart tza d)).
  rewrite Day_dayStart. reflexivity.
Qed.

(** The days of a week: the loop stops at the eighth day start, which is
    after the end of the week, with fuel to spare. *)
Lemma eachDayOfInterval_week (tza d : Z) :
  roomy (dayStart tza d) ->
  DateFns.eachDayOfInterval tza (JS.Num (dayStart tza d))
    (JS.Num (dayStart tza d + 7 * JS.msPerDay - 1))
  = Some (map (fun day => JS.Num (dayStart tza day)) (weekDays d)).
Proof.
  intros Hroomy. unfold roomy in Hroomy. unfold DateFns.eachDayOfInterval.
  destruct (Z.leb_spec (dayStart tza d) (dayStart tza d + 7 * JS.msPerDay - 1))
    as [_|Hno]; [|unfold JS.msPerDay in Hno; lia].
  f_equal.
  replace (dayStart tza d + 7 * JS.msPerDay - 1 - dayStart tza d)
    with (7 * JS.msPerDay - 1) by lia.
  change (Z.to_nat ((7 * JS.msPerDay - 1) / JS.msPerDay + 2)) with 8%nat.
  rewrite startOfDay_dayStart by (unfold JS.msPerDay, JS.maxTime in *; lia).
  rewrite Day_dayStart.
  assert (Hshift : forall k, dayStart tza (d + k) = dayStart tza d + k * JS.msPerDay)
    by (intros k; unfold dayStart; lia).
  unfold weekDays. cbn [map].
  rewrite eachDay_step by (unfold JS.msPerDay, JS.maxTime in *; lia).
  destruct (Z.leb_spec (dayStart tza d) (dayStart tza d + 7 * JS.msPerDay - 1))
    as [_|Hno]; [|unfold JS.msPerDay in Hno; lia].
  f_equal.
  rewrite eachDay_step
    by (rewrite Hshift; unfold JS.msPerDay, JS.maxTime in *; lia).
  destruct (Z.leb_spec (dayStart tza (d + 1)) (dayStart tza d + 7 * JS.msPerDay - 1))
    as [_|Hno]; [|rewrite Hshift in Hno; unfold JS.msPerDay in Hno; lia].
  f_equal. replace (d + 1 + 1) with (d + 2) by lia.
  rewrite eachDay_step
    by (rewrite Hshift; unfold JS.msPerDay, JS.maxTime in *; lia).
  destruct (Z.leb_spec (dayStart tza (d + 2)) (dayStart tza d + 7 * JS.msPerDay - 1))
    as [_|Hno]; [|rewrite Hshift in Hno; unfold JS.msPerDay in Hno; lia].
  f_equal. replace (d + 2 + 1) with (d + 3) by lia.
  rewrite eachDay_step
    by (rewrite Hshift; unfold JS.msPerDay, JS.maxTime in *; lia).
  destruct (Z.leb_spec (dayStart tza (d + 3)) (dayStart tza d + 7 * JS.msPerDay - 1))
    as [_|Hno]; [|rewrite Hshift in Hno; unfold JS.msPerDay in Hno; lia].
  f_equal. replace (d + 3 + 1) with (d + 4) by lia.
  rewrite eachDay_step
    by (rewrite Hshift; unfold JS.msPerDay, JS.maxTime in *; lia).
  destruct (Z.leb_spec (dayStart tza (d + 4)) (dayStart tza d + 7 * JS.msPerDay - 1))
    as [_|Hno]; [|rewrite Hshift in Hno; unfold JS.msPerDay in Hno; lia].
  f_equal. replace (d + 4 + 1) with (d + 5) by lia.
  rewrite eachDay_step
    by (rewrite Hshift; unfold JS.msPerDay, JS.maxTime in *; lia).
  destruct (Z.leb_spec (dayStart tza (d + 5)) (dayStart tza d + 7 * JS.msPerDay - 1))
    as [_|Hno]; [|rewrite Hshift in Hno; unfold JS.msPerDay in Hno; lia].
  f_equal. replace (d + 5 + 1) with (d + 6) by lia.
  rewrite eachDay_step
    by (rewrite Hshift; unfold JS.msPerDay, JS.maxTime in *; lia).
  destruct (Z.leb_spec (dayStart tza (d + 6)) (dayStart tza d + 7 * JS.msPerDay - 1))
    as [_|Hno]; [|rewrite Hshift in Hno; unfold JS.msPerDay in Hno; lia].
  f_equal. replace (d + 6 + 1) with (d + 7) by lia.
  rewrite eachDay_step
    by (rewrite Hshift; unfold JS.msPerDay, JS.maxTime in *; lia).
  destruct (Z.leb_spec (dayStart tza (d + 7)) (dayStart tza d + 7 * JS.msPerDay - 1))
    as [Hyes|_]; [rewrite Hshift in Hyes; unfold JS.msPerDay in Hyes; lia|].
  reflexivity.
Qed.

(** The rounding of no logs at all. *)
Lemma calculateOverallAdherence_cases (logs : list DoseLog.t) :
  Analytics.calculateOverallAdherence logs
  = JS.Math_round
      (if (0 <? List.length logs)%nat
       then JS.multiply
              (JS.divide
                 (inject_Z (Z.of_nat (List.length (filter DoseLog.isOnTime logs))))
                 (inject_Z (Z.of_nat (List.length logs))))
              100
       else 0%Q).
Proof. destruct logs; reflexivity. Qed.

(** The entry of the chart for a day is computed from the logs of that
    local day. *)
Lemma dayAdherence_dayEntry (tza : Z) (format : JS.Date -> string -> string)
  (logs : list DoseLog.t) (d : Z) :
  ordinary (dayStart tza d) ->
  Forall (fun log => ordinary (DoseLog.timestamp log)) logs ->
  Analytics.dayAdherence tza format logs (JS.Num (dayStart tza d))
  = dayEntry tza format logs d.
Proof.
  intros Hd Hlogs.
  assert (Hfilter :
    filter (fun log => DateFns.isSameDay tza (JS.Num (DoseLog.timestamp log))
                         (JS.Num (dayStart tza d))) logs
    = logsOfDay tza d logs).
  { unfold logsOfDay. apply filter_ext_in. intros log Hin.
    rewrite Forall_forall in Hlogs. specialize (Hlogs log Hin).
    pose proof (isSameDay_iff tza (DoseLog.timestamp log) (dayStart tza d) Hlogs Hd)
      as Hiff.
    unfold sameLocalDay in Hiff. rewrite Day_dayStart in Hiff.
    destruct (DateFns.isSameDay tza (JS.Num (DoseLog.timestamp log))
                (JS.Num (dayStart tza d))).
    - symmetry. apply Z.eqb_eq. apply Hiff. reflexivity.
    - symmetry. apply Z.eqb_neq. intros Heq. apply Hiff in Heq. discriminate Heq. }
  unfold Analytics.dayAdherence, dayEntry. rewrite Hfilter.
  rewrite calculateOverallAdherence_cases. reflexivity.
Qed.

(** The chart of a week, in closed form. *)
Lemma calculateWeeklyAdherence_closed (tza : Z)
  (format : JS.Date -> string -> string) (d : Z)
  (logs : list DoseLog.t) (meds : list Medication.t) :
  roomy (dayStart tza d) -> (d + 4) mod 7 = 0 ->
  Forall (fun log => ordinary (DoseLog.timestamp log)) logs ->
  Analytics.calculateWeeklyAdherence tza format (JS.Num (dayStart tza d)) logs meds
  = Some (map (dayEntry tza format logs) (weekDays d)).
Proof.
  intros Hroomy Hsun Hlogs. unfold Analytics.calculateWeeklyAdherence.
  rewrite endOfWeek_of_start by assumption.
  rewrite eachDayOfInterval_week by assumption.
  f_equal. rewrite map_map. apply map_ext_in. intros day Hday.
  apply dayAdherence_dayEntry; [|exact Hlogs].
  unfold roomy in Hroomy. unfold weekDays in Hday. cbn [In] in Hday.
  unfold ordinary, dayStart in *. unfold JS.msPerDay, JS.maxTime in *. lia.
Qed.

(** X24: the weekly chart of the Analytics page.  For a week that starts
    on a Sunday at 00:00, the chart has seven entries, for that Sunday
    and the six days after it in this order; the entry of a day is
    labelled with that day, counts the logs recorded on that local day
    and those of them taken on time, and shows the percentage the page
    computes overall, taken over the logs of that day alone. *)
Theorem calculateWeeklyAdherence_one_entry_a_day (tza : Z)
  (format : JS.Date -> string -> string) (s : Z)
  (logs : list DoseLog.t) (meds : list Medication.t) :
  roomy s -> isWeekStart tza s ->
  Forall (fun log => ordinary (DoseLog.timestamp log)) logs ->
  exists sunday,
    s = dayStart tza sunday /\ (sunday + 4) mod 7 = 0
    /\ Analytics.calculateWeeklyAdherence tza format (JS.Num s) logs meds
       = Some (map (dayEntry tza format logs) (weekDays sunday)).
Proof.
  intros Hroomy [d [-> Hsun]] Hlogs. exists d.
  split; [reflexivity|]. split; [exact Hsun|].
  apply calculateWeeklyAdherence_closed; assumption.
Qed.

Lemma calculateWeeklyAdherence_one_entry_a_day_witness :
  exists sunday,
    1708819200000 = dayStart 0 sunday /\ (sunday + 4) mod 7 = 0
    /\ Analytics.calculateWeeklyAdherence 0 (fun _ pattern => pattern)
         (JS.Num 1708819200000) Sample.scenarioLogs []
       = Some (map (dayEntry 0 (fun _ pattern => pattern) Sample.scenarioLogs)
                   (weekDays sunday)).
Proof.
  refine (calculateWeeklyAdherence_one_entry_a_day 0 (fun _ pattern => pattern)
            1708819200000 Sample.scenarioLogs [] _ _ _).
  - vm_compute. split; discriminate.
  - exists 19778. split; reflexivity.
  - repeat constructor; vm_compute; discriminate.
Defined.

(** X25: every entry of the weekly chart is a percentage of its own
    counts.  Whatever the day, the on-time count is at most the total,
    the rate lies between 0 and 100 and is an integer nearest to
    100 * taken / total; a day without logs shows 0. *)
Theorem dayAdherence_rate (tza : Z) (format : JS.Date -> string -> string)
  (logs : list DoseLog.t) (day : JS.Date) :
  Z.of_nat (List.length logs) < 2 ^ 32 ->
  let entry := Analytics.dayAdherence tza format logs day in
  let rate := WeeklyAdherence.adherenceRate entry in
  let total := WeeklyAdherence.total entry in
  let taken := WeeklyAdherence.taken entry in
  0 <= taken <= total
  /\ 0 <= rate <= 100
  /\ - total <= 2 * total * rate - 200 * taken <= total
  /\ (total = 0 -> rate = 0).
Proof.
  intros Hlen. unfold Analytics.dayAdherence. cbn zeta.
  cbn [WeeklyAdherence.adherenceRate WeeklyAdherence.total WeeklyAdherence.taken].
  set (dayLogs := filter _ logs).
  pose proof (filter_length_le DoseLog.isOnTime dayLogs) as Htaken.
  assert (Htotal : (List.length dayLogs <= List.length logs)%nat)
    by apply filter_length_le.
  destruct (Nat.ltb_spec 0 (List.length dayLogs)) as [Hpos|Hzero].
  - pose proof (percentage_nearest
                  (Z.of_nat (List.length (filter DoseLog.isOnTime dayLogs)))
                  (Z.of_nat (List.length dayLogs))) as Hnear.
    cbn zeta in Hnear.
    assert (H1 : 0 <= Z.of_nat (List.length (filter DoseLog.isOnTime dayLogs))
                 <= Z.of_nat (List.length dayLogs)) by lia.
    assert (H2 : 0 < Z.of_nat (List.length dayLogs) < 2 ^ 32) by lia.
    specialize (Hnear H1 H2).
    set (rate := JS.Math_round _) in *.
    set (n := Z.of_nat (List.length dayLogs)) in *.
    set (k := Z.of_nat (List.length (filter DoseLog.isOnTime dayLogs))) in *.
    split; [lia|]. split; [nia|]. split; [exact Hnear|lia].
  - assert (Hn : List.length dayLogs = 0%nat) by lia.
    assert (Hk : List.length (filter DoseLog.isOnTime dayLogs) = 0%nat) by lia.
    rewrite Hn, Hk. change (JS.Math_round 0) with 0. cbn. lia.
Qed.

Lemma dayAdherence_rate_witness :
  let entry := Analytics.dayAdherence 0 (fun _ pattern => pattern)
                 Sample.scenarioLogs (JS.Num Sample.t_2024_03_01_0900) in
  - WeeklyAdherence.total entry
  <= 2 * WeeklyAdherence.total entry * WeeklyAdherence.adherenceRate entry
     - 200 * WeeklyAdherence.taken entry
  <= WeeklyAdherence.total entry.
Proof.
  refine (proj1 (proj2 (proj2 (dayAdherence_rate 0 (fun _ pattern => pattern)
                                 Sample.scenarioLogs
                                 (JS.Num Sample.t_2024_03_01_0900) _)))).
  vm_compute. reflexivity.
Defined.

(** The logs of a week, a day at a time. *)
Lemma week_counts (tza d : Z) (q : DoseLog.t -> bool) (logs : list DoseLog.t) :
  sumZ (map (fun day => Z.of_nat (List.length (filter q (logsOfDay tza day logs))))
            (weekDays d))
  = Z.of_nat (List.length (filter q (logsOfWeek tza d logs))).
Proof.
  unfold weekDays, sumZ. cbn [map fold_right].
  induction logs as [|log logs IH]; [reflexivity|].
  unfold logsOfDay, logsOfWeek in *. cbn [filter]. cbn zeta.
  set (day := JS.Day (JS.LocalTime tza (DoseLog.timestamp log))).
  destruct (Z.leb_spec d day) as [Hlo|Hlo];
    destruct (Z.ltb_spec day (d + 7)) as [Hhi|Hhi]; cbn [andb];
    destruct (Z.eqb_spec day d); try (exfalso; lia);
    destruct (Z.eqb_spec day (d + 1)); try (exfalso; lia);
    destruct (Z.eqb_spec day (d + 2)); try (exfalso; lia);
    destruct (Z.eqb_spec day (d + 3)); try (exfalso; lia);
    destruct (Z.eqb_spec day (d + 4)); try (exfalso; lia);
    destruct (Z.eqb_spec day (d + 5)); try (exfalso; lia);
    destruct (Z.eqb_spec day (d + 6)); try (exfalso; lia);
    cbn [filter]; destruct (q log); cbn [List.length]; lia.
Qed.

(** X26: the weekly chart counts every log of the week once.  The totals
    of the seven entries add up to the number of logs recorded from the
    Sunday to the Saturday of the week, and the on-time counts to the
    number of those taken on time; logs of other weeks are left out. *)
Theorem calculateWeeklyAdherence_counts_each_log_once (tza : Z)
  (format : JS.Date -> string -> string) (s : Z)
  (logs : list DoseLog.t) (meds : list Medication.t) :
  roomy s -> isWeekStart tza s ->
  Forall (fun log => ordinary (DoseLog.timestamp log)) logs ->
  exists week,
    Analytics.calculateWeeklyAdherence tza format (JS.Num s) logs meds = Some week
    /\ sumZ (map WeeklyAdherence.total week)
       = Z.of_nat (List.length (logsOfWeek tza (JS.Day (JS.LocalTime tza s)) logs))
    /\ sumZ (map WeeklyAdherence.taken week)
       = Z.of_nat (List.length
                     (filter DoseLog.isOnTime
                        (logsOfWeek tza (JS.Day (JS.LocalTime tza s)) logs))).
Proof.
  intros Hroomy [d [-> Hsun]] Hlogs. rewrite Day_dayStart.
  exists (map (dayEntry tza format logs) (weekDays d)). split; [|split].
  - apply calculateWeeklyAdherence_closed; assumption.
  - rewrite map_map. cbn [dayEntry WeeklyAdherence.total].
    pose proof (week_counts tza d (fun _ => true) logs) as Hsum.
    rewrite (filter_all _ (fun _ => true) (logsOfWeek tza d logs)) in Hsum
      by reflexivity.
    rewrite <- Hsum. f_equal. apply map_ext. intros day.
    rewrite filter_all by reflexivity. reflexivity.
  - rewrite map_map. cbn [dayEntry WeeklyAdherence.taken].
    apply week_counts.
Qed.

Lemma calculateWeeklyAdherence_counts_each_log_once_witness :
  exists week,
    Analytics.calculateWeeklyAdherence 0 (fun _ pattern => pattern)
      (JS.Num 1708819200000) Sample.scenarioLogs [] = Some week
    /\ sumZ (map WeeklyAdherence.total week)
       = Z.of_nat (List.length
                     (logsOfWeek 0 (JS.Day (JS.LocalTime 0 1708819200000))
                        Sample.scenarioLogs))
    /\ sumZ (map WeeklyAdherence.taken week)
       = Z.of_nat (List.length
                     (filter DoseLog.isOnTime
                        (logsOfWeek 0 (JS.Day (JS.LocalTime 0 1708819200000))
                           Sample.scenarioLogs))).
Proof.
  refine (calculateWeeklyAdherence_counts_each_log_once 0 (fun _ pattern => pattern)
            1708819200000 Sample.scenarioLogs [] _ _ _).
  - vm_compute. split; discriminate.
  - exists 19778. split; reflexivity.
  - repeat constructor; vm_compute; discriminate.
Defined.

(** X27: the overall adherence of the Analytics page lies between 0 and
    100, is 0 without logs and when no log was taken on time, is 100
    when every log was taken on time, and is the percentage the
    Dashboard shows for the same logs. *)
Theorem calculateOverallAdherence_range (logs : list DoseLog.t) :
  Z.of_nat (List.length logs) < 2 ^ 32 ->
  let overall := Analytics.calculateOverallAdherence logs in
  0 <= overall <= 100
  /\ (forallb (fun log => negb (DoseLog.isOnTime log)) logs = true -> overall = 0)
  /\ (logs <> [] -> forallb DoseLog.isOnTime logs = true -> overall = 100)
  /\ overall = Dashboard.shownAdherence logs.
Proof.
  intros Hlen. cbn zeta.
  pose proof (filter_length_le DoseLog.isOnTime logs) as Hk.
  assert (Hnear :
    logs <> [] ->
    - Z.of_nat (List.length logs)
    <= 2 * Z.of_nat (List.length logs) * Analytics.calculateOverallAdherence logs
       - 200 * Z.of_nat (List.length (filter DoseLog.isOnTime logs))
    <= Z.of_nat (List.length logs)).
  { intros Hne.
    pose proof (percentage_nearest
                  (Z.of_nat (List.length (filter DoseLog.isOnTime logs)))
                  (Z.of_nat (List.length logs))) as H.
    cbn zeta in H.
    assert (Hpos : (0 < List.length logs)%nat)
      by (destruct logs; [congruence|cbn; lia]).
    destruct logs as [|log logs]; [congruence|].
    apply H; lia. }
  destruct logs as [|log logs].
  - cbn [Analytics.calculateOverallAdherence]. split; [lia|].
    split; [reflexivity|]. split; [congruence|reflexivity].
  - assert (Hne : log :: logs <> []) by discriminate.
    specialize (Hnear Hne).
    set (overall := Analytics.calculateOverallAdherence (log :: logs)) in *.
    set (n := Z.of_nat (List.length (log :: logs))) in *.
    assert (Hn : 0 < n) by (unfold n; cbn [List.length]; lia).
    split; [|split; [|split]].
    + set (k := Z.of_nat (List.length (filter DoseLog.isOnTime (log :: logs)))) in *.
      assert (Hkn : 0 <= k <= n) by (unfold k, n; lia).
      nia.
    + intros Hnone.
      rewrite (filter_none _ DoseLog.isOnTime (log :: logs)) in Hnear.
      * cbn [List.length Z.of_nat] in Hnear. nia.
      * intros x Hx. rewrite forallb_forall in Hnone. specialize (Hnone x Hx).
        destruct (DoseLog.isOnTime x); [discriminate Hnone|reflexivity].
    + intros _ Hall.
      rewrite (filter_all _ DoseLog.isOnTime (log :: logs)) in Hnear.
      * fold n in Hnear. nia.
      * intros x Hx. rewrite forallb_forall in Hall. exact (Hall x Hx).
    + reflexivity.
Qed.

Lemma calculateOverallAdherence_range_witness :
  0 <= Analytics.calculateOverallAdherence Sample.fortyLogs <= 100.
Proof.
  refine (proj1 (calculateOverallAdherence_range Sample.fortyLogs _)).
  vm_compute. reflexivity.
Defined.

